(** * bot.py: schedule table, user store and notification tick

    A shallow embedding of [bot.py] (the fasting-time reminder bot) and the
    properties of its schedule resolution, its sent-keys ledger and its
    notification loop.

    Conventions of the embedding:
    - a Python [str] is a [string]; every character is read as a code point
      below 256, so [str] comparison is the comparison of [String.compare];
    - a Python [dict] is an association list in insertion order with unique
      keys ([dict_set] overwrites in place, as assignment to an existing key
      does, and appends a new key at the end);
    - [date], [time] and [datetime] are records of integer fields; the result
      of [datetime - timedelta] is an instant, counted in microseconds;
    - the two library parsers the program calls, [date.fromisoformat] and
      [int], are the fields of the class [PyLib]: the program is verified for
      every behaviour of theirs, and [strict_lib] is an instance that reads
      the canonical forms, for running the program on concrete inputs;
    - the files are inputs: [time.txt] as the list of its lines when it
      exists, [users.json] as the snapshot last written by [save_users];
    - the transport is a function that says which sends are delivered, and a
      message is kept as the template its text is built from;
    - an iteration of the loop is one step: the handlers that the event loop
      could run while a send is awaited are not interleaved with it;
    - a handler is a function of the store: it returns the answer it makes,
      as the template of its text, and the store it leaves. *)

From Stdlib Require Import ZArith List String Ascii Bool Lia.
From Stdlib Require Import Sorting.Permutation Sorting.Sorted Sorting.Mergesort.
From Stdlib Require Import Orders OrderedTypeEx.
From Stdlib Require Import Numbers.DecimalString Numbers.DecimalZ Numbers.DecimalPos.
Import ListNotations.

Local Open Scope string_scope.
Local Open Scope Z_scope.
Local Open Scope list_scope.

(** ** Python strings *)

Module PyStr.

(** [str.isspace] on the code points below 256. *)
Definition isspace (c : ascii) : bool :=
  let n := N_of_ascii c in
  (((9 <=? n) && (n <=? 13)) || ((28 <=? n) && (n <=? 32))
   || (n =? 133) || (n =? 160))%N.

Fixpoint lstrip (s : string) : string :=
  match s with
  | EmptyString => EmptyString
  | String c r => if isspace c then lstrip r else s
  end.

Fixpoint rstrip (s : string) : string :=
  match s with
  | EmptyString => EmptyString
  | String c r =>
      match rstrip r with
      | EmptyString => if isspace c then EmptyString else String c EmptyString
      | r' => String c r'
      end
  end.

(** [s.strip()] *)
Definition strip (s : string) : string := rstrip (lstrip s).

(** [s.split(sep)] for a one-character separator. *)
Fixpoint split (sep : ascii) (s : string) : list string :=
  match s with
  | EmptyString => [EmptyString]
  | String c r =>
      if Ascii.eqb c sep then EmptyString :: split sep r
      else match split sep r with
           | h :: t => String c h :: t
           | [] => [String c EmptyString]
           end
  end.

(** [s.startswith(p)] *)
Definition startswith (p s : string) : bool := String.prefix p s.

(** [x in l] for a list of strings. *)
Definition contains (x : string) (l : list string) : bool :=
  existsb (String.eqb x) l.

(** One decimal digit. *)
Definition digit (n : Z) : ascii := ascii_of_N (48 + Z.to_N n).

(** ["%02d" % n] for [0 <= n <= 99]. *)
Definition fmt02 (n : Z) : string :=
  String (digit (n / 10 mod 10)) (String (digit (n mod 10)) EmptyString).

(** ["%04d" % n] for [0 <= n <= 9999]. *)
Definition fmt04 (n : Z) : string :=
  String (digit (n / 1000 mod 10)) (String (digit (n / 100 mod 10)) (fmt02 n)).

(** [str(n)] for an integer. *)
Definition str_of_int (n : Z) : string := NilZero.string_of_int (Z.to_int n).

End PyStr.

(** ** Python dictionaries *)

Class EqKey (K : Type) := {
  keqb : K -> K -> bool;
  keqb_spec : forall a b, reflect (a = b) (keqb a b)
}.

#[export] Instance string_EqKey : EqKey string :=
  {| keqb := String.eqb; keqb_spec := String.eqb_spec |}.

Section Dict.
Context {K V : Type} `{EqKey K}.

Definition dict := list (K * V).

(** [d.get(k)] *)
Fixpoint dict_get (k : K) (d : dict) : option V :=
  match d with
  | [] => None
  | (k', v) :: r => if keqb k k' then Some v else dict_get k r
  end.

(** [k in d] *)
Definition dict_mem (k : K) (d : dict) : bool :=
  match dict_get k d with Some _ => true | None => false end.

(** [d[k] = v] *)
Fixpoint dict_set (k : K) (v : V) (d : dict) : dict :=
  match d with
  | [] => [(k, v)]
  | (k', v') :: r =>
      if keqb k k' then (k', v) :: r else (k', v') :: dict_set k v r
  end.

(** [d.setdefault(k, v)] (the returned value is not used by the program) *)
Definition dict_setdefault (k : K) (v : V) (d : dict) : dict :=
  if dict_mem k d then d else dict_set k v d.

(** [d.pop(k, None)] *)
Fixpoint dict_pop (k : K) (d : dict) : dict :=
  match d with
  | [] => []
  | (k', v) :: r => if keqb k k' then r else (k', v) :: dict_pop k r
  end.

(** [d.keys()] *)
Definition dict_keys (d : dict) : list K := map fst d.

(** The keys of a dictionary are pairwise distinct. *)
Definition dict_wf (d : dict) : Prop := NoDup (dict_keys d).

End Dict.

Arguments dict : clear implicits.

(** ** Dates and times of day *)

Record date := mkdate { year : Z; month : Z; day : Z }.

Definition is_leap (y : Z) : bool :=
  (y mod 4 =? 0) && (negb (y mod 100 =? 0) || (y mod 400 =? 0)).

Definition days_in_month (y m : Z) : Z :=
  if m =? 2 then (if is_leap y then 29 else 28)
  else if (m =? 4) || (m =? 6) || (m =? 9) || (m =? 11) then 30 else 31.

Definition days_before_year (y : Z) : Z :=
  let y1 := y - 1 in y1 * 365 + y1 / 4 - y1 / 100 + y1 / 400.

Definition days_before_month (y m : Z) : Z :=
  nth (Z.to_nat m) [0; 0; 31; 59; 90; 120; 151; 181; 212; 243; 273; 304; 334] 0
  + (if (2 <? m) && is_leap y then 1 else 0).

(** [d.toordinal()] *)
Definition toordinal (d : date) : Z :=
  days_before_year (year d) + days_before_month (year d) (month d) + day d.

(** The dates [date(y, m, d)] accepts. *)
Definition valid_date (d : date) : bool :=
  (1 <=? year d) && (year d <=? 9999) && (1 <=? month d) && (month d <=? 12)
  && (1 <=? day d) && (day d <=? days_in_month (year d) (month d)).

Definition date_eqb (a b : date) : bool :=
  (year a =? year b) && (month a =? month b) && (day a =? day b).

(** [a < b]: dates compare as the tuples (year, month, day). *)
Definition date_ltb (a b : date) : bool :=
  (year a <? year b)
  || ((year a =? year b)
      && ((month a <? month b) || ((month a =? month b) && (day a <? day b)))).

Lemma date_eqb_spec (a b : date) : reflect (a = b) (date_eqb a b).
Proof.
  destruct a as [y m d], b as [y' m' d']; unfold date_eqb; simpl.
  destruct (Z.eqb_spec y y'); simpl;
    [destruct (Z.eqb_spec m m'); simpl; [destruct (Z.eqb_spec d d'); simpl|]|];
    constructor; congruence.
Qed.

#[export] Instance date_EqKey : EqKey date :=
  {| keqb := date_eqb; keqb_spec := date_eqb_spec |}.

(** [d.isoformat()], that is ["%04d-%02d-%02d" % (year, month, day)], for
    the dates [date(y, m, d)] accepts (years of at most four digits). *)
Definition isoformat (d : date) : string :=
  (PyStr.fmt04 (year d) ++ "-" ++ PyStr.fmt02 (month d) ++ "-"
   ++ PyStr.fmt02 (day d))%string.

(** [d + timedelta(days=1)]; [None] is the [OverflowError] past 9999-12-31. *)
Definition next_day (d : date) : option date :=
  if day d <? days_in_month (year d) (month d)
  then Some (mkdate (year d) (month d) (day d + 1))
  else if month d <? 12 then Some (mkdate (year d) (month d + 1) 1)
  else if year d <? 9999 then Some (mkdate (year d + 1) 1 1)
  else None.

(** A time of day as [parse_time_hhmm] builds it: [dtime(hh, mm)], seconds and
    microseconds zero. *)
Record dtime := mktime { hour : Z; minute : Z }.

(** [dtime(h, m)]; [None] is the [ValueError] of a field out of range. *)
Definition dtime_new (h m : Z) : option dtime :=
  if (0 <=? h) && (h <=? 23) && (0 <=? m) && (m <=? 59)
  then Some (mktime h m) else None.

(** ** The library parsers *)

Class PyLib := {
  (** [date.fromisoformat(s)]; [None] when it raises. *)
  date_fromisoformat : string -> option date;
  (** [int(s)]; [None] when it raises. *)
  py_int : string -> option Z
}.

(** ** The time table *)

Definition schedule := dict date (dtime * dtime).

Section TimeTable.
Context {L : PyLib}.

Definition parse_time_hhmm (s : string) : option dtime :=
  match PyStr.split ":" (PyStr.strip s) with
  | [hh; mm] =>
      match py_int hh with
      | None => None
      | Some h =>
          match py_int mm with
          | None => None
          | Some m => dtime_new h m
          end
      end
  | _ => None
  end.

(** The body of the loop of [load_schedule]: one line of [time.txt]. *)
Definition load_row (sched : schedule) (line : string) : schedule :=
  let line := PyStr.strip line in
  if (line =? "")%string || PyStr.startswith "#" line then sched
  else
    let parts := map PyStr.strip (PyStr.split ";" line) in
    if (List.length parts <? 3)%nat then sched
    else
      match parts with
      | p0 :: p1 :: p2 :: _ =>
          match date_fromisoformat p0 with
          | None => sched
          | Some row_day =>
              match parse_time_hhmm p1 with
              | None => sched
              | Some sah =>
                  match parse_time_hhmm p2 with
                  | None => sched
                  | Some ift => dict_set row_day (sah, ift) sched
                  end
              end
          end
      | _ => sched
      end.

(** [time_file] is [None] when [time.txt] does not exist, and the lines of
    its text otherwise. *)
Definition load_schedule (time_file : option (list string)) : schedule :=
  match time_file with
  | None => []
  | Some lines => fold_left load_row lines []
  end.

Definition load_day_times (time_file : option (list string))
    (target_date : date) : option (dtime * dtime) :=
  dict_get target_date (load_schedule time_file).

(** The sort key of [find_nearest_day_times]. *)
Definition nearest_key (target_date d : date) : Z * Z * Z :=
  (Z.abs (toordinal d - toordinal target_date),
   if date_ltb target_date d then 0 else 1,
   toordinal d).

(** [a < b] on the key tuples. *)
Definition key_ltb (a b : Z * Z * Z) : bool :=
  let '(a1, a2, a3) := a in
  let '(b1, b2, b3) := b in
  (a1 <? b1) || ((a1 =? b1) && ((a2 <? b2) || ((a2 =? b2) && (a3 <? b3)))).

(** [min(l, key=f)]: the first element among those whose key is least. *)
Fixpoint min_from {A : Type} (f : A -> Z * Z * Z) (best : A) (l : list A) : A :=
  match l with
  | [] => best
  | x :: r => min_from f (if key_ltb (f x) (f best) then x else best) r
  end.

Definition find_nearest_day_times (time_file : option (list string))
    (target_date : date) : option (date * (dtime * dtime)) :=
  let sched := load_schedule time_file in
  match dict_keys sched with
  | [] => None (* if not schedule *)
  | k :: ks =>
      let nearest_day := min_from (nearest_key target_date) k ks in
      match dict_get nearest_day sched with
      | Some times => Some (nearest_day, times)
      | None => None (* a key of the table has a value *)
      end
  end.

Definition resolve_day_times (time_file : option (list string))
    (target_date : date) : option (date * dtime * dtime * bool) :=
  match load_day_times time_file target_date with
  | Some (sah, ift) => Some (target_date, sah, ift, true)
  | None =>
      match find_nearest_day_times time_file target_date with
      | None => None
      | Some (nearest_day, (sah, ift)) => Some (nearest_day, sah, ift, false)
      end
  end.

End TimeTable.

(** ** An instance of the library parsers on canonical input *)

Module Strict.

Definition digit_val (c : ascii) : option Z :=
  let n := N_of_ascii c in
  if ((48 <=? n) && (n <=? 57))%N then Some (Z.of_N n - 48) else None.

Fixpoint digits_val (acc : Z) (s : string) : option Z :=
  match s with
  | EmptyString => Some acc
  | String c r =>
      match digit_val c with
      | Some v => digits_val (10 * acc + v) r
      | None => None
      end
  end.

(** [int(s)] on a non-empty string of decimal digits. *)
Definition int (s : string) : option Z :=
  match s with
  | EmptyString => None
  | _ => digits_val 0 s
  end.

(** [date.fromisoformat(s)] on the form [YYYY-MM-DD]. *)
Definition fromisoformat (s : string) : option date :=
  match PyStr.split "-" s with
  | [y; m; d] =>
      if ((String.length y =? 4) && (String.length m =? 2)
          && (String.length d =? 2))%nat
      then
        match int y, int m, int d with
        | Some y, Some m, Some d =>
            if valid_date (mkdate y m d) then Some (mkdate y m d) else None
        | _, _, _ => None
        end
      else None
  | _ => None
  end.

End Strict.

#[export] Instance strict_lib : PyLib :=
  {| date_fromisoformat := Strict.fromisoformat; py_int := Strict.int |}.

(** ** Configuration *)

(** The lead minutes of a preset, per event. *)
Record leads := mkleads { iftar : list Z; saharlik : list Z }.

Definition PRESETS : dict string leads :=
  [("full"%string, mkleads [30; 15; 10; 5; 1] [5]);
   ("short"%string, mkleads [10; 5; 1] [5]);
   ("minimal"%string, mkleads [5; 1] [5])].

Definition DEFAULT_PRESET : string := "full".
Definition NIGHT_MESSAGE_AT : string := "22:00".
Definition MORNING_MESSAGE_AT : string := "08:30".

(** ** Data model *)

Record UserSettings := mkuser {
  enabled : bool;
  preset : string;
  morning_time : string;
  night_time : string;
  sent_keys : dict string (list string)
}.

(** [UserSettings()] *)
Definition new_user : UserSettings :=
  mkuser true DEFAULT_PRESET MORNING_MESSAGE_AT NIGHT_MESSAGE_AT [].

Definition set_preset (p : string) (u : UserSettings) : UserSettings :=
  mkuser (enabled u) p (morning_time u) (night_time u) (sent_keys u).

Definition set_sent_keys (l : dict string (list string)) (u : UserSettings)
    : UserSettings :=
  mkuser (enabled u) (preset u) (morning_time u) (night_time u) l.

(** ** Storage *)

(** The global [users] and the snapshot in [users.json] ([None]: no file).
    A settings object is the entry of [users] under its uid: code that
    mutates the object returned by [get_user] updates that entry. *)
Record store := mkstore {
  users : dict string UserSettings;
  users_file : option (dict string UserSettings)
}.

Definition save_users (st : store) : store :=
  mkstore (users st) (Some (users st)).

(** What a restart reads back. *)
Definition load_users (st : store) : dict string UserSettings :=
  match users_file st with
  | None => []
  | Some data => data
  end.

(** [sorted(l)] on strings. *)
Module StrOrder <: TotalLeBool.
Definition t := string.
Definition leb : t -> t -> bool := String.leb.
Theorem leb_total : forall a b, leb a b = true \/ leb b a = true.
Proof. exact String.leb_total. Qed.
End StrOrder.

Module StrSort := Sort StrOrder.

Definition sorted (l : list string) : list string := StrSort.sort l.

(** ** Bot logic: the store operations *)

Definition get_user (uid : string) (st : store) : UserSettings * store :=
  let st :=
    if dict_mem uid (users st) then st
    else save_users (mkstore (dict_set uid new_user (users st)) (users_file st)) in
  match dict_get uid (users st) with
  | Some u =>
      if dict_mem (preset u) PRESETS then (u, st)
      else
        let u := set_preset DEFAULT_PRESET u in
        (u, mkstore (dict_set uid u (users st)) (users_file st))
  | None => (new_user, st)
  end.

(** [d.get(ds, [])] on a ledger. *)
Definition day_keys (ds : string) (ledger : dict string (list string))
    : list string :=
  match dict_get ds ledger with Some l => l | None => [] end.

(** The statements of [mark_sent] on [u.sent_keys]. *)
Definition mark_ledger (ds key : string) (ledger : dict string (list string))
    : dict string (list string) :=
  let ledger := dict_setdefault ds [] ledger in
  if PyStr.contains key (day_keys ds ledger) then ledger
  else
    let ledger := dict_set ds (day_keys ds ledger ++ [key]) ledger in
    let all_days := sorted (dict_keys ledger) in
    if (10 <? List.length all_days)%nat
    then fold_left (fun l old => dict_pop old l)
                   (firstn (List.length all_days - 10) all_days) ledger
    else ledger.

Definition mark_sent (uid : string) (day : date) (key : string) (st : store)
    : store :=
  let (u, st) := get_user uid st in
  let ds := isoformat day in
  let u := set_sent_keys (mark_ledger ds key (sent_keys u)) u in
  save_users (mkstore (dict_set uid u (users st)) (users_file st)).

Definition was_sent (uid : string) (day : date) (key : string) (st : store)
    : bool * store :=
  let (u, st) := get_user uid st in
  let ds := isoformat day in
  (PyStr.contains key (day_keys ds (sent_keys u)), st).

(** ** Instants *)

Record datetime := mkdatetime {
  dt_date : date;
  dt_hour : Z;
  dt_minute : Z;
  dt_second : Z;
  dt_microsecond : Z
}.

(** [datetime.combine(day, t)] *)
Definition combine (day : date) (t : dtime) : datetime :=
  mkdatetime day (hour t) (minute t) 0 0.

(** The microseconds from the midnight before 0001-01-01 to a [datetime]:
    two [datetime]s compare as their instants do. *)
Definition instant (dt : datetime) : Z :=
  (((toordinal (dt_date dt) * 24 + dt_hour dt) * 60 + dt_minute dt) * 60
   + dt_second dt) * 1000000 + dt_microsecond dt.

Definition MIN_INSTANT : Z := instant (mkdatetime (mkdate 1 1 1) 0 0 0 0).
Definition MAX_INSTANT : Z :=
  instant (mkdatetime (mkdate 9999 12 31) 23 59 59 999999).

(** [t + timedelta(minutes=m)] on an instant; [None] is the [OverflowError]
    of a result outside the years 1 to 9999. *)
Definition plus_minutes (t m : Z) : option Z :=
  let r := t + m * 60000000 in
  if (MIN_INSTANT <=? r) && (r <=? MAX_INSTANT) then Some r else None.

(** [now.strftime("%H:%M")] *)
Definition strftime_HM (now : datetime) : string :=
  (PyStr.fmt02 (dt_hour now) ++ ":" ++ PyStr.fmt02 (dt_minute now))%string.

(** ** Messages *)

(** The text [format_day_info] renders, by the template it chooses. *)
Inductive day_info :=
| InfoMissing
| InfoNearest (asked actual : date) (sah ift : dtime)
| InfoExact (sah ift : dtime).

(** The text of a notification, by the template the loop builds it from (the
    phrase of [nice_phrase] and the prayer text of [read_dua] that fill it do
    not influence what the loop does). *)
Inductive message :=
| MorningDigest (info : day_info)
| MorningNotFound
| NightDigest (info : day_info)
| NightNotFound
| IftarIn (mins : Z)
| IftarNow
| SaharlikIn (mins : Z).

(** One call [bot.send_message(int(uid), text)] that went through: the
    settings key it was made for, the chat id and the text. *)
Record sent := mksent { to_uid : string; chat_id : Z; body : message }.

(** ** The scheduler loop *)

(** What a tick works on: the store and the messages delivered so far. *)
Record world := mkworld { w_store : store; outbox : list sent }.

(** A step of the loop body: it changes the world and either returns a value
    or raises ([None]); what it changed before raising stays changed. *)
Definition T (A : Type) : Type := world -> option A * world.

Definition ret {A : Type} (a : A) : T A := fun w => (Some a, w).

Definition bind {A B : Type} (c : T A) (k : A -> T B) : T B :=
  fun w =>
    match c w with
    | (Some a, w') => k a w'
    | (None, w') => (None, w')
    end.

Notation "x <- c ;; k" := (bind c (fun x => k))
  (at level 61, c at next level, right associativity).
Notation "c ;;; k" := (bind c (fun _ => k))
  (at level 61, right associativity).

(** A value that may be an exception. *)
Definition try_value {A : Type} (o : option A) : T A := fun w => (o, w).

Definition read_store {A : Type} (f : store -> A * store) : T A :=
  fun w => let (a, st) := f (w_store w) in (Some a, mkworld st (outbox w)).

Definition write_store (f : store -> store) : T unit :=
  fun w => (Some tt, mkworld (f (w_store w)) (outbox w)).

(** [for x in l: body(x)] *)
Fixpoint for_each {A : Type} (l : list A) (body : A -> T unit) : T unit :=
  match l with
  | [] => ret tt
  | x :: r => body x ;;; for_each r body
  end.

Section Dispatch.
Context {L : PyLib}.

(** [bot.send_message(chat_id, text)]: [true] when the transport delivers,
    [false] when it raises. *)
Variable sink : Z -> message -> bool.

(** The lines of [time.txt]. *)
Variable time_file : option (list string).

Definition format_day_info (day : date) : day_info :=
  match resolve_day_times time_file day with
  | None => InfoMissing
  | Some (actual_day, sah, ift, is_exact) =>
      if is_exact then InfoExact sah ift
      else InfoNearest day actual_day sah ift
  end.

(** [await bot.send_message(int(uid), text)] *)
Definition send_message (uid : string) (text : message) : T unit :=
  fun w =>
    match py_int uid with
    | None => (None, w)
    | Some chat =>
        if sink chat text
        then (Some tt, mkworld (w_store w) (outbox w ++ [mksent uid chat text]))
        else (None, w)
    end.

(** The object [u] of the loop: the entry of [users] under [uid] ([u0] is
    what [list(users.items())] paired with [uid]). *)
Definition user_obj (uid : string) (u0 : UserSettings) : T UserSettings :=
  fun w =>
    (Some (match dict_get uid (users (w_store w)) with
           | Some u => u
           | None => u0
           end), w).

(** [trigger <= now < trigger + timedelta(minutes=1)] *)
Definition in_window (trigger now : Z) : T bool :=
  if trigger <=? now
  then upper <- try_value (plus_minutes trigger 1) ;; ret (now <? upper)
  else ret false.

Definition morning_digest (uid : string) (u0 : UserSettings) (now : datetime)
    (today : date) (today_times : option (dtime * dtime)) : T unit :=
  u <- user_obj uid u0 ;;
  if (strftime_HM now =? morning_time u)%string
  then
    was <- read_store (was_sent uid today "morning") ;;
    if was then ret tt
    else
      let text :=
        match today_times with
        | Some _ => MorningDigest (format_day_info today)
        | None => MorningNotFound
        end in
      send_message uid text ;;;
      write_store (mark_sent uid today "morning")
  else ret tt.

Definition night_digest (uid : string) (u0 : UserSettings) (now : datetime)
    (today tmr : date) (tomorrow_times : option (dtime * dtime)) : T unit :=
  u <- user_obj uid u0 ;;
  if (strftime_HM now =? night_time u)%string
  then
    was <- read_store (was_sent uid today "night") ;;
    if was then ret tt
    else
      let text :=
        match tomorrow_times with
        | Some _ => NightDigest (format_day_info tmr)
        | None => NightNotFound
        end in
      send_message uid text ;;;
      write_store (mark_sent uid today "night")
  else ret tt.

(** The body of [for mins in preset["iftar"]]. *)
Definition iftar_reminder (uid : string) (now : datetime) (today : date)
    (ift_dt : datetime) (mins : Z) : T unit :=
  let key := ("iftar-" ++ PyStr.str_of_int mins)%string in
  was <- read_store (was_sent uid today key) ;;
  if was then ret tt
  else
    trigger <- try_value (plus_minutes (instant ift_dt) (- mins)) ;;
    due <- in_window trigger (instant now) ;;
    if due
    then send_message uid (IftarIn mins) ;;; write_store (mark_sent uid today key)
    else ret tt.

Definition iftar_now (uid : string) (now : datetime) (today : date)
    (ift_dt : datetime) : T unit :=
  was <- read_store (was_sent uid today "iftar-now") ;;
  if was then ret tt
  else
    due <- in_window (instant ift_dt) (instant now) ;;
    if due
    then send_message uid IftarNow ;;;
         write_store (mark_sent uid today "iftar-now")
    else ret tt.

(** The body of [for mins in preset["saharlik"]]. *)
Definition saharlik_reminder (uid : string) (now : datetime) (today : date)
    (sah_dt : datetime) (mins : Z) : T unit :=
  let key := ("saharlik-" ++ PyStr.str_of_int mins)%string in
  was <- read_store (was_sent uid today key) ;;
  if was then ret tt
  else
    trigger <- try_value (plus_minutes (instant sah_dt) (- mins)) ;;
    due <- in_window trigger (instant now) ;;
    if due
    then send_message uid (SaharlikIn mins) ;;;
         write_store (mark_sent uid today key)
    else ret tt.

(** [PRESETS.get(name, PRESETS[DEFAULT_PRESET])] *)
Definition preset_leads (name : string) : leads :=
  match dict_get name PRESETS with
  | Some p => p
  | None =>
      match dict_get DEFAULT_PRESET PRESETS with
      | Some p => p
      | None => mkleads [] [] (* [DEFAULT_PRESET] is a key of [PRESETS] *)
      end
  end.

Definition reminders (uid : string) (u0 : UserSettings) (now : datetime)
    (today : date) (today_times : option (dtime * dtime)) : T unit :=
  match today_times with
  | None => ret tt
  | Some (sah_t, ift_t) =>
      u <- user_obj uid u0 ;;
      let p := preset_leads (preset u) in
      let sah_dt := combine today sah_t in
      let ift_dt := combine today ift_t in
      for_each (iftar p) (iftar_reminder uid now today ift_dt) ;;;
      iftar_now uid now today ift_dt ;;;
      for_each (saharlik p) (saharlik_reminder uid now today sah_dt)
  end.

(** The body of [for uid, u in list(users.items())]. *)
Definition notify_user (now : datetime) (today tmr : date)
    (today_times tomorrow_times : option (dtime * dtime))
    (item : string * UserSettings) : T unit :=
  let (uid, u0) := item in
  u <- user_obj uid u0 ;;
  if negb (enabled u) then ret tt
  else
    morning_digest uid u0 now today today_times ;;;
    night_digest uid u0 now today tmr tomorrow_times ;;;
    reminders uid u0 now today today_times.

(** The [try] block of one iteration of [notification_loop], at the
    instant [now] the iteration read from the clock. *)
Definition tick_body (now : datetime) : T unit :=
  let today := dt_date now in
  let today_times := load_day_times time_file today in
  tmr <- try_value (next_day today) ;;
  let tomorrow_times := load_day_times time_file tmr in
  items <- (fun w => (Some (users (w_store w)), w)) ;;
  for_each items (notify_user now today tmr today_times tomorrow_times).

(** One iteration of [notification_loop]: what the body raises is caught
    and dropped. *)
Definition tick (now : datetime) (w : world) : world := snd (tick_body now w).

End Dispatch.

(** [notification_loop] for as many iterations as [nows] has instants, the
    iteration [i] reading the instant [nows[i]] from the clock. *)
Definition notification_loop {L : PyLib} (sink : Z -> message -> bool)
    (time_file : option (list string)) (nows : list datetime) (w : world) : world :=
  fold_left (fun w now => tick sink time_file now w) nows w.

(** ** Handlers *)

Definition set_enabled (b : bool) (u : UserSettings) : UserSettings :=
  mkuser b (preset u) (morning_time u) (night_time u) (sent_keys u).

Definition set_morning_time (t : string) (u : UserSettings) : UserSettings :=
  mkuser (enabled u) (preset u) t (night_time u) (sent_keys u).

Definition set_night_time (t : string) (u : UserSettings) : UserSettings :=
  mkuser (enabled u) (preset u) (morning_time u) t (sent_keys u).

(** What a handler answers, by the template of the text; the settings
    handlers update the store before they answer, so what the transport
    does with the answer does not change the store they leave. *)
Inductive reply :=
| ReplyWelcome
| ReplySettings (on : bool) (preset_name morning night : string)
| ReplyDone
| ReplyPresetChanged
| ReplyUnknownPreset
| ReplyTimeHint
| ReplyMenu
| ReplyEmpty
| ReplyBadTime
| ReplyMorningSet (hhmm : string)
| ReplyNightSet (hhmm : string).

(** [cmd_start] for the user [uid]. *)
Definition cmd_start (uid : string) (st : store) : reply * store :=
  let (_, st) := get_user uid st in (ReplyWelcome, st).

(** [h_settings] for the user [uid]. *)
Definition h_settings (uid : string) (st : store) : reply * store :=
  let (u, st) := get_user uid st in
  (ReplySettings (enabled u) (preset u) (morning_time u) (night_time u), st).

(** [cb_settings] for the user [uid] and the callback data [data]; [None]
    is the [IndexError] of [parts[1]]. *)
Definition cb_settings (uid data : string) (st : store) : option reply * store :=
  let (u, st) := get_user uid st in
  let parts := PyStr.split ":" data in
  match nth_error parts 1 with
  | None => (None, st)
  | Some action =>
      if (action =? "toggle")%string then
        let u := set_enabled (negb (enabled u)) u in
        (Some ReplyDone,
         save_users (mkstore (dict_set uid u (users st)) (users_file st)))
      else if (action =? "preset")%string && (List.length parts =? 3)%nat then
        let preset := nth 2 parts EmptyString in
        if dict_mem preset PRESETS then
          let u := set_preset preset u in
          (Some ReplyPresetChanged,
           save_users (mkstore (dict_set uid u (users st)) (users_file st)))
        else (Some ReplyUnknownPreset, st)
      else if (action =? "morning")%string || (action =? "night")%string then
        (Some ReplyTimeHint, st)
      else if (action =? "back")%string then (Some ReplyMenu, st)
      else (Some ReplyEmpty, st)
  end.

(** The word of a message that sets a digest time: [утро] or [ночь]. *)
Inductive time_kind := Morning | Night.



Section SetTimes.
Context {L : PyLib}.

(** [h_set_times_text] for the user [uid], on a message whose text splits
    into the word [kind] and the time [hhmm]. *)
Definition h_set_times_text (uid : string) (kind : time_kind) (hhmm : string)
    (st : store) : reply * store :=
  let (u, st) := get_user uid st in
  match parse_time_hhmm hhmm with
  | None => (ReplyBadTime, st)
  | Some _ =>
      match kind with
      | Morning =>
          let u := set_morning_time hhmm u in
          (ReplyMorningSet hhmm,
           save_users (mkstore (dict_set uid u (users st)) (users_file st)))
      | Night =>
          let u := set_night_time hhmm u in
          (ReplyNightSet hhmm,
           save_users (mkstore (dict_set uid u (users st)) (users_file st)))
      end
  end.

End SetTimes.

(** ** Prayer texts *)



(** * Properties *)

(** ** Dictionaries *)

Section DictFacts.
Context {K V : Type} `{EqKey K}.
Implicit Types (d : dict K V) (k : K) (v : V).

Lemma keqb_refl k : keqb k k = true.
Proof. destruct (keqb_spec k k); congruence. Qed.

Lemma keqb_neq k k' : k <> k' -> keqb k k' = false.
Proof. destruct (keqb_spec k k'); congruence. Qed.

Lemma dict_get_in_keys k d v : dict_get k d = Some v -> In k (dict_keys d).
Proof.
  induction d as [|[k' v'] r IH]; simpl; [discriminate|].
  destruct (keqb_spec k k'); auto.
Qed.

Lemma dict_get_of_key k d : In k (dict_keys d) -> exists v, dict_get k d = Some v.
Proof.
  induction d as [|[k' v'] r IH]; simpl; [tauto|].
  destruct (keqb_spec k k'); [eauto|].
  intros [E|I]; [congruence|auto].
Qed.

Lemma dict_get_none k d : dict_get k d = None <-> ~ In k (dict_keys d).
Proof.
  split.
  - intros E I. destruct (dict_get_of_key _ _ I). congruence.
  - intros N. destruct (dict_get k d) eqn:E; [|reflexivity].
    apply dict_get_in_keys in E. tauto.
Qed.

Lemma dict_get_set_same k v d : dict_get k (dict_set k v d) = Some v.
Proof.
  induction d as [|[k' v'] r IH]; simpl.
  - now rewrite keqb_refl.
  - destruct (keqb_spec k k') as [->|N]; simpl.
    + now rewrite keqb_refl.
    + now rewrite (keqb_neq _ _ N).
Qed.

Lemma dict_get_set_other k k' v d :
  k <> k' -> dict_get k (dict_set k' v d) = dict_get k d.
Proof.
  intros N. induction d as [|[k2 v2] r IH]; simpl.
  - now rewrite (keqb_neq _ _ N).
  - destruct (keqb_spec k' k2) as [->|N2]; simpl.
    + now rewrite (keqb_neq _ _ N).
    + now rewrite IH.
Qed.

Lemma dict_set_same_value k v d : dict_get k d = Some v -> dict_set k v d = d.
Proof.
  induction d as [|[k' v'] r IH]; simpl; [discriminate|].
  destruct (keqb_spec k k') as [->|N]; [congruence|].
  intros E. now rewrite IH.
Qed.

Lemma dict_keys_set_present k v d :
  In k (dict_keys d) -> dict_keys (dict_set k v d) = dict_keys d.
Proof.
  induction d as [|[k' v'] r IH]; simpl; [tauto|].
  destruct (keqb_spec k k') as [->|N]; [reflexivity|].
  intros [E|I]; [congruence|]. simpl. now rewrite IH.
Qed.

Lemma dict_set_absent k v d :
  ~ In k (dict_keys d) -> dict_set k v d = d ++ [(k, v)].
Proof.
  induction d as [|[k' v'] r IH]; simpl; [reflexivity|].
  intros N. destruct (keqb_spec k k') as [->|N']; [tauto|].
  rewrite IH; tauto.
Qed.

Lemma dict_keys_app d d' : dict_keys (d ++ d') = dict_keys d ++ dict_keys d'.
Proof. apply map_app. Qed.

Lemma dict_pop_absent k d : ~ In k (dict_keys d) -> dict_pop k d = d.
Proof.
  induction d as [|[k' v'] r IH]; simpl; [reflexivity|].
  intros N. destruct (keqb_spec k k') as [->|N']; [tauto|].
  rewrite IH; tauto.
Qed.

Lemma dict_get_pop_other k k' d :
  k <> k' -> dict_get k (dict_pop k' d) = dict_get k d.
Proof.
  intros N. induction d as [|[k2 v2] r IH]; simpl; [reflexivity|].
  destruct (keqb_spec k' k2) as [->|N2]; simpl.
  - now rewrite (keqb_neq _ _ N).
  - now rewrite IH.
Qed.

Lemma dict_keys_pop k d :
  dict_wf d -> dict_keys (dict_pop k d) = filter (fun x => negb (keqb k x)) (dict_keys d).
Proof.
  unfold dict_wf.
  induction d as [|[k' v'] r IH]; simpl; [reflexivity|].
  intros W. inversion W as [|? ? Nk Wr]; subst.
  destruct (keqb_spec k k') as [->|N']; simpl.
  - symmetry. apply forallb_filter_id.
    apply forallb_forall. intros x I.
    destruct (keqb_spec k' x); [congruence|reflexivity].
  - now rewrite IH.
Qed.

Lemma dict_wf_pop k d : dict_wf d -> dict_wf (dict_pop k d).
Proof.
  intros W. unfold dict_wf. rewrite dict_keys_pop by assumption.
  now apply NoDup_filter.
Qed.

Lemma dict_wf_set k v d : dict_wf d -> dict_wf (dict_set k v d).
Proof.
  unfold dict_wf. intros W.
  destruct (in_dec (fun a b => reflect_dec _ _ (keqb_spec a b)) k (dict_keys d)) as [I|N].
  - now rewrite dict_keys_set_present.
  - rewrite dict_set_absent, dict_keys_app by assumption. simpl.
    apply NoDup_app; [assumption| repeat constructor; simpl; tauto |].
    intros x Ix [<-|[]]. tauto.
Qed.

End DictFacts.

(** ** The time table *)

(** The fields of a row, as [load_schedule] cuts them. *)
Definition row_fields (line : string) : list string :=
  map PyStr.strip (PyStr.split ";" (PyStr.strip line)).

(** A blank line or a comment. *)
Definition row_blank (line : string) : Prop :=
  PyStr.strip line = EmptyString \/ PyStr.startswith "#" (PyStr.strip line) = true.

Section TimeTableFacts.
Context {L : PyLib}.

(** A row with at least three fields whose first three read as the date
    [d] and the times [sah] and [ift]. *)
Definition row_reads (line : string) (d : date) (sah ift : dtime) : Prop :=
  ~ row_blank line
  /\ (3 <= List.length (row_fields line))%nat
  /\ date_fromisoformat (nth 0 (row_fields line) EmptyString) = Some d
  /\ parse_time_hhmm (nth 1 (row_fields line) EmptyString) = Some sah
  /\ parse_time_hhmm (nth 2 (row_fields line) EmptyString) = Some ift.

(** A row with too few fields, or whose date or one of whose times does
    not parse. *)
Definition row_malformed (line : string) : Prop :=
  (List.length (row_fields line) < 3)%nat
  \/ date_fromisoformat (nth 0 (row_fields line) EmptyString) = None
  \/ parse_time_hhmm (nth 1 (row_fields line) EmptyString) = None
  \/ parse_time_hhmm (nth 2 (row_fields line) EmptyString) = None.

Lemma key_ltb_iff a1 a2 a3 b1 b2 b3 :
  key_ltb (a1, a2, a3) (b1, b2, b3) = true
  <-> a1 < b1 \/ (a1 = b1 /\ (a2 < b2 \/ (a2 = b2 /\ a3 < b3))).
Proof. unfold key_ltb. lia. Qed.

Lemma key_ltb_trans a b c :
  key_ltb a b = true -> key_ltb b c = true -> key_ltb a c = true.
Proof.
  destruct a as [[a1 a2] a3], b as [[b1 b2] b3], c as [[c1 c2] c3].
  rewrite !key_ltb_iff. lia.
Qed.

Lemma key_ltb_le_trans a b c :
  key_ltb a b = true -> key_ltb c b = false -> key_ltb a c = true.
Proof.
  destruct a as [[a1 a2] a3], b as [[b1 b2] b3], c as [[c1 c2] c3].
  intros H1 H2. apply key_ltb_iff. apply key_ltb_iff in H1.
  assert (N : ~ (c1 < b1 \/ (c1 = b1 /\ (c2 < b2 \/ (c2 = b2 /\ c3 < b3)))))
    by (rewrite <- key_ltb_iff; congruence).
  lia.
Qed.

(** [min] returns an element of the list, and none has a smaller key. *)
Lemma min_from_least {A : Type} (f : A -> Z * Z * Z) (l : list A) (best : A) :
  In (min_from f best l) (best :: l)
  /\ forall x, In x (best :: l) -> key_ltb (f x) (f (min_from f best l)) = false.
Proof.
  revert best. induction l as [|y r IH]; intros best; simpl.
  - split; [auto|]. intros x [<-|[]].
    destruct (key_ltb (f best) (f best)) eqn:E; [|reflexivity].
    destruct (f best) as [[a b] c]. apply key_ltb_iff in E. lia.
  - destruct (IH (if key_ltb (f y) (f best) then y else best)) as [I M].
    split.
    + destruct I as [E|I]; [|auto].
      destruct (key_ltb (f y) (f best)); rewrite <- E; auto.
    + intros x Ix.
      set (b' := if key_ltb (f y) (f best) then y else best) in *.
      assert (Mb : key_ltb (f b') (f (min_from f b' r)) = false)
        by (apply M; simpl; auto).
      destruct Ix as [<-|[<-|Ix]]; [| |apply M; simpl; auto].
      * destruct (key_ltb (f y) (f best)) eqn:E; subst b'; [|assumption].
        destruct (key_ltb (f best) (f (min_from f y r))) eqn:E2; [|reflexivity].
        rewrite (key_ltb_trans _ _ _ E E2) in Mb. discriminate.
      * destruct (key_ltb (f y) (f best)) eqn:E; subst b'; [assumption|].
        destruct (key_ltb (f y) (f (min_from f best r))) eqn:E2; [|reflexivity].
        rewrite (key_ltb_le_trans _ _ _ E2 Mb) in E. discriminate.
Qed.

Lemma find_nearest_day_times_spec time_file target :
  load_schedule time_file <> [] ->
  exists d times,
    find_nearest_day_times time_file target = Some (d, times)
    /\ dict_get d (load_schedule time_file) = Some times
    /\ forall d', In d' (dict_keys (load_schedule time_file)) ->
         key_ltb (nearest_key target d') (nearest_key target d) = false.
Proof.
  unfold find_nearest_day_times. intros NE.
  destruct (load_schedule time_file) as [|[k v] r] eqn:E; [congruence|].
  change (dict_keys ((k, v) :: r)) with (k :: dict_keys r).
  destruct (min_from_least (nearest_key target) (dict_keys r) k) as [I M].
  destruct (dict_get_of_key _ ((k, v) :: r) I) as [times G].
  exists (min_from (nearest_key target) k (dict_keys r)), times.
  rewrite G. auto.
Qed.

Lemma find_nearest_day_times_none time_file target :
  find_nearest_day_times time_file target = None <-> load_schedule time_file = [].
Proof.
  split.
  - intros E. destruct (load_schedule time_file) as [|x r] eqn:S; [reflexivity|].
    destruct (find_nearest_day_times_spec time_file target) as (d & t & F & _);
      congruence.
  - unfold find_nearest_day_times. now intros ->.
Qed.

(** *** Rows *)

Lemma load_row_blank sched line : row_blank line -> load_row sched line = sched.
Proof.
  unfold row_blank, load_row. intros [E|E].
  - now rewrite E.
  - rewrite E. now rewrite orb_true_r.
Qed.

Lemma not_row_blank line :
  ~ row_blank line ->
  ((PyStr.strip line =? "")%string || PyStr.startswith "#" (PyStr.strip line)) = false.
Proof.
  unfold row_blank. intros N.
  destruct (String.eqb_spec (PyStr.strip line) ""); [tauto|].
  destruct (PyStr.startswith "#" (PyStr.strip line)); [tauto|reflexivity].
Qed.

Lemma load_row_malformed sched line : row_malformed line -> load_row sched line = sched.
Proof.
  unfold row_malformed, load_row, row_fields. intros M.
  destruct ((PyStr.strip line =? "")%string || PyStr.startswith "#" (PyStr.strip line));
    [reflexivity|].
  destruct (Nat.ltb_spec (List.length (map PyStr.strip (PyStr.split ";" (PyStr.strip line)))) 3)
    as [Lt|Ge]; [reflexivity|].
  destruct (map PyStr.strip (PyStr.split ";" (PyStr.strip line))) as [|p0 [|p1 [|p2 rest]]];
    try reflexivity.
  simpl in M, Ge.
  destruct M as [M|[M|[M|M]]]; [lia| | |]; rewrite ?M; try reflexivity.
  - destruct (date_fromisoformat p0); reflexivity.
  - destruct (date_fromisoformat p0); [|reflexivity].
    destruct (parse_time_hhmm p1); reflexivity.
Qed.

Lemma load_row_reads sched line d sah ift :
  row_reads line d sah ift -> load_row sched line = dict_set d (sah, ift) sched.
Proof.
  unfold row_reads, load_row, row_fields. intros (NB & Len & D & S & I).
  rewrite (not_row_blank _ NB).
  destruct (Nat.ltb_spec (List.length (map PyStr.strip (PyStr.split ";" (PyStr.strip line)))) 3)
    as [Lt|Ge]; [lia|].
  destruct (map PyStr.strip (PyStr.split ";" (PyStr.strip line))) as [|p0 [|p1 [|p2 rest]]];
    simpl in Len; try lia.
  simpl in D, S, I. now rewrite D, S, I.
Qed.

(** A row changes the table at its own date only. *)
Lemma load_row_other sched line d :
  (forall sah ift, ~ row_reads line d sah ift) ->
  dict_get d (load_row sched line) = dict_get d sched.
Proof.
  intros N. unfold load_row.
  destruct ((PyStr.strip line =? "")%string || PyStr.startswith "#" (PyStr.strip line)) eqn:B;
    [reflexivity|].
  destruct (Nat.ltb_spec (List.length (map PyStr.strip (PyStr.split ";" (PyStr.strip line)))) 3)
    as [Lt|Ge]; [reflexivity|].
  destruct (map PyStr.strip (PyStr.split ";" (PyStr.strip line)))
    as [|p0 [|p1 [|p2 rest]]] eqn:F; try reflexivity.
  destruct (date_fromisoformat p0) as [d'|] eqn:D; [|reflexivity].
  destruct (parse_time_hhmm p1) as [sah|] eqn:S; [|reflexivity].
  destruct (parse_time_hhmm p2) as [ift|] eqn:I; [|reflexivity].
  apply dict_get_set_other. intros <-.
  apply (N sah ift). unfold row_reads, row_fields, row_blank. rewrite F. simpl.
  repeat split; auto; try lia.
  apply orb_false_iff in B. destruct B as [B1 B2].
  apply String.eqb_neq in B1. intros [E|E]; congruence.
Qed.

Lemma load_rows_other lines sched d :
  (forall line, In line lines -> forall sah ift, ~ row_reads line d sah ift) ->
  dict_get d (fold_left load_row lines sched) = dict_get d sched.
Proof.
  revert sched. induction lines as [|l r IH]; intros sched N; simpl; [reflexivity|].
  rewrite IH by (intros; apply N; simpl; auto).
  apply load_row_other. apply N. simpl; auto.
Qed.

Lemma load_schedule_skip before line after :
  load_row (fold_left load_row before []) line = fold_left load_row before [] ->
  load_schedule (Some (before ++ line :: after)) = load_schedule (Some (before ++ after)).
Proof.
  intros E. simpl. rewrite !fold_left_app. simpl. now rewrite E.
Qed.

End TimeTableFacts.

Lemma parse_time_hhmm_some {L : PyLib} (s : string) (t : dtime) :
  parse_time_hhmm s = Some t
  <-> exists hh mm h m,
        PyStr.split ":" (PyStr.strip s) = [hh; mm]
        /\ py_int hh = Some h /\ py_int mm = Some m
        /\ 0 <= h <= 23 /\ 0 <= m <= 59 /\ t = mktime h m.
Proof.
  unfold parse_time_hhmm, dtime_new. split.
  - destruct (PyStr.split ":" (PyStr.strip s)) as [|hh [|mm [|x r]]]; try discriminate.
    destruct (py_int hh) as [h|] eqn:Eh; [|discriminate].
    destruct (py_int mm) as [m|] eqn:Em; [|discriminate].
    destruct ((0 <=? h) && (h <=? 23) && (0 <=? m) && (m <=? 59)) eqn:R; [|discriminate].
    intros [= <-]. exists hh, mm, h, m. repeat split; auto; lia.
  - intros (hh & mm & h & m & -> & -> & -> & Rh & Rm & ->).
    replace ((0 <=? h) && (h <=? 23) && (0 <=? m) && (m <=? 59)) with true by lia.
    reflexivity.
Qed.

(** C1. On a table that is not empty [find_nearest_day_times] returns a date
    of the table with its stored times, and no date of the table is nearer to
    the query in days; among the dates at the same distance none after the
    query is passed over for one that is not after it, and among those on the
    same side none has a smaller ordinal. With entries on 2024-03-03 and
    2024-03-07 only, the query 2024-03-05 returns 2024-03-07. *)
Theorem find_nearest_day_times_minimises {L : PyLib}
    (time_file : option (list string)) (target : date) :
  (load_schedule time_file <> [] ->
   exists d times,
     find_nearest_day_times time_file target = Some (d, times)
     /\ dict_get d (load_schedule time_file) = Some times
     /\ forall d', In d' (dict_keys (load_schedule time_file)) ->
          Z.abs (toordinal d - toordinal target)
            <= Z.abs (toordinal d' - toordinal target)
          /\ (Z.abs (toordinal d - toordinal target)
                = Z.abs (toordinal d' - toordinal target) ->
              (date_ltb target d' = true -> date_ltb target d = true)
              /\ (date_ltb target d = date_ltb target d' ->
                  toordinal d <= toordinal d')))
  /\ (forall v3 v7,
        load_schedule time_file = [(mkdate 2024 3 3, v3); (mkdate 2024 3 7, v7)]
        \/ load_schedule time_file = [(mkdate 2024 3 7, v7); (mkdate 2024 3 3, v3)] ->
        find_nearest_day_times time_file (mkdate 2024 3 5)
          = Some (mkdate 2024 3 7, v7)).
Proof.
  split.
  - intros NE.
    destruct (find_nearest_day_times_spec time_file target NE) as (d & times & F & G & M).
    exists d, times. split; [assumption|]. split; [assumption|].
    intros d' I. specialize (M d' I). unfold nearest_key in M.
    assert (N : ~ (Z.abs (toordinal d' - toordinal target)
                     < Z.abs (toordinal d - toordinal target)
                   \/ (Z.abs (toordinal d' - toordinal target)
                         = Z.abs (toordinal d - toordinal target)
                       /\ ((if date_ltb target d' then 0 else 1)
                             < (if date_ltb target d then 0 else 1)
                           \/ ((if date_ltb target d' then 0 else 1)
                                 = (if date_ltb target d then 0 else 1)
                               /\ toordinal d' < toordinal d)))))
      by (rewrite <- key_ltb_iff; congruence).
    destruct (date_ltb target d), (date_ltb target d');
      repeat split; intros; try congruence; try lia.
  - intros v3 v7 [E|E]; unfold find_nearest_day_times; rewrite E; reflexivity.
Qed.

Lemma find_nearest_day_times_minimises_witness :
  exists d times,
    @find_nearest_day_times strict_lib
      (Some ["2024-03-03;05:10;18:20"; "2024-03-07;05:02;18:26"]%string)
      (mkdate 2024 3 6) = Some (d, times)
    /\ d = mkdate 2024 3 7.
Proof.
  destruct (@find_nearest_day_times_minimises strict_lib
              (Some ["2024-03-03;05:10;18:20"; "2024-03-07;05:02;18:26"]%string)
              (mkdate 2024 3 6)) as [H _].
  destruct H as (d & times & F & _); [vm_compute; discriminate|].
  exists d, times. split; [exact F|].
  vm_compute in F. now inversion F.
Defined.

(** C2. When the table has an entry for the asked date, [resolve_day_times]
    returns that date with the stored pair of times and the exact flag set;
    it returns nothing exactly when the table has no entry at all. *)
Theorem resolve_day_times_exact {L : PyLib}
    (time_file : option (list string)) (d : date) :
  (forall sah ift,
     dict_get d (load_schedule time_file) = Some (sah, ift) ->
     resolve_day_times time_file d = Some (d, sah, ift, true))
  /\ (In d (dict_keys (load_schedule time_file)) ->
      exists sah ift,
        dict_get d (load_schedule time_file) = Some (sah, ift)
        /\ resolve_day_times time_file d = Some (d, sah, ift, true))
  /\ (resolve_day_times time_file d = None <-> load_schedule time_file = []).
Proof.
  assert (A : forall sah ift,
             dict_get d (load_schedule time_file) = Some (sah, ift) ->
             resolve_day_times time_file d = Some (d, sah, ift, true)).
  { intros sah ift G. unfold resolve_day_times, load_day_times. now rewrite G. }
  split; [exact A|]. split.
  - intros I. destruct (dict_get_of_key _ _ I) as [[sah ift] G].
    exists sah, ift. auto.
  - unfold resolve_day_times, load_day_times. split.
    + destruct (dict_get d (load_schedule time_file)) as [[sah ift]|]; [discriminate|].
      destruct (find_nearest_day_times time_file d) as [[nd [sah ift]]|] eqn:F;
        [discriminate|].
      intros _. now apply (find_nearest_day_times_none time_file d).
    + intros E. rewrite (proj2 (find_nearest_day_times_none time_file d) E).
      now rewrite E.
Qed.

Lemma resolve_day_times_exact_witness :
  @resolve_day_times strict_lib
    (Some ["2024-03-03;05:10;18:20"; "2024-03-07;05:02;18:26"]%string)
    (mkdate 2024 3 7)
  = Some (mkdate 2024 3 7, mktime 5 2, mktime 18 26, true).
Proof.
  apply (@resolve_day_times_exact strict_lib
           (Some ["2024-03-03;05:10;18:20"; "2024-03-07;05:02;18:26"]%string)
           (mkdate 2024 3 7)).
  reflexivity.
Defined.

(** C6, as specified: a row whose number of fields is not three would
    be skipped. A row of four fields is loaded from its first three. *)
Lemma load_schedule_keeps_long_row :
  ~ (forall (L : PyLib) (sched : schedule) (line : string),
       List.length (row_fields line) <> 3%nat -> load_row sched line = sched).
Proof.
  intros H.
  specialize (H strict_lib [] "2024-03-01;05:00;18:00;note"%string).
  vm_compute in H.
  assert (E : 4%nat <> 3%nat) by discriminate.
  specialize (H E). discriminate.
Qed.

(** C6, amended. [load_schedule] is total; a blank line, a line that starts
    with [#], and a row with fewer than three fields or whose date or one of
    whose first two times does not parse leave the table as the other lines
    make it; a row of three fields or more whose first three parse gives its
    date its times unless a later such row has the same date; a date that no
    such row carries has no entry; without the file the table is empty. *)
Theorem load_schedule_rows {L : PyLib} (before after : list string) (line : string) :
  (row_blank line \/ row_malformed line ->
   load_schedule (Some (before ++ line :: after))
     = load_schedule (Some (before ++ after)))
  /\ (forall d sah ift,
        row_reads line d sah ift ->
        (forall later, In later after -> forall s i, ~ row_reads later d s i) ->
        load_day_times (Some (before ++ line :: after)) d = Some (sah, ift))
  /\ (forall d,
        (forall l, In l (before ++ line :: after) ->
                   forall s i, ~ row_reads l d s i) ->
        load_day_times (Some (before ++ line :: after)) d = None)
  /\ load_schedule None = [].
Proof.
  split; [|split; [|split]].
  - intros [B|M]; apply load_schedule_skip.
    + now apply load_row_blank.
    + now apply load_row_malformed.
  - intros d sah ift R N. unfold load_day_times. simpl.
    rewrite fold_left_app. simpl.
    rewrite load_rows_other by assumption.
    rewrite (load_row_reads _ _ _ _ _ R).
    apply dict_get_set_same.
  - intros d N. unfold load_day_times. simpl.
    now rewrite load_rows_other.
  - reflexivity.
Qed.

Lemma load_schedule_rows_witness :
  @load_day_times strict_lib
    (Some (["# fasting times"; "2024-03-01;04:00;17:00"]
           ++ "2024-03-01; 05:00 ;18:00;x" :: ["2024-03-01;05:00"; ""]))
    (mkdate 2024 3 1)
  = Some (mktime 5 0, mktime 18 0).
Proof.
  apply (@load_schedule_rows strict_lib).
  - repeat split; try reflexivity.
    + intros [E|E]; vm_compute in E; discriminate.
    + vm_compute. lia.
  - intros later [<-|[<-|[]]] s i (NB & Len & _).
    + vm_compute in Len. lia.
    + apply NB. left. reflexivity.
Defined.

(** ** The order of strings and sorted lists of keys *)

Definition slt (a b : string) : Prop := String.ltb a b = true.
Definition sle (a b : string) : Prop := is_true (String.leb a b).

Lemma ltb_lt a b : String.ltb a b = true <-> String_as_OT.lt a b.
Proof.
  unfold String.ltb. rewrite <- String_as_OT.cmp_lt. unfold String_as_OT.cmp.
  destruct (String.compare a b); split; congruence.
Qed.

Lemma slt_trans a b c : slt a b -> slt b c -> slt a c.
Proof. unfold slt. rewrite !ltb_lt. apply String_as_OT.lt_trans. Qed.

Lemma slt_irrefl a : ~ slt a a.
Proof.
  unfold slt. rewrite ltb_lt. intros H.
  apply String_as_OT.lt_not_eq in H. apply H. reflexivity.
Qed.

Lemma sle_cases a b : sle a b <-> slt a b \/ a = b.
Proof.
  unfold sle, slt, is_true, String.leb, String.ltb.
  destruct (String.compare a b) eqn:E.
  - apply String.compare_eq_iff in E. tauto.
  - tauto.
  - split; [discriminate|]. intros [H| ->]; [discriminate|].
    assert (X : String_as_OT.cmp b b = Eq) by now apply String_as_OT.cmp_eq.
    unfold String_as_OT.cmp in X. congruence.
Qed.

Lemma slt_sle a b : slt a b -> sle a b.
Proof. intros. apply sle_cases. auto. Qed.

Lemma sle_trans : Transitive sle.
Proof.
  intros a b c. rewrite !sle_cases.
  intros [H1| ->] [H2| ->]; eauto using slt_trans.
Qed.

Lemma slt_asym a b : slt a b -> slt b a -> False.
Proof. intros H1 H2. exact (slt_irrefl _ (slt_trans _ _ _ H1 H2)). Qed.

Lemma slt_total a b : slt a b \/ a = b \/ slt b a.
Proof.
  destruct (String.leb_total a b) as [H|H]; apply sle_cases in H;
    destruct H; auto.
Qed.

Lemma ltb_false a b : String.ltb a b = false <-> (a = b \/ slt b a).
Proof.
  split.
  - intros F. destruct (slt_total a b) as [H|H]; [unfold slt in H; congruence|auto].
  - intros [E|H].
    + subst b. destruct (String.ltb a a) eqn:E; [|reflexivity].
      exfalso. exact (slt_irrefl _ E).
    + destruct (String.ltb a b) eqn:E; [|reflexivity].
      exfalso. exact (slt_asym _ _ E H).
Qed.

(** Strictly increasing lists of keys: the canonical form of a set of days. *)
Definition increasing (l : list string) : Prop := StronglySorted slt l.

Lemma increasing_NoDup l : increasing l -> NoDup l.
Proof.
  induction 1 as [|a l S IH F]; constructor; [|assumption].
  intros I. rewrite Forall_forall in F. exact (slt_irrefl _ (F _ I)).
Qed.

Lemma increasing_app l1 l2 :
  increasing (l1 ++ l2)
  <-> increasing l1 /\ increasing l2
      /\ forall a b, In a l1 -> In b l2 -> slt a b.
Proof.
  unfold increasing. induction l1 as [|x l1 IH]; simpl.
  - split; [intros; repeat split; auto; [constructor|tauto]|tauto].
  - split.
    + intros S. apply StronglySorted_inv in S. destruct S as [S F].
      apply IH in S. destruct S as (S1 & S2 & C).
      rewrite Forall_app in F. destruct F as [F1 F2].
      repeat split; auto; [now constructor|].
      intros a b [<-|Ia] Ib; [|auto].
      rewrite Forall_forall in F2. auto.
    + intros (S1 & S2 & C). apply StronglySorted_inv in S1. destruct S1 as [S1 F1].
      constructor.
      * apply IH. repeat split; auto.
      * apply Forall_app. split; [assumption|].
        apply Forall_forall. intros b Ib. apply C; auto.
Qed.

(** An increasing list is determined by its elements. *)
Lemma increasing_unique l1 l2 :
  increasing l1 -> increasing l2 -> (forall k, In k l1 <-> In k l2) -> l1 = l2.
Proof.
  intros S1. revert l2. induction S1 as [|a l1 S1 IH F1]; intros l2 S2 E.
  - destruct l2 as [|b l2]; [reflexivity|].
    exfalso. apply (proj2 (E b)). simpl; auto.
  - destruct S2 as [|b l2 S2 F2].
    + exfalso. apply (proj1 (E a)). simpl; auto.
    + rewrite Forall_forall in F1, F2.
      assert (a = b).
      { destruct (proj1 (E a)) as [<-|Ia]; [simpl; auto|reflexivity|].
        destruct (proj2 (E b)) as [->|Ib]; [simpl; auto|reflexivity|].
        exfalso. exact (slt_asym _ _ (F1 _ Ib) (F2 _ Ia)). }
      subst b. f_equal. apply IH; [assumption|].
      intros k. split; intros I.
      * destruct (proj1 (E k)) as [<-|]; [simpl; auto| |assumption].
        exfalso. exact (slt_irrefl _ (F1 _ I)).
      * destruct (proj2 (E k)) as [<-|]; [simpl; auto| |assumption].
        exfalso. exact (slt_irrefl _ (F2 _ I)).
Qed.

Lemma sorted_perm l : Permutation l (sorted l).
Proof. apply StrSort.Permuted_sort. Qed.

Lemma sorted_in l k : In k (sorted l) <-> In k l.
Proof.
  split; apply Permutation_in; [symmetry|]; apply sorted_perm.
Qed.

Lemma sorted_length l : List.length (sorted l) = List.length l.
Proof. symmetry. apply Permutation_length, sorted_perm. Qed.

Lemma sorted_increasing l : NoDup l -> increasing (sorted l).
Proof.
  intros N.
  assert (S : StronglySorted sle (sorted l))
    by (apply StrSort.StronglySorted_sort; exact sle_trans).
  assert (N' : NoDup (sorted l)) by (eapply Permutation_NoDup; [apply sorted_perm|assumption]).
  unfold increasing. induction S as [|a r S IH F]; constructor.
  - apply IH. now inversion N'.
  - inversion N' as [|? ? Na Nr]; subst.
    rewrite Forall_forall in *. intros x I.
    destruct (proj1 (sle_cases a x) (F x I)) as [H| ->]; [assumption|tauto].
Qed.

Lemma sorted_of_increasing l : increasing l -> sorted l = l.
Proof.
  intros S. apply increasing_unique; [|assumption|apply sorted_in].
  apply sorted_increasing, increasing_NoDup, S.
Qed.

(** [l[-10:]], the ten greatest of an increasing list. *)
Definition last10 (l : list string) : list string :=
  skipn (List.length l - 10) l.

Lemma last10_incl l k : In k (last10 l) -> In k l.
Proof.
  unfold last10. intros I. rewrite <- (firstn_skipn (List.length l - 10) l).
  apply in_or_app. now right.
Qed.

Lemma last10_length l : (List.length (last10 l) <= 10)%nat.
Proof. unfold last10. rewrite length_skipn. lia. Qed.

Lemma last10_short l : (List.length l <= 10)%nat -> last10 l = l.
Proof.
  unfold last10. intros H.
  replace (List.length l - 10)%nat with 0%nat by lia. reflexivity.
Qed.

Lemma last10_increasing l : increasing l -> increasing (last10 l).
Proof.
  unfold last10. intros S.
  rewrite <- (firstn_skipn (List.length l - 10) l) in S.
  now apply increasing_app in S.
Qed.

(** An element of an increasing list is among the last ten, or the last ten
    are ten elements after it. *)
Lemma last10_split l k :
  increasing l -> In k l ->
  In k (last10 l)
  \/ (List.length (last10 l) = 10%nat /\ forall b, In b (last10 l) -> slt k b).
Proof.
  unfold last10. intros S I.
  assert (E := firstn_skipn (List.length l - 10) l).
  rewrite <- E in S, I. apply increasing_app in S. destruct S as (_ & _ & C).
  apply in_app_or in I. destruct I as [I|I]; [right|now left].
  split; [|intros b Ib; now apply C].
  rewrite length_skipn.
  assert (List.length (firstn (List.length l - 10) l) <> 0)%nat
    by (destruct (firstn (List.length l - 10) l); [destruct I|discriminate]).
  rewrite length_firstn in *. lia.
Qed.

Lemma last10_keeps ks ds :
  NoDup ks -> In ds ks ->
  (List.length (filter (String.ltb ds) ks) < 10)%nat ->
  In ds (last10 (sorted ks)).
Proof.
  intros N I R.
  destruct (last10_split (sorted ks) ds) as [H|[Len Gt]];
    [now apply sorted_increasing|now apply sorted_in|assumption|].
  exfalso.
  assert (Inc : incl (last10 (sorted ks)) (filter (String.ltb ds) ks)).
  { intros b Ib. apply filter_In. split; [|now apply Gt].
    now apply sorted_in, last10_incl. }
  apply NoDup_incl_length in Inc; [lia|].
  apply increasing_NoDup, last10_increasing, sorted_increasing, N.
Qed.

(** ** The ledger *)

Abbreviation ledger := (dict string (list string)).

(** The last statements of [mark_sent] on the ledger: keep the last ten
    days. *)
Definition prune (l : ledger) : ledger :=
  let all_days := sorted (dict_keys l) in
  if (10 <? List.length all_days)%nat
  then fold_left (fun l old => dict_pop old l)
                 (firstn (List.length all_days - 10) all_days) l
  else l.

Lemma mark_ledger_unfold ds key (l : ledger) :
  mark_ledger ds key l
  = if PyStr.contains key (day_keys ds (dict_setdefault ds [] l))
    then dict_setdefault ds [] l
    else prune (dict_set ds (day_keys ds (dict_setdefault ds [] l) ++ [key])
                         (dict_setdefault ds [] l)).
Proof. reflexivity. Qed.

Lemma pop_all_keys olds (l : ledger) :
  dict_wf l ->
  dict_wf (fold_left (fun l old => dict_pop old l) olds l)
  /\ forall k, In k (dict_keys (fold_left (fun l old => dict_pop old l) olds l))
               <-> In k (dict_keys l) /\ ~ In k olds.
Proof.
  revert l. induction olds as [|a olds IH]; intros l W; simpl.
  - split; [assumption|]. tauto.
  - destruct (IH (dict_pop a l) (dict_wf_pop a l W)) as [W' E].
    split; [assumption|]. intros k. rewrite E, dict_keys_pop by assumption.
    rewrite filter_In. simpl.
    destruct (String.eqb_spec a k); simpl; intuition congruence.
Qed.

Lemma pop_all_get olds (l : ledger) k :
  ~ In k olds ->
  dict_get k (fold_left (fun l old => dict_pop old l) olds l) = dict_get k l.
Proof.
  revert l. induction olds as [|a olds IH]; intros l N; simpl; [reflexivity|].
  rewrite IH by (simpl in N; tauto).
  apply dict_get_pop_other. simpl in N. intros ->. tauto.
Qed.

Lemma prune_spec (l : ledger) :
  dict_wf l ->
  dict_wf (prune l)
  /\ (forall k, In k (dict_keys (prune l)) <-> In k (last10 (sorted (dict_keys l))))
  /\ (forall k, In k (last10 (sorted (dict_keys l))) ->
                dict_get k (prune l) = dict_get k l).
Proof.
  intros W. unfold prune.
  destruct (Nat.ltb_spec 10 (List.length (sorted (dict_keys l)))) as [Lt|Ge].
  - destruct (pop_all_keys
                (firstn (List.length (sorted (dict_keys l)) - 10) (sorted (dict_keys l)))
                l W) as [W' E].
    assert (N : increasing (sorted (dict_keys l)))
      by (apply sorted_increasing, W).
    assert (D : forall k,
               In k (last10 (sorted (dict_keys l)))
               <-> In k (dict_keys l)
                   /\ ~ In k (firstn (List.length (sorted (dict_keys l)) - 10)
                                     (sorted (dict_keys l)))).
    { intros k. unfold last10.
      assert (F := firstn_skipn (List.length (sorted (dict_keys l)) - 10)
                                (sorted (dict_keys l))).
      rewrite <- F in N. apply increasing_app in N. destruct N as (_ & _ & Dis).
      split.
      - intros I. split.
        + apply sorted_in. rewrite <- F. apply in_or_app. now right.
        + intros I'. exact (slt_irrefl _ (Dis _ _ I' I)).
      - intros [I NI]. apply sorted_in in I. rewrite <- F in I.
        apply in_app_or in I. tauto. }
    split; [assumption|]. split.
    + intros k. rewrite E. symmetry. apply D.
    + intros k I. apply pop_all_get. now apply D.
  - rewrite last10_short by assumption.
    split; [assumption|]. split; [intros k; symmetry; apply sorted_in|reflexivity].
Qed.

(** The days of a ledger after the day [ds]. *)
Definition days_after (ds : string) (l : ledger) : list string :=
  filter (String.ltb ds) (dict_keys l).

(** Fewer than ten days of the ledger are after [ds]: pruning keeps [ds]. *)
Definition recent (ds : string) (l : ledger) : Prop :=
  (List.length (days_after ds l) < 10)%nat.

(** [key] is recorded under the day [ds]. *)
Definition marked (ds key : string) (l : ledger) : bool :=
  PyStr.contains key (day_keys ds l).

(** The ledger once [key] is appended under [ds], before pruning. *)
Definition appended (ds key : string) (l : ledger) : ledger :=
  dict_set ds (day_keys ds (dict_setdefault ds [] l) ++ [key])
           (dict_setdefault ds [] l).

Lemma contains_app k l1 l2 :
  PyStr.contains k (l1 ++ l2) = PyStr.contains k l1 || PyStr.contains k l2.
Proof. apply existsb_app. Qed.

Lemma contains_single k key : PyStr.contains k [key] = (k =? key)%string.
Proof. unfold PyStr.contains. simpl. apply orb_false_r. Qed.

Lemma dict_mem_in {K V : Type} `{EqKey K} (k : K) (d : dict K V) :
  dict_mem k d = true <-> In k (dict_keys d).
Proof.
  unfold dict_mem. split.
  - destruct (dict_get k d) eqn:E; [|discriminate].
    intros _. eapply dict_get_in_keys; eauto.
  - intros I. destruct (dict_get_of_key _ _ I) as [v ->]. reflexivity.
Qed.

Lemma setdefault_present ds (l : ledger) :
  In ds (dict_keys l) -> dict_setdefault ds [] l = l.
Proof.
  intros I. unfold dict_setdefault.
  now rewrite (proj2 (dict_mem_in ds l) I).
Qed.

Lemma setdefault_absent ds (l : ledger) :
  ~ In ds (dict_keys l) -> dict_setdefault ds [] l = l ++ [(ds, [])].
Proof.
  intros N. unfold dict_setdefault.
  destruct (dict_mem ds l) eqn:E; [apply dict_mem_in in E; tauto|].
  now apply dict_set_absent.
Qed.

Lemma dict_get_app_absent {K V : Type} `{EqKey K} (k : K) (d d' : dict K V) :
  ~ In k (dict_keys d) -> dict_get k (d ++ d') = dict_get k d'.
Proof.
  induction d as [|[k' v'] r IH]; simpl; [reflexivity|].
  intros N. destruct (keqb_spec k k'); [subst; tauto|]. apply IH. tauto.
Qed.

Lemma dict_get_app_present {K V : Type} `{EqKey K} (k : K) (d d' : dict K V) :
  In k (dict_keys d) -> dict_get k (d ++ d') = dict_get k d.
Proof.
  induction d as [|[k' v'] r IH]; simpl; [tauto|].
  intros I. destruct (keqb_spec k k'); [reflexivity|].
  apply IH. destruct I; [congruence|assumption].
Qed.

Lemma day_keys_setdefault ds (l : ledger) :
  day_keys ds (dict_setdefault ds [] l) = day_keys ds l.
Proof.
  destruct (in_dec string_dec ds (dict_keys l)) as [I|N].
  - now rewrite setdefault_present.
  - rewrite setdefault_absent by assumption. unfold day_keys.
    rewrite dict_get_app_absent by assumption. simpl.
    rewrite String.eqb_refl.
    now rewrite (proj2 (dict_get_none ds l) N).
Qed.

Lemma appended_spec ds key (l : ledger) :
  dict_wf l ->
  dict_wf (appended ds key l)
  /\ dict_get ds (appended ds key l) = Some (day_keys ds l ++ [key])
  /\ (forall k, k <> ds -> dict_get k (appended ds key l) = dict_get k l)
  /\ (forall k, In k (dict_keys (appended ds key l)) <-> In k (dict_keys l) \/ k = ds)
  /\ (~ In ds (dict_keys l) -> appended ds key l = l ++ [(ds, [key])]).
Proof.
  intros W. unfold appended. rewrite day_keys_setdefault.
  destruct (in_dec string_dec ds (dict_keys l)) as [I|N].
  - rewrite setdefault_present by assumption.
    split; [now apply dict_wf_set|]. split; [apply dict_get_set_same|].
    split; [intros; now apply dict_get_set_other|].
    split; [|tauto].
    intros k. rewrite dict_keys_set_present by assumption.
    split; [tauto|]. intros [?| ->]; assumption.
  - rewrite setdefault_absent by assumption.
    assert (E : dict_set ds (day_keys ds l ++ [key]) (l ++ [(ds, [])])
                = l ++ [(ds, [key])]).
    { unfold day_keys. rewrite (proj2 (dict_get_none ds l) N). simpl.
      clear W. induction l as [|[k' v'] r IH]; simpl.
      - now rewrite String.eqb_refl.
      - simpl in N. destruct (String.eqb_spec ds k'); [subst; tauto|].
        rewrite IH; tauto. }
    rewrite E.
    split.
    { unfold dict_wf. rewrite dict_keys_app. simpl.
      apply NoDup_app; [assumption|repeat constructor; simpl; tauto|].
      intros x Ix [<-|[]]. tauto. }
    split.
    { rewrite dict_get_app_absent by assumption. simpl.
      rewrite String.eqb_refl. unfold day_keys.
      now rewrite (proj2 (dict_get_none ds l) N). }
    split.
    { intros k Nk.
      destruct (in_dec string_dec k (dict_keys l)) as [Ik|Nk'].
      - now apply dict_get_app_present.
      - rewrite dict_get_app_absent by assumption. simpl.
        rewrite (proj2 (String.eqb_neq k ds) Nk).
        symmetry. now apply dict_get_none. }
    split; [|reflexivity].
    intros k. rewrite dict_keys_app, in_app_iff. simpl. intuition.
Qed.

Lemma marked_in_keys ds key (l : ledger) :
  marked ds key l = true -> In ds (dict_keys l).
Proof.
  unfold marked, day_keys.
  destruct (dict_get ds l) eqn:E; [|discriminate].
  intros _. eapply dict_get_in_keys; eauto.
Qed.

(** Marking a key that is there leaves the ledger as it is. *)
Lemma mark_ledger_present ds key (l : ledger) :
  marked ds key l = true -> mark_ledger ds key l = l.
Proof.
  intros M. rewrite mark_ledger_unfold, day_keys_setdefault.
  unfold marked in M. rewrite M.
  apply setdefault_present. now apply (marked_in_keys ds key).
Qed.

(** Marking a new key appends it, then prunes. *)
Lemma mark_ledger_new ds key (l : ledger) :
  marked ds key l = false -> mark_ledger ds key l = prune (appended ds key l).
Proof.
  intros M. rewrite mark_ledger_unfold, day_keys_setdefault.
  unfold marked in M. rewrite M. unfold appended.
  now rewrite day_keys_setdefault.
Qed.

Lemma mark_ledger_wf ds key (l : ledger) : dict_wf l -> dict_wf (mark_ledger ds key l).
Proof.
  intros W. destruct (marked ds key l) eqn:M.
  - now rewrite mark_ledger_present.
  - rewrite mark_ledger_new by assumption.
    apply prune_spec. now apply appended_spec.
Qed.

Lemma mark_ledger_keys ds key (l : ledger) k :
  dict_wf l -> In k (dict_keys (mark_ledger ds key l)) -> In k (dict_keys l) \/ k = ds.
Proof.
  intros W. destruct (marked ds key l) eqn:M.
  - rewrite mark_ledger_present by assumption. tauto.
  - rewrite mark_ledger_new by assumption.
    destruct (appended_spec ds key l W) as (W2 & _ & _ & K & _).
    destruct (prune_spec _ W2) as (_ & E & _).
    intros I. apply E, last10_incl in I. apply (proj1 (sorted_in _ _)) in I.
    now apply K.
Qed.

(** The keys under [ds] once [key] is marked: the day was kept and has the
    key, or the day was pruned. *)
Lemma mark_ledger_day ds key (l : ledger) :
  dict_wf l ->
  day_keys ds (mark_ledger ds key l)
    = (if marked ds key l then day_keys ds l else day_keys ds l ++ [key])
  \/ (~ In ds (dict_keys (mark_ledger ds key l))
      /\ List.length (dict_keys (mark_ledger ds key l)) = 10%nat
      /\ forall b, In b (dict_keys (mark_ledger ds key l)) -> slt ds b).
Proof.
  intros W. destruct (marked ds key l) eqn:M.
  - left. now rewrite mark_ledger_present.
  - rewrite mark_ledger_new by assumption.
    destruct (appended_spec ds key l W) as (W2 & G & _ & K & _).
    destruct (prune_spec _ W2) as (W3 & E & Get).
    destruct (last10_split (sorted (dict_keys (appended ds key l))) ds)
      as [I|[Len Gt]].
    + now apply sorted_increasing.
    + apply sorted_in, K. now right.
    + left. unfold day_keys at 1. now rewrite (Get _ I), G.
    + right. split; [|split].
      * intros I. apply E in I. exact (slt_irrefl _ (Gt _ I)).
      * rewrite <- Len. apply Permutation_length, NoDup_Permutation.
        -- exact W3.
        -- apply increasing_NoDup, last10_increasing, sorted_increasing, W2.
        -- exact E.
      * intros b I. apply Gt. now apply E.
Qed.

(** A day with fewer than ten days after it is kept. *)
Lemma mark_ledger_kept ds key (l : ledger) :
  dict_wf l -> recent ds l ->
  day_keys ds (mark_ledger ds key l)
  = if marked ds key l then day_keys ds l else day_keys ds l ++ [key].
Proof.
  intros W R. destruct (mark_ledger_day ds key l W) as [E|(_ & Len & Gt)];
    [exact E|exfalso].
  assert (Inc : incl (dict_keys (mark_ledger ds key l)) (days_after ds l)).
  { intros b Ib. apply filter_In. split; [|now apply Gt].
    destruct (mark_ledger_keys ds key l b W Ib) as [I| ->]; [assumption|].
    exfalso. exact (slt_irrefl _ (Gt _ Ib)). }
  apply NoDup_incl_length in Inc; [unfold recent in R; lia|].
  now apply mark_ledger_wf.
Qed.

Lemma mark_ledger_recent ds key (l : ledger) :
  dict_wf l -> recent ds l -> recent ds (mark_ledger ds key l).
Proof.
  intros W R. unfold recent in *.
  assert (Inc : incl (days_after ds (mark_ledger ds key l)) (days_after ds l)).
  { intros b Ib. apply filter_In in Ib. destruct Ib as [Ib Gt].
    apply filter_In. split; [|assumption].
    destruct (mark_ledger_keys ds key l b W Ib) as [I| ->]; [assumption|].
    exfalso. exact (slt_irrefl _ Gt). }
  apply NoDup_incl_length in Inc; [lia|].
  apply NoDup_filter. now apply mark_ledger_wf.
Qed.

Lemma marked_mark_ledger ds key k (l : ledger) :
  dict_wf l -> recent ds l ->
  marked ds k (mark_ledger ds key l) = marked ds k l || (k =? key)%string.
Proof.
  intros W R. unfold marked at 1. rewrite mark_ledger_kept by assumption.
  destruct (marked ds key l) eqn:M.
  - fold (marked ds k l). destruct (String.eqb_spec k key) as [->|N].
    + rewrite M. reflexivity.
    + now rewrite orb_false_r.
  - rewrite contains_app, contains_single. reflexivity.
Qed.

(** Marking one key marks no other. *)
Lemma marked_mark_ledger_other ds key k (l : ledger) :
  dict_wf l ->
  marked ds k (mark_ledger ds key l) = true -> k = key \/ marked ds k l = true.
Proof.
  intros W. unfold marked at 1.
  destruct (mark_ledger_day ds key l W) as [E|(N & _)].
  - rewrite E. destruct (marked ds key l); [now right|].
    rewrite contains_app, contains_single.
    intros H. apply orb_true_iff in H. destruct H as [H|H]; [now right|left].
    now apply String.eqb_eq.
  - unfold day_keys. rewrite (proj2 (dict_get_none _ _) N). discriminate.
Qed.

Lemma dict_pop_last {K V : Type} `{EqKey K} (k : K) (v : V) (d : dict K V) :
  ~ In k (dict_keys d) -> dict_pop k (d ++ [(k, v)]) = d.
Proof.
  induction d as [|[k' v'] r IH]; simpl.
  - now rewrite keqb_refl.
  - intros N. destruct (keqb_spec k k'); [subst; tauto|].
    rewrite IH; tauto.
Qed.

(** Marking the same key twice is marking it once. *)
Lemma mark_ledger_idempotent ds key (l : ledger) :
  dict_wf l ->
  mark_ledger ds key (mark_ledger ds key l) = mark_ledger ds key l.
Proof.
  intros W. destruct (marked ds key l) eqn:M.
  - rewrite (mark_ledger_present ds key l M). now apply mark_ledger_present.
  - assert (W' := mark_ledger_wf ds key l W).
    destruct (mark_ledger_day ds key l W) as [E|(N & Len & Gt)].
    + apply mark_ledger_present. unfold marked. rewrite E, M.
      rewrite contains_app, contains_single, String.eqb_refl.
      apply orb_true_r.
    + set (r := mark_ledger ds key l) in *.
      assert (M' : marked ds key r = false).
      { unfold marked, day_keys. now rewrite (proj2 (dict_get_none _ _) N). }
      rewrite (mark_ledger_new ds key r M').
      destruct (appended_spec ds key r W') as (W2 & _ & _ & K & A).
      rewrite (A N). unfold prune.
      assert (S : sorted (dict_keys (r ++ [(ds, [key])])) = ds :: sorted (dict_keys r)).
      { apply increasing_unique.
        - apply sorted_increasing. rewrite <- (A N). exact W2.
        - constructor; [now apply sorted_increasing|].
          apply Forall_forall. intros b Ib. apply Gt.
          exact (proj1 (sorted_in _ _) Ib).
        - intros k. rewrite sorted_in, dict_keys_app, in_app_iff. simpl.
          rewrite sorted_in. intuition. }
      rewrite S. simpl List.length. rewrite sorted_length, Len. simpl.
      now apply dict_pop_last.
Qed.

(** ** The store *)

(** What [get_user] makes of a record it finds. *)
Definition normalise (u : UserSettings) : UserSettings :=
  if dict_mem (preset u) PRESETS then u else set_preset DEFAULT_PRESET u.

(** The ledger of a user; a user yet to be created has the empty one. *)
Definition ledger_of (st : store) (uid : string) : ledger :=
  match dict_get uid (users st) with
  | Some u => sent_keys u
  | None => []
  end.

Lemma dict_set_set {K V : Type} `{EqKey K} (k : K) (v1 v2 : V) (d : dict K V) :
  dict_set k v2 (dict_set k v1 d) = dict_set k v2 d.
Proof.
  induction d as [|[k' v'] r IH]; simpl.
  - now rewrite keqb_refl.
  - destruct (keqb_spec k k') as [->|N]; simpl.
    + now rewrite keqb_refl.
    + rewrite (keqb_neq _ _ N). now rewrite IH.
Qed.

Lemma dict_keys_set_in {K V : Type} `{EqKey K} (k k' : K) (v : V) (d : dict K V) :
  In k' (dict_keys (dict_set k v d)) <-> In k' (dict_keys d) \/ k' = k.
Proof.
  induction d as [|[k2 v2] r IH]; simpl.
  - intuition.
  - destruct (keqb_spec k k2) as [->|N]; simpl; [intuition|].
    rewrite IH. intuition.
Qed.

Lemma normalise_valid u : dict_mem (preset (normalise u)) PRESETS = true.
Proof.
  unfold normalise. destruct (dict_mem (preset u) PRESETS) eqn:E; [assumption|].
  reflexivity.
Qed.

Lemma normalise_fixed u : dict_mem (preset u) PRESETS = true -> normalise u = u.
Proof. unfold normalise. now intros ->. Qed.

Lemma sent_keys_normalise u : sent_keys (normalise u) = sent_keys u.
Proof. unfold normalise. now destruct (dict_mem (preset u) PRESETS). Qed.

Lemma enabled_normalise u : enabled (normalise u) = enabled u.
Proof. unfold normalise. now destruct (dict_mem (preset u) PRESETS). Qed.

Lemma get_user_present st uid u :
  dict_get uid (users st) = Some u ->
  get_user uid st
  = (normalise u, mkstore (dict_set uid (normalise u) (users st)) (users_file st)).
Proof.
  intros G. unfold get_user, dict_mem, normalise. rewrite G.
  unfold dict_mem. rewrite G.
  destruct (dict_get (preset u) PRESETS); [|reflexivity].
  rewrite (dict_set_same_value _ _ _ G). now destruct st.
Qed.

Lemma get_user_absent st uid :
  dict_get uid (users st) = None ->
  get_user uid st
  = (new_user, mkstore (users st ++ [(uid, new_user)])
                       (Some (users st ++ [(uid, new_user)]))).
Proof.
  intros G. unfold get_user, dict_mem. rewrite G. simpl.
  rewrite dict_get_set_same. simpl.
  rewrite dict_set_absent by now apply dict_get_none.
  reflexivity.
Qed.

(** The record [get_user] returns is the entry it leaves under [uid]; its
    preset is known and its ledger is the one the store had. *)
Lemma get_user_spec st uid :
  dict_get uid (users (snd (get_user uid st))) = Some (fst (get_user uid st))
  /\ dict_mem (preset (fst (get_user uid st))) PRESETS = true
  /\ sent_keys (fst (get_user uid st)) = ledger_of st uid
  /\ (forall uid', uid' <> uid ->
        dict_get uid' (users (snd (get_user uid st))) = dict_get uid' (users st))
  /\ (forall uid', In uid' (dict_keys (users (snd (get_user uid st))))
                   <-> In uid' (dict_keys (users st)) \/ uid' = uid).
Proof.
  unfold ledger_of. destruct (dict_get uid (users st)) as [u|] eqn:G.
  - rewrite (get_user_present _ _ _ G). simpl.
    split; [apply dict_get_set_same|].
    split; [apply normalise_valid|].
    split; [apply sent_keys_normalise|].
    split; [intros; now apply dict_get_set_other|].
    intros. apply dict_keys_set_in.
  - rewrite (get_user_absent _ _ G). simpl.
    assert (N : ~ In uid (dict_keys (users st))) by now apply dict_get_none.
    split; [rewrite dict_get_app_absent by assumption; simpl;
            now rewrite String.eqb_refl|].
    split; [reflexivity|]. split; [reflexivity|].
    split.
    + intros uid' Ne. rewrite <- (dict_set_absent uid new_user (users st) N).
      now apply dict_get_set_other.
    + intros uid'. rewrite dict_keys_app, in_app_iff. simpl. intuition.
Qed.

Lemma get_user_fixed st uid u :
  dict_get uid (users st) = Some u -> dict_mem (preset u) PRESETS = true ->
  get_user uid st = (u, st).
Proof.
  intros G V. rewrite (get_user_present _ _ _ G), (normalise_fixed _ V).
  rewrite (dict_set_same_value _ _ _ G). now destruct st.
Qed.

Lemma mark_sent_unfold uid day key st :
  mark_sent uid day key st
  = save_users
      (mkstore
         (dict_set uid
            (set_sent_keys
               (mark_ledger (isoformat day) key (sent_keys (fst (get_user uid st))))
               (fst (get_user uid st)))
            (users (snd (get_user uid st))))
         (users_file (snd (get_user uid st)))).
Proof. unfold mark_sent. now destruct (get_user uid st). Qed.

Lemma was_sent_unfold uid day key st :
  was_sent uid day key st
  = (marked (isoformat day) key (sent_keys (fst (get_user uid st))),
     snd (get_user uid st)).
Proof. unfold was_sent, marked. now destruct (get_user uid st). Qed.

(** What [mark_sent] leaves under [uid], and that it leaves the others. *)
Lemma mark_sent_spec uid day key st :
  dict_get uid (users (mark_sent uid day key st))
  = Some (set_sent_keys (mark_ledger (isoformat day) key (ledger_of st uid))
                        (fst (get_user uid st)))
  /\ (forall uid', uid' <> uid ->
        dict_get uid' (users (mark_sent uid day key st)) = dict_get uid' (users st))
  /\ users_file (mark_sent uid day key st) = Some (users (mark_sent uid day key st))
  /\ (forall uid', In uid' (dict_keys (users (mark_sent uid day key st)))
                   <-> In uid' (dict_keys (users st)) \/ uid' = uid).
Proof.
  rewrite mark_sent_unfold. simpl.
  destruct (get_user_spec st uid) as (G & _ & S & O & K).
  rewrite S.
  split; [apply dict_get_set_same|].
  split; [intros uid' Ne; rewrite dict_get_set_other by assumption; now apply O|].
  split; [reflexivity|].
  intros uid'. rewrite dict_keys_set_in, K. intuition.
Qed.

Lemma was_sent_spec uid day key st :
  fst (was_sent uid day key st) = marked (isoformat day) key (ledger_of st uid)
  /\ snd (was_sent uid day key st) = snd (get_user uid st).
Proof.
  rewrite was_sent_unfold. simpl.
  destruct (get_user_spec st uid) as (_ & _ & S & _). now rewrite S.
Qed.

Lemma ledger_of_mark_sent uid day key st :
  ledger_of (mark_sent uid day key st) uid
  = mark_ledger (isoformat day) key (ledger_of st uid).
Proof.
  unfold ledger_of at 1.
  destruct (mark_sent_spec uid day key st) as (G & _). now rewrite G.
Qed.

Lemma mark_sent_idempotent uid day key st :
  dict_wf (ledger_of st uid) ->
  mark_sent uid day key (mark_sent uid day key st) = mark_sent uid day key st.
Proof.
  intros W.
  destruct (mark_sent_spec uid day key st) as (G & _ & F & _).
  destruct (get_user_spec st uid) as (_ & V & _).
  set (st1 := mark_sent uid day key st) in *.
  rewrite (mark_sent_unfold uid day key st1).
  rewrite (get_user_fixed st1 uid _ G V). simpl.
  rewrite (mark_ledger_idempotent _ _ _ W).
  unfold save_users. simpl.
  replace (set_sent_keys (mark_ledger (isoformat day) key (ledger_of st uid))
             (set_sent_keys (mark_ledger (isoformat day) key (ledger_of st uid))
                (fst (get_user uid st))))
    with (set_sent_keys (mark_ledger (isoformat day) key (ledger_of st uid))
            (fst (get_user uid st))) by reflexivity.
  rewrite (dict_set_same_value _ _ _ G).
  destruct st1 as [us f]. simpl in *. now rewrite F.
Qed.

(** ** Specified properties of the store *)

(** A ledger that holds the ten days 2024-03-02 to 2024-03-11. *)
Definition ten_days : ledger :=
  [("2024-03-02", ["morning"]); ("2024-03-03", ["morning"]);
   ("2024-03-04", ["morning"]); ("2024-03-05", ["morning"]);
   ("2024-03-06", ["morning"]); ("2024-03-07", ["morning"]);
   ("2024-03-08", ["morning"]); ("2024-03-09", ["morning"]);
   ("2024-03-10", ["morning"]); ("2024-03-11", ["morning"])].

(** A store whose only user has that ledger. *)
Definition late_store : store :=
  mkstore [("7", mkuser true "full" "08:30" "22:00" ten_days)] None.

(** C3, as specified: [was_sent] would be true after [mark_sent] for
    every day. On a ledger with ten later days the day marked is pruned by
    the call that marks it. *)
Lemma was_sent_false_after_mark_sent :
  ~ (forall st uid day key,
       fst (was_sent uid day key (mark_sent uid day key st)) = true).
Proof.
  intros H. specialize (H late_store "7" (mkdate 2024 3 1) "morning").
  vm_compute in H. discriminate.
Qed.

Lemma iter_mark_sent uid day key st n :
  dict_wf (ledger_of st uid) ->
  Nat.iter n (mark_sent uid day key) (mark_sent uid day key st)
  = mark_sent uid day key st.
Proof.
  intros W. induction n as [|n IH]; simpl; [reflexivity|].
  rewrite IH. now apply mark_sent_idempotent.
Qed.

(** C3, amended. On a ledger whose days are distinct, a second call of
    [mark_sent] with the same user, day and key leaves the whole store as
    the first call left it; and when fewer than ten days of the user's ledger
    are after the day, [was_sent] is true after one call and after any number
    of further calls. *)
Theorem mark_sent_twice st uid day key :
  dict_wf (ledger_of st uid) ->
  mark_sent uid day key (mark_sent uid day key st) = mark_sent uid day key st
  /\ (recent (isoformat day) (ledger_of st uid) ->
      forall n,
        fst (was_sent uid day key
               (Nat.iter n (mark_sent uid day key) (mark_sent uid day key st)))
        = true).
Proof.
  intros W. split; [now apply mark_sent_idempotent|].
  intros R n. rewrite (iter_mark_sent _ _ _ _ _ W).
  destruct (was_sent_spec uid day key (mark_sent uid day key st)) as [-> _].
  rewrite ledger_of_mark_sent, (marked_mark_ledger _ _ _ _ W R).
  rewrite String.eqb_refl. apply orb_true_r.
Qed.

Lemma mark_sent_twice_witness :
  mark_sent "7" (mkdate 2024 3 12) "iftar-5"
    (mark_sent "7" (mkdate 2024 3 12) "iftar-5" late_store)
  = mark_sent "7" (mkdate 2024 3 12) "iftar-5" late_store
  /\ fst (was_sent "7" (mkdate 2024 3 12) "iftar-5"
            (Nat.iter 2 (mark_sent "7" (mkdate 2024 3 12) "iftar-5")
               (mark_sent "7" (mkdate 2024 3 12) "iftar-5" late_store)))
     = true.
Proof.
  assert (W : dict_wf (ledger_of late_store "7")).
  { unfold dict_wf. simpl.
    repeat (constructor; [simpl; intuition discriminate|]). constructor. }
  destruct (mark_sent_twice late_store "7" (mkdate 2024 3 12) "iftar-5" W) as [I R].
  split; [exact I|].
  apply R. unfold recent. vm_compute. lia.
Defined.

(** C9. A record whose preset is not a key of [PRESETS] comes back from
    [get_user] with the default preset and its other fields as they were, and
    that is the record the store then holds, so every later read returns it;
    the loop reads the lead lists of the default preset for such a name; and
    the next write, [save_users] alone or the one in [mark_sent] for any
    user, puts the record with the default preset in the snapshot. *)
Theorem get_user_heals_preset st uid u :
  dict_get uid (users st) = Some u ->
  dict_mem (preset u) PRESETS = false ->
  fst (get_user uid st) = set_preset DEFAULT_PRESET u
  /\ get_user uid (snd (get_user uid st))
     = (set_preset DEFAULT_PRESET u, snd (get_user uid st))
  /\ dict_get DEFAULT_PRESET PRESETS = Some (preset_leads (preset u))
  /\ dict_get uid (load_users (save_users (snd (get_user uid st))))
     = Some (set_preset DEFAULT_PRESET u)
  /\ forall uid' day key,
       exists u',
         dict_get uid (load_users (mark_sent uid' day key (snd (get_user uid st))))
         = Some u'
         /\ preset u' = DEFAULT_PRESET
         /\ enabled u' = enabled u
         /\ morning_time u' = morning_time u
         /\ night_time u' = night_time u.
Proof.
  intros G B.
  assert (N : normalise u = set_preset DEFAULT_PRESET u)
    by (unfold normalise; now rewrite B).
  assert (V : dict_mem (preset (set_preset DEFAULT_PRESET u)) PRESETS = true)
    by reflexivity.
  rewrite (get_user_present _ _ _ G), N. simpl.
  assert (G' : dict_get uid
                 (users (mkstore (dict_set uid (set_preset DEFAULT_PRESET u) (users st))
                                 (users_file st)))
               = Some (set_preset DEFAULT_PRESET u))
    by apply dict_get_set_same.
  split; [reflexivity|].
  split; [now apply get_user_fixed|].
  split.
  { unfold preset_leads, dict_mem in *.
    destruct (dict_get (preset u) PRESETS); [discriminate|reflexivity]. }
  split; [apply dict_get_set_same|].
  intros uid' day key.
  set (st' := mkstore (dict_set uid (set_preset DEFAULT_PRESET u) (users st))
                      (users_file st)) in *.
  destruct (mark_sent_spec uid' day key st') as (Gm & O & F & _).
  unfold load_users. rewrite F.
  destruct (String.eqb_spec uid uid') as [<-|Ne].
  - rewrite Gm. rewrite (get_user_fixed st' uid _ G' V). simpl.
    eexists. split; [reflexivity|]. simpl. auto.
  - rewrite (O uid Ne), G'. eexists. split; [reflexivity|]. simpl. auto.
Qed.

Lemma get_user_heals_preset_witness :
  fst (get_user "7" (mkstore [("7", mkuser true "weekly" "08:30" "22:00" [])] None))
  = mkuser true "full" "08:30" "22:00" [].
Proof.
  apply (get_user_heals_preset
           (mkstore [("7", mkuser true "weekly" "08:30" "22:00" [])] None)
           "7" (mkuser true "weekly" "08:30" "22:00" []));
    reflexivity.
Defined.

(** C10. For a uid that [users] does not hold, [was_sent] answers false and
    leaves the store with a default record appended under that uid and the
    snapshot written; [mark_sent] creates the record the same way, and
    writes it with the key marked. *)
Theorem was_sent_creates_user st uid day key :
  dict_get uid (users st) = None ->
  was_sent uid day key st
  = (false, mkstore (users st ++ [(uid, new_user)])
                    (Some (users st ++ [(uid, new_user)])))
  /\ get_user uid st
     = (new_user, mkstore (users st ++ [(uid, new_user)])
                          (Some (users st ++ [(uid, new_user)])))
  /\ mark_sent uid day key st
     = mkstore (users st ++ [(uid, set_sent_keys [(isoformat day, [key])] new_user)])
               (Some (users st
                      ++ [(uid, set_sent_keys [(isoformat day, [key])] new_user)])).
Proof.
  intros G.
  assert (N : ~ In uid (dict_keys (users st))) by now apply dict_get_none.
  split; [|split].
  - rewrite was_sent_unfold, (get_user_absent _ _ G). reflexivity.
  - now apply get_user_absent.
  - rewrite mark_sent_unfold, (get_user_absent _ _ G). simpl.
    assert (E : mark_ledger (isoformat day) key [] = [(isoformat day, [key])]).
    { rewrite mark_ledger_new by reflexivity.
      destruct (appended_spec (isoformat day) key [] (NoDup_nil _))
        as (_ & _ & _ & _ & A).
      rewrite A by (simpl; tauto). reflexivity. }
    rewrite E. unfold save_users. simpl.
    rewrite <- (dict_set_absent uid new_user (users st) N), dict_set_set.
    now rewrite (dict_set_absent _ _ _ N).
Qed.

Lemma was_sent_creates_user_witness :
  was_sent "9" (mkdate 2024 3 5) "morning" late_store
  = (false,
     mkstore (users late_store ++ [("9", new_user)])
             (Some (users late_store ++ [("9", new_user)]))).
Proof.
  apply (was_sent_creates_user late_store "9" (mkdate 2024 3 5) "morning").
  reflexivity.
Defined.

(** ** ISO keys sort as the days they name *)

Lemma digit_compare x y :
  0 <= x <= 9 -> 0 <= y <= 9 ->
  Ascii.compare (PyStr.digit x) (PyStr.digit y) = (x ?= y).
Proof.
  intros Hx Hy.
  assert (Ex : x = 0 \/ x = 1 \/ x = 2 \/ x = 3 \/ x = 4 \/ x = 5 \/ x = 6
               \/ x = 7 \/ x = 8 \/ x = 9) by lia.
  assert (Ey : y = 0 \/ y = 1 \/ y = 2 \/ y = 3 \/ y = 4 \/ y = 5 \/ y = 6
               \/ y = 7 \/ y = 8 \/ y = 9) by lia.
  repeat (destruct Ex as [->|Ex]); try subst x;
    repeat (destruct Ey as [->|Ey]); try subst y; reflexivity.
Qed.

Lemma valid_date_fields d :
  valid_date d = true ->
  1 <= year d <= 9999 /\ 1 <= month d <= 12 /\ 1 <= day d <= 31.
Proof.
  unfold valid_date, days_in_month. intros V.
  repeat (apply andb_true_iff in V; destruct V as [V ?]).
  destruct (month d =? 2); [destruct (is_leap (year d))|];
    [| |destruct ((month d =? 4) || (month d =? 6) || (month d =? 9) || (month d =? 11))];
    lia.
Qed.

Lemma isoformat_ltb a b :
  valid_date a = true -> valid_date b = true ->
  String.ltb (isoformat a) (isoformat b) = date_ltb a b.
Proof.
  intros Va Vb.
  apply valid_date_fields in Va, Vb.
  destruct a as [y m d], b as [y' m' d']. simpl in Va, Vb.
  unfold isoformat, date_ltb, String.ltb, PyStr.fmt04, PyStr.fmt02. simpl.
  assert (D1 : forall n, 0 <= n mod 10 <= 9)
    by (intros n; pose proof (Z.mod_pos_bound n 10); lia).
  assert (D : forall n k, 0 <= n / k mod 10 <= 9 /\ 0 <= n mod 10 <= 9)
    by (intros n k; split; apply D1).
  rewrite !digit_compare by apply D1.
  assert (Ey : y = 1000 * (y / 1000 mod 10) + 100 * (y / 100 mod 10)
                   + 10 * (y / 10 mod 10) + y mod 10)
    by (Z.div_mod_to_equations; lia).
  assert (Ey' : y' = 1000 * (y' / 1000 mod 10) + 100 * (y' / 100 mod 10)
                     + 10 * (y' / 10 mod 10) + y' mod 10)
    by (Z.div_mod_to_equations; lia).
  assert (Em : m = 10 * (m / 10 mod 10) + m mod 10) by (Z.div_mod_to_equations; lia).
  assert (Em' : m' = 10 * (m' / 10 mod 10) + m' mod 10) by (Z.div_mod_to_equations; lia).
  assert (Ed : d = 10 * (d / 10 mod 10) + d mod 10) by (Z.div_mod_to_equations; lia).
  assert (Ed' : d' = 10 * (d' / 10 mod 10) + d' mod 10) by (Z.div_mod_to_equations; lia).
  assert (By := D y 1000). assert (By2 := D y 100). assert (By1 := D y 10).
  assert (By' := D y' 1000). assert (By2' := D y' 100). assert (By1' := D y' 10).
  assert (Bm := D m 10). assert (Bm' := D m' 10).
  assert (Bd := D d 10). assert (Bd' := D d' 10).
  revert Ey Ey' Em Em' Ed Ed' By By2 By1 By' By2' By1' Bm Bm' Bd Bd'.
  generalize (y / 1000 mod 10) (y / 100 mod 10) (y / 10 mod 10) (y mod 10)
             (y' / 1000 mod 10) (y' / 100 mod 10) (y' / 10 mod 10) (y' mod 10)
             (m / 10 mod 10) (m mod 10) (m' / 10 mod 10) (m' mod 10)
             (d / 10 mod 10) (d mod 10) (d' / 10 mod 10) (d' mod 10).
  intros. 
  repeat match goal with
         | |- context [?p ?= ?q] => destruct (Z.compare_spec p q)
         end; simpl; lia.
Qed.

(** ** Marking day after day *)

(** The increasing list of the days of [l] and the day [x]. *)
Definition sadd (x : string) (l : list string) : list string :=
  sorted (nodup string_dec (x :: l)).

Lemma sadd_in x l k : In k (sadd x l) <-> k = x \/ In k l.
Proof.
  unfold sadd. rewrite sorted_in, nodup_In. simpl. intuition.
Qed.

Lemma sadd_increasing x l : increasing (sadd x l).
Proof. apply sorted_increasing, NoDup_nodup. Qed.

(** An element is among the last ten exactly when fewer than ten elements
    are after it. *)
Lemma last10_count l k :
  increasing l ->
  In k (last10 l) <-> In k l /\ (List.length (filter (String.ltb k) l) < 10)%nat.
Proof.
  intros S. split.
  - intros I. split; [now apply last10_incl|].
    assert (Inc : incl (k :: filter (String.ltb k) l) (last10 l)).
    { intros j [<-|Ij]; [assumption|].
      apply filter_In in Ij. destruct Ij as [Ij Gt].
      destruct (last10_split l j S Ij) as [H|[_ H]]; [assumption|].
      exfalso. exact (slt_asym _ _ Gt (H _ I)). }
    apply NoDup_incl_length in Inc.
    + simpl in Inc. pose proof (last10_length l). lia.
    + constructor.
      * rewrite filter_In. intros [_ H]. exact (slt_irrefl _ H).
      * apply NoDup_filter, increasing_NoDup, S.
  - intros [I C]. rewrite <- (sorted_of_increasing l S).
    apply last10_keeps; [now apply increasing_NoDup|assumption|assumption].
Qed.

Lemma count_after_incl k l l' :
  NoDup l -> (forall j, In j l -> slt k j -> In j l') ->
  (List.length (filter (String.ltb k) l) <= List.length (filter (String.ltb k) l'))%nat.
Proof.
  intros N Inc. apply NoDup_incl_length; [now apply NoDup_filter|].
  intros j Ij. apply filter_In in Ij. destruct Ij as [Ij Gt].
  apply filter_In. split; [now apply Inc|assumption].
Qed.

(** Pruning before adding a day changes nothing of what pruning after it
    keeps. *)
Lemma last10_sadd x l :
  increasing l -> last10 (sadd x (last10 l)) = last10 (sadd x l).
Proof.
  intros S.
  assert (Su := sadd_increasing x l).
  assert (Sv := sadd_increasing x (last10 l)).
  apply increasing_unique; try now apply last10_increasing.
  intros k. rewrite !last10_count by assumption. rewrite !sadd_in.
  split; intros [I C].
  - split; [destruct I as [?|I]; [now left|right; now apply last10_incl]|].
    eapply Nat.le_lt_trans; [|exact C].
    apply count_after_incl; [now apply increasing_NoDup|].
    intros j Ij Gt. apply sadd_in. apply sadd_in in Ij.
    destruct Ij as [?|Ij]; [now left|right].
    destruct (last10_split l j S Ij) as [H|[Len H]]; [assumption|exfalso].
    assert (Inc : incl (last10 l) (filter (String.ltb k) (sadd x (last10 l)))).
    { intros t It. apply filter_In. split; [apply sadd_in; now right|].
      exact (slt_trans _ _ _ Gt (H _ It)). }
    apply NoDup_incl_length in Inc; [lia|].
    now apply increasing_NoDup, last10_increasing.
  - assert (C' : (List.length (filter (String.ltb k) (sadd x (last10 l))) < 10)%nat).
    { eapply Nat.le_lt_trans; [|exact C].
      apply count_after_incl; [now apply increasing_NoDup|].
      intros j Ij _. apply sadd_in. apply sadd_in in Ij.
      destruct Ij as [?|Ij]; [now left|right; now apply last10_incl]. }
    split; [|exact C'].
    destruct I as [?|I]; [now left|right].
    apply last10_count; [assumption|]. split; [assumption|].
    eapply Nat.le_lt_trans; [|exact C].
    apply count_after_incl; [now apply increasing_NoDup|].
    intros j Ij _. apply sadd_in. now right.
Qed.

(** The days of the ledger once a new key is marked: the last ten of the
    days it had and the day marked. *)
Lemma mark_ledger_new_days ds key (l : ledger) :
  dict_wf l -> marked ds key l = false ->
  sorted (dict_keys (mark_ledger ds key l)) = last10 (sadd ds (sorted (dict_keys l))).
Proof.
  intros W M.
  assert (W' := mark_ledger_wf ds key l W).
  rewrite mark_ledger_new in * by assumption.
  destruct (appended_spec ds key l W) as (W2 & _ & _ & K & _).
  destruct (prune_spec _ W2) as (_ & E & _).
  assert (A : sorted (dict_keys (appended ds key l)) = sadd ds (sorted (dict_keys l))).
  { apply increasing_unique;
      [now apply sorted_increasing|apply sadd_increasing|].
    intros k. rewrite sorted_in, K, sadd_in, sorted_in. tauto. }
  rewrite <- A.
  apply increasing_unique;
    [now apply sorted_increasing
    |now apply last10_increasing, sorted_increasing|].
  intros k. rewrite sorted_in. apply E.
Qed.

Lemma mark_ledger_days ds key (l : ledger) :
  dict_wf l -> (List.length (dict_keys l) <= 10)%nat ->
  sorted (dict_keys (mark_ledger ds key l)) = last10 (sadd ds (sorted (dict_keys l)))
  /\ (List.length (dict_keys (mark_ledger ds key l)) <= 10)%nat.
Proof.
  intros W Len.
  assert (E : sorted (dict_keys (mark_ledger ds key l))
              = last10 (sadd ds (sorted (dict_keys l)))).
  { destruct (marked ds key l) eqn:M; [|now apply mark_ledger_new_days].
    rewrite mark_ledger_present by assumption.
    assert (A : sadd ds (sorted (dict_keys l)) = sorted (dict_keys l)).
    { apply increasing_unique;
        [apply sadd_increasing|now apply sorted_increasing|].
      intros k. rewrite sadd_in. split; [|tauto].
      intros [->|I]; [|assumption].
      apply sorted_in. now apply (marked_in_keys ds key). }
    rewrite A. symmetry. apply last10_short. now rewrite sorted_length. }
  split; [exact E|].
  rewrite <- sorted_length, E. apply last10_length.
Qed.

(** The marks of a sequence of (day, key) pairs, on a ledger. *)
Definition mark_ledger_all (marks : list (date * string)) (l : ledger) : ledger :=
  fold_left (fun l m => mark_ledger (isoformat (fst m)) (snd m) l) marks l.

Lemma mark_ledger_all_days marks (l : ledger) (seen : list string) :
  dict_wf l -> (List.length (dict_keys l) <= 10)%nat ->
  increasing seen -> sorted (dict_keys l) = last10 seen ->
  sorted (dict_keys (mark_ledger_all marks l))
  = last10 (fold_left (fun s m => sadd (isoformat (fst m)) s) marks seen).
Proof.
  revert l seen. induction marks as [|m marks IH]; intros l seen W Len S E; simpl.
  - exact E.
  - destruct (mark_ledger_days (isoformat (fst m)) (snd m) l W Len) as [D Len'].
    apply IH; [now apply mark_ledger_wf|assumption|apply sadd_increasing|].
    rewrite D, E. now apply last10_sadd.
Qed.

Lemma fold_sadd_in days seen k :
  In k (fold_left (fun s (m : date * string) => sadd (isoformat (fst m)) s) days seen)
  <-> In k seen \/ In k (map (fun m => isoformat (fst m)) days).
Proof.
  revert seen. induction days as [|m days IH]; intros seen; simpl; [tauto|].
  rewrite IH, sadd_in. intuition.
Qed.

Lemma fold_sadd_increasing days seen :
  increasing seen ->
  increasing (fold_left (fun s (m : date * string) => sadd (isoformat (fst m)) s)
                        days seen).
Proof.
  revert seen. induction days as [|m days IH]; intros seen S; simpl; [assumption|].
  apply IH, sadd_increasing.
Qed.

(** Days in calendar order. *)
Definition chronological (days : list date) : Prop :=
  StronglySorted (fun a b => date_ltb a b = true) days.

Lemma isoformat_increasing days :
  chronological days -> Forall (fun d => valid_date d = true) days ->
  increasing (map isoformat days).
Proof.
  induction 1 as [|a l S IH F]; intros V; simpl; [constructor|].
  inversion V as [|? ? Va Vl]; subst.
  constructor; [now apply IH|].
  rewrite Forall_forall in *. intros s Is.
  apply in_map_iff in Is. destruct Is as (b & <- & Ib).
  unfold slt. rewrite isoformat_ltb; auto.
Qed.

(** [mark_sent] for one user, pair after pair. *)
Definition mark_sent_all (uid : string) (marks : list (date * string))
    (st : store) : store :=
  fold_left (fun st m => mark_sent uid (fst m) (snd m) st) marks st.

Lemma ledger_of_mark_sent_all uid marks st :
  ledger_of (mark_sent_all uid marks st) uid = mark_ledger_all marks (ledger_of st uid).
Proof.
  revert st. induction marks as [|m marks IH]; intros st; simpl; [reflexivity|].
  unfold mark_sent_all, mark_ledger_all in *. simpl.
  now rewrite IH, ledger_of_mark_sent.
Qed.

Lemma mark_ledger_values ds key (l : ledger) k :
  dict_wf l -> In k (dict_keys (mark_ledger ds key l)) -> k <> ds ->
  dict_get k (mark_ledger ds key l) = dict_get k l.
Proof.
  intros W. destruct (marked ds key l) eqn:M.
  - now rewrite mark_ledger_present.
  - rewrite mark_ledger_new by assumption.
    destruct (appended_spec ds key l W) as (W2 & _ & O & _).
    destruct (prune_spec _ W2) as (_ & E & Get).
    intros I Ne. rewrite Get by now apply E. now apply O.
Qed.

(** A ledger of eleven days, each with its morning digest marked. *)
Definition eleven_days : ledger := ("2024-03-01", ["morning"]) :: ten_days.

(** C4, as specified: every call of [mark_sent] would leave at most
    ten days. A call whose key is already marked prunes nothing, so a ledger
    read from [users.json] with eleven days keeps them. *)
Lemma mark_sent_leaves_eleven_days :
  ~ (forall st uid day key,
       (List.length (dict_keys (ledger_of (mark_sent uid day key st) uid)) <= 10)%nat).
Proof.
  intros H.
  specialize (H (mkstore [("7", mkuser true "full" "08:30" "22:00" eleven_days)] None)
                "7" (mkdate 2024 3 11) "morning").
  vm_compute in H. lia.
Qed.

(** C4, amended. On a ledger whose days are distinct: a call of [mark_sent]
    whose key is already marked leaves the ledger as it is; a call that marks
    a new key leaves, of the days the ledger had and the day marked, the ten
    greatest in the order of the ISO strings, whatever the order they were
    inserted in, and the entries of the other days that remain are
    untouched; a ledger of at most ten days stays one. On the ISO strings of
    valid dates the order of strings is the order of the calendar. Starting
    from an empty ledger, after any sequence of marks the days of the ledger
    are the last ten, in calendar order, of the days marked: with twelve
    distinct days, the ten most recent. *)
Theorem mark_sent_prunes st uid day key :
  dict_wf (ledger_of st uid) ->
  (marked (isoformat day) key (ledger_of st uid) = true ->
   ledger_of (mark_sent uid day key st) uid = ledger_of st uid)
  /\ (marked (isoformat day) key (ledger_of st uid) = false ->
      sorted (dict_keys (ledger_of (mark_sent uid day key st) uid))
      = last10 (sorted (nodup string_dec
                          (isoformat day :: dict_keys (ledger_of st uid)))))
  /\ (forall k,
        In k (dict_keys (ledger_of (mark_sent uid day key st) uid)) ->
        k <> isoformat day ->
        dict_get k (ledger_of (mark_sent uid day key st) uid)
        = dict_get k (ledger_of st uid))
  /\ ((List.length (dict_keys (ledger_of st uid)) <= 10)%nat ->
      (List.length (dict_keys (ledger_of (mark_sent uid day key st) uid)) <= 10)%nat)
  /\ (forall a b,
        valid_date a = true -> valid_date b = true ->
        String.ltb (isoformat a) (isoformat b) = date_ltb a b)
  /\ (forall marks days,
        ledger_of st uid = [] ->
        chronological days ->
        Forall (fun d => valid_date d = true) days ->
        (forall d, In d days <-> In d (map fst marks)) ->
        sorted (dict_keys (ledger_of (mark_sent_all uid marks st) uid))
        = map isoformat (skipn (List.length days - 10) days)).
Proof.
  intros W. rewrite ledger_of_mark_sent.
  split; [intros M; now apply mark_ledger_present|].
  split.
  { intros M. rewrite (mark_ledger_new_days _ _ _ W M). f_equal.
    apply increasing_unique;
      [apply sadd_increasing|apply sorted_increasing, NoDup_nodup|].
    intros k. rewrite sadd_in, sorted_in, sorted_in, nodup_In. simpl.
    intuition. }
  split; [intros k; now apply mark_ledger_values|].
  split; [intros Len; now apply mark_ledger_days|].
  split; [exact isoformat_ltb|].
  intros marks days E C V S.
  rewrite ledger_of_mark_sent_all, E.
  rewrite (mark_ledger_all_days marks [] []);
    [|constructor|simpl; lia|constructor|reflexivity].
  assert (A : fold_left (fun s (m : date * string) => sadd (isoformat (fst m)) s) marks []
              = map isoformat days).
  { apply increasing_unique;
      [apply fold_sadd_increasing; constructor|now apply isoformat_increasing|].
    intros k. rewrite fold_sadd_in, !in_map_iff. simpl. split.
    - intros [[]|(m & <- & Im)].
      exists (fst m). split; [reflexivity|]. apply S, in_map_iff. eauto.
    - intros (d & <- & Id). right. apply S, in_map_iff in Id.
      destruct Id as (m & <- & Im). eauto. }
  rewrite A. unfold last10. now rewrite length_map, skipn_map.
Qed.

Lemma mark_sent_prunes_witness :
  sorted (dict_keys (ledger_of
    (mark_sent_all "7"
       [(mkdate 2024 3 12, "morning"); (mkdate 2024 3 1, "morning");
        (mkdate 2024 3 2, "morning"); (mkdate 2024 3 3, "morning");
        (mkdate 2024 3 4, "morning"); (mkdate 2024 3 5, "morning");
        (mkdate 2024 3 6, "morning"); (mkdate 2024 3 7, "morning");
        (mkdate 2024 3 8, "morning"); (mkdate 2024 3 9, "morning");
        (mkdate 2024 3 10, "morning"); (mkdate 2024 3 11, "morning");
        (mkdate 2024 3 12, "night")]
       (mkstore [] None)) "7"))
  = ["2024-03-03"; "2024-03-04"; "2024-03-05"; "2024-03-06"; "2024-03-07";
     "2024-03-08"; "2024-03-09"; "2024-03-10"; "2024-03-11"; "2024-03-12"].
Proof.
  assert (W : dict_wf (ledger_of (mkstore [] None) "7")) by constructor.
  destruct (mark_sent_prunes (mkstore [] None) "7" (mkdate 2024 3 1) "morning" W)
    as (_ & _ & _ & _ & _ & H).
  apply (H _ [mkdate 2024 3 1; mkdate 2024 3 2; mkdate 2024 3 3; mkdate 2024 3 4;
              mkdate 2024 3 5; mkdate 2024 3 6; mkdate 2024 3 7; mkdate 2024 3 8;
              mkdate 2024 3 9; mkdate 2024 3 10; mkdate 2024 3 11; mkdate 2024 3 12]).
  - reflexivity.
  - unfold chronological.
    repeat (constructor; [|repeat (constructor; [reflexivity|]); constructor]).
    constructor.
  - repeat (constructor; [reflexivity|]). constructor.
  - intros d. simpl. intuition.
Defined.

(** ** The loop: what a step keeps and what it sends *)

(** The world [w'] has the outbox of [w] and further messages, all of which
    satisfy [phi]. *)
Definition grows (phi : sent -> Prop) (w w' : world) : Prop :=
  exists new, outbox w' = outbox w ++ new /\ Forall phi new.

Lemma grows_same phi w w' : outbox w' = outbox w -> grows phi w w'.
Proof. intros E. exists []. split; [now rewrite app_nil_r|constructor]. Qed.

Lemma grows_refl phi w : grows phi w w.
Proof. now apply grows_same. Qed.

Lemma grows_trans phi w1 w2 w3 : grows phi w1 w2 -> grows phi w2 w3 -> grows phi w1 w3.
Proof.
  intros (n1 & E1 & F1) (n2 & E2 & F2). exists (n1 ++ n2).
  split; [now rewrite E2, E1, app_assoc|now apply Forall_app].
Qed.

(** Whether it returns or raises, the step [c] keeps the property [I] of the
    store, sends only messages that satisfy [phi], and what it returns
    satisfies [R]. *)
Definition keeps {A : Type} (I : store -> Prop) (phi : sent -> Prop)
    (R : A -> Prop) (c : T A) : Prop :=
  forall w, I (w_store w) ->
    I (w_store (snd (c w)))
    /\ grows phi w (snd (c w))
    /\ forall a, fst (c w) = Some a -> R a.

Definition any {A : Type} : A -> Prop := fun _ => True.

Section Keeps.
Context {L : PyLib}.
Variable sink : Z -> message -> bool.
Variable I : store -> Prop.
Variable phi : sent -> Prop.

Lemma keeps_ret {A : Type} (R : A -> Prop) (a : A) : R a -> keeps I phi R (ret a).
Proof.
  intros Ra w Iw. simpl. split; [assumption|]. split; [apply grows_refl|].
  now intros a' [= <-].
Qed.

Lemma keeps_try_value {A : Type} (R : A -> Prop) (o : option A) :
  (forall a, o = Some a -> R a) -> keeps I phi R (try_value o).
Proof.
  intros Ra w Iw. simpl. split; [assumption|]. split; [apply grows_refl|assumption].
Qed.

Lemma keeps_bind {A B : Type} (R : A -> Prop) (R' : B -> Prop)
    (c : T A) (k : A -> T B) :
  keeps I phi R c -> (forall a, R a -> keeps I phi R' (k a)) ->
  keeps I phi R' (bind c k).
Proof.
  intros Hc Hk w Iw. unfold bind.
  destruct (Hc w Iw) as (I1 & G1 & V1).
  destruct (c w) as [[a|] w1]; simpl in *.
  - destruct (Hk a (V1 a eq_refl) w1 I1) as (I2 & G2 & V2).
    split; [assumption|]. split; [eapply grows_trans; eauto|assumption].
  - split; [assumption|]. split; [assumption|discriminate].
Qed.

Lemma keeps_weaken {A : Type} (R R' : A -> Prop) (c : T A) :
  keeps I phi R c -> (forall a, R a -> R' a) -> keeps I phi R' c.
Proof.
  intros Hc HR w Iw. destruct (Hc w Iw) as (I1 & G1 & V1). auto.
Qed.

Lemma keeps_read_store {A : Type} (R : A -> Prop) (f : store -> A * store) :
  (forall st, I st -> I (snd (f st)) /\ R (fst (f st))) ->
  keeps I phi R (read_store f).
Proof.
  intros Hf w Iw. unfold read_store.
  destruct (Hf _ Iw) as [I1 R1]. destruct (f (w_store w)) as [a st]. simpl in *.
  split; [assumption|]. split; [now apply grows_same|]. now intros a' [= <-].
Qed.

Lemma keeps_write_store (f : store -> store) :
  (forall st, I st -> I (f st)) -> keeps I phi any (write_store f).
Proof.
  intros Hf w Iw. unfold write_store. simpl.
  split; [auto|]. split; [now apply grows_same|]. intros; exact Logic.I.
Qed.

Lemma keeps_send_message uid text :
  (forall chat, py_int uid = Some chat -> phi (mksent uid chat text)) ->
  keeps I phi any (send_message sink uid text).
Proof.
  intros Hp w Iw. unfold send_message.
  destruct (py_int uid) as [chat|] eqn:E;
    [destruct (sink chat text)|]; simpl;
    (split; [assumption|]); (split; [|intros; exact Logic.I]);
    try apply grows_refl.
  exists [mksent uid chat text]. split; [reflexivity|].
  constructor; [now apply Hp|constructor].
Qed.

Lemma keeps_user_obj (R : UserSettings -> Prop) uid u0 :
  (forall st, I st ->
     R (match dict_get uid (users st) with Some u => u | None => u0 end)) ->
  keeps I phi R (user_obj uid u0).
Proof.
  intros HR w Iw. unfold user_obj. simpl.
  split; [assumption|]. split; [apply grows_refl|].
  intros a [= <-]. now apply HR.
Qed.

Lemma keeps_for_each {A : Type} (l : list A) (body : A -> T unit) :
  (forall x, In x l -> keeps I phi any (body x)) ->
  keeps I phi any (for_each l body).
Proof.
  induction l as [|x r IH]; intros Hb; simpl.
  - now apply keeps_ret.
  - apply keeps_bind with (R := any); [apply Hb; simpl; auto|].
    intros _ _. apply IH. intros y Iy. apply Hb. simpl; auto.
Qed.

Lemma plus_minutes_some t m r : plus_minutes t m = Some r -> r = t + m * 60000000.
Proof.
  unfold plus_minutes.
  destruct ((MIN_INSTANT <=? t + m * 60000000) && (t + m * 60000000 <=? MAX_INSTANT));
    congruence.
Qed.

Lemma keeps_in_window trigger now :
  keeps I phi (fun due => due = true -> trigger <= now < trigger + 60000000)
        (in_window trigger now).
Proof.
  unfold in_window. destruct (Z.leb_spec trigger now) as [Le|Gt].
  - apply keeps_bind with (R := fun upper => upper = trigger + 60000000).
    + apply keeps_try_value. intros a E. apply plus_minutes_some in E. lia.
    + intros upper ->. apply keeps_ret. lia.
  - apply keeps_ret. discriminate.
Qed.

End Keeps.

(** The steps of the loop for one user, under an invariant that the store
    operations on that user keep for the keys [ok_key], and with messages
    [ok_msg] allowed to that user. *)
Section Frame.
Context {L : PyLib}.
Variable sink : Z -> message -> bool.
Variable time_file : option (list string).
Variable I : store -> Prop.
Variable phi : sent -> Prop.
Variable uid : string.
Variable today : date.
Variable ok_key : string -> Prop.
Variable ok_msg : message -> Prop.
Hypothesis I_get : forall st, I st -> I (snd (get_user uid st)).
Hypothesis I_mark :
  forall key st, ok_key key -> I st -> I (mark_sent uid today key st).
Hypothesis phi_ok :
  forall chat text, py_int uid = Some chat -> ok_msg text -> phi (mksent uid chat text).

Lemma keeps_was_sent key :
  keeps I phi any (read_store (was_sent uid today key)).
Proof.
  apply keeps_read_store. intros st Ist. split; [|exact Logic.I].
  rewrite (proj2 (was_sent_spec uid today key st)). now apply I_get.
Qed.

Lemma keeps_send_mark text key :
  ok_msg text -> ok_key key ->
  keeps I phi any
    (send_message sink uid text ;;; write_store (mark_sent uid today key)).
Proof.
  intros Hm Hk. apply keeps_bind with (R := any).
  - apply keeps_send_message. intros chat E. now apply phi_ok.
  - intros _ _. apply keeps_write_store. intros st. now apply I_mark.
Qed.

Lemma keeps_morning_digest u0 now today_times :
  ok_key "morning" ->
  ok_msg (match today_times with
          | Some _ => MorningDigest (format_day_info time_file today)
          | None => MorningNotFound
          end) ->
  keeps I phi any (morning_digest sink time_file uid u0 now today today_times).
Proof.
  intros Hk Hm. unfold morning_digest.
  apply keeps_bind with (R := any); [now apply keeps_user_obj|].
  intros u _. destruct (strftime_HM now =? morning_time u)%string;
    [|now apply keeps_ret].
  apply keeps_bind with (R := any); [apply keeps_was_sent|].
  intros was _. destruct was; [now apply keeps_ret|].
  now apply keeps_send_mark.
Qed.

Lemma keeps_night_digest u0 now tmr tomorrow_times :
  ok_key "night" ->
  ok_msg (match tomorrow_times with
          | Some _ => NightDigest (format_day_info time_file tmr)
          | None => NightNotFound
          end) ->
  keeps I phi any (night_digest sink time_file uid u0 now today tmr tomorrow_times).
Proof.
  intros Hk Hm. unfold night_digest.
  apply keeps_bind with (R := any); [now apply keeps_user_obj|].
  intros u _. destruct (strftime_HM now =? night_time u)%string;
    [|now apply keeps_ret].
  apply keeps_bind with (R := any); [apply keeps_was_sent|].
  intros was _. destruct was; [now apply keeps_ret|].
  now apply keeps_send_mark.
Qed.

Lemma keeps_iftar_reminder now ift_dt mins :
  ok_key ("iftar-" ++ PyStr.str_of_int mins)%string -> ok_msg (IftarIn mins) ->
  keeps I phi any (iftar_reminder sink uid now today ift_dt mins).
Proof.
  intros Hk Hm. unfold iftar_reminder.
  apply keeps_bind with (R := any); [apply keeps_was_sent|].
  intros was _. destruct was; [now apply keeps_ret|].
  apply keeps_bind with (R := any); [now apply keeps_try_value|].
  intros trigger _.
  apply keeps_bind with (R := any);
    [eapply keeps_weaken; [apply keeps_in_window|now intros]|].
  intros due _. destruct due; [|now apply keeps_ret].
  now apply keeps_send_mark.
Qed.

Lemma keeps_iftar_now now ift_dt :
  ok_key "iftar-now" -> ok_msg IftarNow ->
  keeps I phi any (iftar_now sink uid now today ift_dt).
Proof.
  intros Hk Hm. unfold iftar_now.
  apply keeps_bind with (R := any); [apply keeps_was_sent|].
  intros was _. destruct was; [now apply keeps_ret|].
  apply keeps_bind with (R := any);
    [eapply keeps_weaken; [apply keeps_in_window|now intros]|].
  intros due _. destruct due; [|now apply keeps_ret].
  now apply keeps_send_mark.
Qed.

Lemma keeps_saharlik_reminder now sah_dt mins :
  ok_key ("saharlik-" ++ PyStr.str_of_int mins)%string -> ok_msg (SaharlikIn mins) ->
  keeps I phi any (saharlik_reminder sink uid now today sah_dt mins).
Proof.
  intros Hk Hm. unfold saharlik_reminder.
  apply keeps_bind with (R := any); [apply keeps_was_sent|].
  intros was _. destruct was; [now apply keeps_ret|].
  apply keeps_bind with (R := any); [now apply keeps_try_value|].
  intros trigger _.
  apply keeps_bind with (R := any);
    [eapply keeps_weaken; [apply keeps_in_window|now intros]|].
  intros due _. destruct due; [|now apply keeps_ret].
  now apply keeps_send_mark.
Qed.

Lemma keeps_reminders u0 now today_times :
  (forall key, ok_key key) -> (forall text, ok_msg text) ->
  keeps I phi any (reminders sink uid u0 now today today_times).
Proof.
  intros Hk Hm. unfold reminders.
  destruct today_times as [[sah_t ift_t]|]; [|now apply keeps_ret].
  apply keeps_bind with (R := any); [now apply keeps_user_obj|].
  intros u _.
  apply keeps_bind with (R := any).
  { apply keeps_for_each. intros mins _. now apply keeps_iftar_reminder. }
  intros _ _.
  apply keeps_bind with (R := any); [now apply keeps_iftar_now|].
  intros _ _.
  apply keeps_for_each. intros mins _. now apply keeps_saharlik_reminder.
Qed.

Lemma keeps_notify_user u0 now tmr today_times tomorrow_times :
  (forall key, ok_key key) -> (forall text, ok_msg text) ->
  keeps I phi any
    (notify_user sink time_file now today tmr today_times tomorrow_times (uid, u0)).
Proof.
  intros Hk Hm. unfold notify_user.
  apply keeps_bind with (R := any); [now apply keeps_user_obj|].
  intros u _. destruct (negb (enabled u)); [now apply keeps_ret|].
  apply keeps_bind with (R := any); [now apply keeps_morning_digest|].
  intros _ _.
  apply keeps_bind with (R := any); [now apply keeps_night_digest|].
  intros _ _. now apply keeps_reminders.
Qed.

(** Without an entry for today the body of the loop sends digests only. *)
Lemma keeps_notify_user_no_entry u0 now tmr tomorrow_times :
  (forall key, ok_key key) ->
  ok_msg MorningNotFound ->
  ok_msg (match tomorrow_times with
          | Some _ => NightDigest (format_day_info time_file tmr)
          | None => NightNotFound
          end) ->
  keeps I phi any
    (notify_user sink time_file now today tmr None tomorrow_times (uid, u0)).
Proof.
  intros Hk Hm Hn. unfold notify_user.
  apply keeps_bind with (R := any); [now apply keeps_user_obj|].
  intros u _. destruct (negb (enabled u)); [now apply keeps_ret|].
  apply keeps_bind with (R := any); [now apply keeps_morning_digest|].
  intros _ _.
  apply keeps_bind with (R := any); [now apply keeps_night_digest|].
  intros _ _. now apply keeps_ret.
Qed.

End Frame.

(** ** Specified properties of the loop: users that are skipped *)

Section Skipped.
Context {L : PyLib}.
Variable sink : Z -> message -> bool.
Variable time_file : option (list string).

Lemma keeps_tick_body (I : store -> Prop) (phi : sent -> Prop) now :
  (forall tmr item,
     keeps I phi any
       (notify_user sink time_file now (dt_date now) tmr
          (load_day_times time_file (dt_date now))
          (load_day_times time_file tmr) item)) ->
  keeps I phi any (tick_body sink time_file now).
Proof.
  intros Hn. unfold tick_body.
  apply keeps_bind with (R := any); [now apply keeps_try_value|].
  intros tmr _.
  apply keeps_bind with (R := any).
  { intros w Iw. simpl. split; [assumption|]. split; [apply grows_refl|].
    intros; exact Logic.I. }
  intros items _. apply keeps_for_each. intros item _. apply Hn.
Qed.

(** The user under [uid] is disabled. *)
Definition disabled (uid : string) (st : store) : Prop :=
  exists u, dict_get uid (users st) = Some u /\ enabled u = false.

(** A message for another user than [uid], to the chat of its own uid. *)
Definition not_for (uid : string) (e : sent) : Prop :=
  to_uid e <> uid /\ py_int (to_uid e) = Some (chat_id e).

Lemma disabled_notify_user uid now today tmr today_times tomorrow_times item :
  keeps (disabled uid) (not_for uid) any
    (notify_user sink time_file now today tmr today_times tomorrow_times item).
Proof.
  destruct item as [uid' u0].
  destruct (String.eqb_spec uid' uid) as [->|Ne].
  - unfold notify_user.
    apply keeps_bind with (R := fun u => enabled u = false).
    + apply keeps_user_obj. intros st (u & G & E). now rewrite G.
    + intros u ->. now apply keeps_ret.
  - apply keeps_notify_user with (ok_key := any) (ok_msg := any);
      try (intros; exact Logic.I).
    + intros st (u & G & E). exists u. split; [|assumption].
      destruct (get_user_spec st uid') as (_ & _ & _ & O & _).
      rewrite O; auto.
    + intros key st _ (u & G & E). exists u. split; [|assumption].
      destruct (mark_sent_spec uid' today key st) as (_ & O & _).
      rewrite O; auto.
    + intros chat text E _. split; assumption.
Qed.

Lemma disabled_tick uid now w :
  disabled uid (w_store w) ->
  disabled uid (w_store (tick sink time_file now w))
  /\ grows (not_for uid) w (tick sink time_file now w).
Proof.
  intros D. unfold tick.
  destruct (keeps_tick_body (disabled uid) (not_for uid) now
              (fun tmr item => disabled_notify_user uid now _ tmr _ _ item) w D)
    as (D' & G & _).
  auto.
Qed.

End Skipped.

(** C8. A user whose record has [enabled] false gets no message from a tick,
    whatever the instant of the tick is and whether or not the tick raises:
    every message a tick sends is made for another uid and goes to the chat
    of that uid. The record is still disabled after the tick, so the same
    holds of any number of iterations of the loop in a row. *)
Theorem disabled_user_gets_nothing {L : PyLib} (sink : Z -> message -> bool)
    (time_file : option (list string)) (nows : list datetime) (w : world)
    (uid : string) (u : UserSettings) :
  dict_get uid (users (w_store w)) = Some u ->
  enabled u = false ->
  exists new,
    outbox (notification_loop sink time_file nows w) = outbox w ++ new
    /\ Forall (fun e => to_uid e <> uid /\ py_int (to_uid e) = Some (chat_id e)) new
    /\ exists u',
         dict_get uid (users (w_store (notification_loop sink time_file nows w))) = Some u'
         /\ enabled u' = false.
Proof.
  intros G E.
  assert (D : disabled uid (w_store w)) by (exists u; auto).
  clear G E u.
  assert (H : disabled uid (w_store (notification_loop sink time_file nows w))
              /\ grows (not_for uid) w (notification_loop sink time_file nows w)).
  { revert w D. unfold notification_loop.
    induction nows as [|now nows IH]; intros w D; simpl.
    - split; [assumption|apply grows_refl].
    - destruct (disabled_tick sink time_file uid now w D) as [D1 G1].
      destruct (IH _ D1) as [D2 G2].
      split; [assumption|eapply grows_trans; eauto]. }
  destruct H as [D' (new & En & Fn)].
  exists new. auto.
Qed.

(** ** Runs of the loop that raise nothing *)

Lemma bind_some {A B : Type} (c : T A) (k : A -> T B) w b w' :
  bind c k w = (Some b, w') ->
  exists a w1, c w = (Some a, w1) /\ k a w1 = (Some b, w').
Proof.
  unfold bind. destruct (c w) as [[a|] w1]; [eauto|discriminate].
Qed.

Lemma ret_run {A : Type} (a b : A) w w' : ret a w = (Some b, w') -> w' = w.
Proof. unfold ret. now intros [= _ <-]. Qed.

Lemma for_each_app {A : Type} (l1 l2 : list A) (body : A -> T unit) w :
  for_each (l1 ++ l2) body w
  = bind (for_each l1 body) (fun _ => for_each l2 body) w.
Proof.
  revert w. induction l1 as [|x r IH]; intros w; simpl; [reflexivity|].
  unfold bind at 1 2 3. destruct (body x w) as [[[]|] w1]; [apply IH|reflexivity].
Qed.

Lemma keeps_run {A : Type} I phi (R : A -> Prop) (c : T A) w r w' :
  keeps I phi R c -> I (w_store w) -> c w = (r, w') ->
  I (w_store w') /\ grows phi w w'.
Proof.
  intros K Iw E. destruct (K w Iw) as (I1 & G1 & _). rewrite E in *. auto.
Qed.

Lemma dict_get_split {K V : Type} `{EqKey K} (k : K) (v : V) (d : dict K V) :
  dict_get k d = Some v ->
  exists pre post, d = pre ++ (k, v) :: post /\ ~ In k (dict_keys pre).
Proof.
  induction d as [|[k' v'] r IH]; simpl; [discriminate|].
  destruct (keqb_spec k k') as [<-|N].
  - intros [= <-]. exists [], r. simpl. tauto.
  - intros G. destruct (IH G) as (pre & post & -> & Np).
    exists ((k', v') :: pre), post. simpl. split; [reflexivity|].
    intros [E|I]; [congruence|tauto].
Qed.

(** [trigger <= now < trigger + timedelta(minutes=1)], as a boolean. *)
Definition due_at (trigger now : Z) : bool :=
  (trigger <=? now) && (now <? trigger + 60000000).

Lemma str_of_int_parses z :
  NilZero.int_of_string (PyStr.str_of_int z) = Some (Z.to_int z).
Proof.
  apply NilZero.isi; destruct z; simpl; try discriminate;
    intros [= H]; now apply Unsigned.to_uint_nonnil in H.
Qed.

Lemma str_of_int_inj x y : PyStr.str_of_int x = PyStr.str_of_int y -> x = y.
Proof.
  intros E. apply DecimalZ.to_int_inj.
  pose proof (str_of_int_parses x) as Hx. rewrite E, str_of_int_parses in Hx.
  congruence.
Qed.

Lemma str_of_int_not_now z : PyStr.str_of_int z <> "now".
Proof.
  intros E. pose proof (str_of_int_parses z) as H. rewrite E in H. discriminate.
Qed.

Section Runs.
Context {L : PyLib}.
Variable sink : Z -> message -> bool.

Lemma in_window_run trigger now w due w' :
  in_window trigger now w = (Some due, w') ->
  w' = w /\ due = due_at trigger now.
Proof.
  unfold in_window, due_at. destruct (trigger <=? now); simpl.
  - unfold bind, try_value, ret.
    destruct (plus_minutes trigger 1) as [upper|] eqn:P; [|discriminate].
    apply plus_minutes_some in P. subst upper. intros [= <- <-].
    split; [reflexivity|]. first [reflexivity|f_equal; lia].
  - unfold ret. intros [= <- <-]. auto.
Qed.

Lemma send_message_run uid text w w' :
  send_message sink uid text w = (Some tt, w') ->
  exists chat,
    py_int uid = Some chat
    /\ w' = mkworld (w_store w) (outbox w ++ [mksent uid chat text]).
Proof.
  unfold send_message. destruct (py_int uid) as [chat|]; [|discriminate].
  destruct (sink chat text); [|discriminate].
  intros [= <-]. eauto.
Qed.

Lemma was_sent_run uid day key w was w' :
  read_store (was_sent uid day key) w = (Some was, w') ->
  was = marked (isoformat day) key (ledger_of (w_store w) uid)
  /\ w' = mkworld (snd (get_user uid (w_store w))) (outbox w).
Proof.
  unfold read_store. destruct (was_sent_spec uid day key (w_store w)) as [E1 E2].
  destruct (was_sent uid day key (w_store w)) as [b st]. simpl in *.
  intros [= <- <-]. subst. auto.
Qed.

(** A send followed by its mark, when neither raises. *)
Lemma send_mark_run uid day text key w w' :
  (send_message sink uid text ;;; write_store (mark_sent uid day key)) w
  = (Some tt, w') ->
  exists chat,
    py_int uid = Some chat
    /\ w' = mkworld (mark_sent uid day key (w_store w))
                    (outbox w ++ [mksent uid chat text]).
Proof.
  intros E. apply bind_some in E. destruct E as ([] & w1 & S & Wr).
  apply send_message_run in S. destruct S as (chat & P & ->).
  unfold write_store in Wr. simpl in Wr. injection Wr as <-. eauto.
Qed.

End Runs.

(** ** The reminder before the end of the window *)

(** The ledger key of the reminder [mins] minutes before iftar. *)
Definition iftar_key (mins : Z) : string := "iftar-" ++ PyStr.str_of_int mins.

(** The store has distinct uids, and under [uid] an enabled record with the
    lead lists [p0], whose ledger has distinct days, keeps the day [ds] when
    pruned, and has [key] marked under [ds] or not as [b] says. *)
Definition settled (uid ds key : string) (p0 : leads) (b : bool) (st : store) : Prop :=
  dict_wf (users st)
  /\ exists u,
       dict_get uid (users st) = Some u
       /\ enabled u = true
       /\ preset_leads (preset u) = p0
       /\ dict_wf (sent_keys u)
       /\ recent ds (sent_keys u)
       /\ marked ds key (sent_keys u) = b.

(** Any message but [text] to [uid]. *)
Definition other_than (uid : string) (text : message) (e : sent) : Prop :=
  ~ (to_uid e = uid /\ body e = text).

(** The outbox of [w'] is that of [w], then messages that satisfy [phi],
    then [fired], then messages that satisfy [phi]. *)
Definition around (phi : sent -> Prop) (fired : list sent) (w w' : world) : Prop :=
  exists n1 n2,
    outbox w' = outbox w ++ n1 ++ fired ++ n2 /\ Forall phi n1 /\ Forall phi n2.

Lemma around_here phi fired w w' :
  outbox w' = outbox w ++ fired -> around phi fired w w'.
Proof.
  intros E. exists [], []. simpl. rewrite app_nil_r. repeat split; auto.
Qed.

Lemma grows_around phi fired w w1 w2 :
  grows phi w w1 -> around phi fired w1 w2 -> around phi fired w w2.
Proof.
  intros (n & E & F) (n1 & n2 & E' & F1 & F2). exists (n ++ n1), n2.
  split; [rewrite E', E, <- !app_assoc; reflexivity|].
  split; [now apply Forall_app|assumption].
Qed.

Lemma around_grows phi fired w w1 w2 :
  around phi fired w w1 -> grows phi w1 w2 -> around phi fired w w2.
Proof.
  intros (n1 & n2 & E' & F1 & F2) (n & E & F). exists n1, (n2 ++ n).
  split; [rewrite E, E', <- !app_assoc; reflexivity|].
  split; [assumption|now apply Forall_app].
Qed.

Lemma preset_leads_normalise u :
  preset_leads (preset (normalise u)) = preset_leads (preset u).
Proof.
  unfold normalise, dict_mem, preset_leads.
  destruct (dict_get (preset u) PRESETS) eqn:E; [now rewrite E|reflexivity].
Qed.

Lemma preset_leads_NoDup name : NoDup (iftar (preset_leads name)).
Proof.
  unfold preset_leads. simpl.
  destruct (name =? "full")%string; [|destruct (name =? "short")%string;
    [|destruct (name =? "minimal")%string]]; simpl;
    repeat (constructor; [simpl; intuition lia|]); constructor.
Qed.

Lemma get_user_wf st uid :
  dict_wf (users st) -> dict_wf (users (snd (get_user uid st))).
Proof.
  intros W. destruct (dict_get uid (users st)) as [u|] eqn:G.
  - rewrite (get_user_present _ _ _ G). simpl. now apply dict_wf_set.
  - rewrite (get_user_absent _ _ G). simpl.
    rewrite <- (dict_set_absent uid new_user (users st))
      by now apply dict_get_none.
    now apply dict_wf_set.
Qed.

Lemma mark_sent_wf st uid day key :
  dict_wf (users st) -> dict_wf (users (mark_sent uid day key st)).
Proof.
  intros W. rewrite mark_sent_unfold. simpl.
  now apply dict_wf_set, get_user_wf.
Qed.

Section Settled.
Variable uid ds key : string.
Variable p0 : leads.

Lemma settled_get b st :
  settled uid ds key p0 b st -> settled uid ds key p0 b (snd (get_user uid st)).
Proof.
  intros (W & u & G & E & P & Wl & R & M).
  split; [now apply get_user_wf|].
  rewrite (get_user_present _ _ _ G). simpl.
  exists (normalise u). rewrite dict_get_set_same, enabled_normalise,
    preset_leads_normalise, sent_keys_normalise. repeat split; assumption.
Qed.

Lemma settled_other_get b st uid' :
  uid' <> uid ->
  settled uid ds key p0 b st -> settled uid ds key p0 b (snd (get_user uid' st)).
Proof.
  intros Ne (W & u & G & H).
  split; [now apply get_user_wf|].
  exists u. split; [|exact H].
  destruct (get_user_spec st uid') as (_ & _ & _ & O & _). rewrite O; auto.
Qed.

Lemma settled_other_mark b st uid' day key' :
  uid' <> uid ->
  settled uid ds key p0 b st ->
  settled uid ds key p0 b (mark_sent uid' day key' st).
Proof.
  intros Ne (W & u & G & H).
  split; [now apply mark_sent_wf|].
  exists u. split; [|exact H].
  destruct (mark_sent_spec uid' day key' st) as (_ & O & _). rewrite O; auto.
Qed.

End Settled.

Lemma settled_mark uid day key p0 b st key' :
  settled uid (isoformat day) key p0 b st ->
  settled uid (isoformat day) key p0 (b || (key =? key')%string)
          (mark_sent uid day key' st).
Proof.
  intros (W & u & G & E & P & Wl & R & M).
  split; [now apply mark_sent_wf|].
  destruct (mark_sent_spec uid day key' st) as (Gm & _).
  rewrite (get_user_present _ _ _ G) in Gm. simpl in Gm.
  assert (El : ledger_of st uid = sent_keys u) by (unfold ledger_of; now rewrite G).
  rewrite El in Gm.
  eexists. split; [exact Gm|]. simpl.
  rewrite enabled_normalise, preset_leads_normalise.
  repeat split; auto.
  - now apply mark_ledger_wf.
  - now apply mark_ledger_recent.
  - rewrite marked_mark_ledger by assumption. now rewrite M.
Qed.

Lemma append_cancel p a b : (p ++ a)%string = (p ++ b)%string -> a = b.
Proof.
  induction p as [|c p IH]; simpl; [auto|]. intros [= E]. auto.
Qed.

Lemma iftar_key_inj x y : iftar_key x = iftar_key y -> x = y.
Proof. intros E. now apply str_of_int_inj, (append_cancel "iftar-"). Qed.

Lemma iftar_key_not_now x : "iftar-now" <> iftar_key x.
Proof.
  intros E. apply (str_of_int_not_now x). symmetry.
  now apply (append_cancel "iftar-").
Qed.

Lemma iftar_key_not_morning x : "morning" <> iftar_key x.
Proof. unfold iftar_key. generalize (PyStr.str_of_int x). intros s. discriminate. Qed.

Lemma iftar_key_not_night x : "night" <> iftar_key x.
Proof. unfold iftar_key. generalize (PyStr.str_of_int x). intros s. discriminate. Qed.

Lemma iftar_key_not_saharlik x y :
  ("saharlik-" ++ PyStr.str_of_int y)%string <> iftar_key x.
Proof.
  unfold iftar_key. generalize (PyStr.str_of_int x) (PyStr.str_of_int y).
  intros s s'. discriminate.
Qed.

(** The tick at [now], the user [uid] and the lead [m] of its preset. *)
Section IftarFires.
Context {L : PyLib}.
Variable sink : Z -> message -> bool.
Variable time_file : option (list string).
Variable uid : string.
Variable now : datetime.
Variable m : Z.
Variable p0 : leads.

Local Abbreviation J := (settled uid (isoformat (dt_date now)) (iftar_key m) p0).
Local Abbreviation other := (other_than uid (IftarIn m)).

Lemma own_mark b key' st :
  key' <> iftar_key m -> J b st -> J b (mark_sent uid (dt_date now) key' st).
Proof.
  intros Ne S. apply (settled_mark _ _ _ _ _ _ key') in S.
  replace (iftar_key m =? key')%string with false in S
    by (symmetry; apply String.eqb_neq; congruence).
  now rewrite orb_false_r in S.
Qed.

Lemma own_phi chat text :
  py_int uid = Some chat -> text <> IftarIn m -> other (mksent uid chat text).
Proof. intros _ Ne [_ E]. now apply Ne. Qed.

Lemma own_morning b u0 today_times :
  keeps (J b) other any
        (morning_digest sink time_file uid u0 now (dt_date now) today_times).
Proof.
  apply keeps_morning_digest
    with (ok_key := fun k => k <> iftar_key m) (ok_msg := fun t => t <> IftarIn m).
  - apply settled_get.
  - apply own_mark.
  - apply own_phi.
  - apply iftar_key_not_morning.
  - destruct today_times; discriminate.
Qed.

Lemma own_night b u0 tmr tomorrow_times :
  keeps (J b) other any
        (night_digest sink time_file uid u0 now (dt_date now) tmr tomorrow_times).
Proof.
  apply keeps_night_digest
    with (ok_key := fun k => k <> iftar_key m) (ok_msg := fun t => t <> IftarIn m).
  - apply settled_get.
  - apply own_mark.
  - apply own_phi.
  - apply iftar_key_not_night.
  - destruct tomorrow_times; discriminate.
Qed.

Lemma own_iftar_other b ift_dt x :
  x <> m ->
  keeps (J b) other any (iftar_reminder sink uid now (dt_date now) ift_dt x).
Proof.
  intros Ne.
  apply keeps_iftar_reminder
    with (ok_key := fun k => k <> iftar_key m) (ok_msg := fun t => t <> IftarIn m).
  - apply settled_get.
  - apply own_mark.
  - apply own_phi.
  - intros E. apply Ne. now apply iftar_key_inj.
  - congruence.
Qed.

Lemma own_iftar_now b ift_dt :
  keeps (J b) other any (iftar_now sink uid now (dt_date now) ift_dt).
Proof.
  apply keeps_iftar_now
    with (ok_key := fun k => k <> iftar_key m) (ok_msg := fun t => t <> IftarIn m).
  - apply settled_get.
  - apply own_mark.
  - apply own_phi.
  - apply iftar_key_not_now.
  - discriminate.
Qed.

Lemma own_saharlik b sah_dt x :
  keeps (J b) other any (saharlik_reminder sink uid now (dt_date now) sah_dt x).
Proof.
  apply keeps_saharlik_reminder
    with (ok_key := fun k => k <> iftar_key m) (ok_msg := fun t => t <> IftarIn m).
  - apply settled_get.
  - apply own_mark.
  - apply own_phi.
  - apply iftar_key_not_saharlik.
  - discriminate.
Qed.

Lemma other_user b uid' u0 today tmr today_times tomorrow_times :
  uid' <> uid ->
  keeps (J b) other any
    (notify_user sink time_file now today tmr today_times tomorrow_times (uid', u0)).
Proof.
  intros Ne.
  apply keeps_notify_user with (ok_key := any) (ok_msg := any);
    try (intros; exact Logic.I).
  - intros st. now apply settled_other_get.
  - intros key' st _. now apply settled_other_mark.
  - intros chat text _ _ [E _]. now apply Ne.
Qed.

(** What the reminder sends and leaves, by whether it is due and whether its
    key was marked. *)
Definition fires (b due : bool) (w w' : world) : Prop :=
  (due && negb b = true
   /\ exists chat,
        py_int uid = Some chat
        /\ outbox w' = outbox w ++ [mksent uid chat (IftarIn m)])
  \/ (due && negb b = false /\ outbox w' = outbox w).

Lemma iftar_reminder_run b ift_dt w w' :
  J b (w_store w) ->
  iftar_reminder sink uid now (dt_date now) ift_dt m w = (Some tt, w') ->
  J (b || due_at (instant ift_dt - m * 60000000) (instant now)) (w_store w')
  /\ fires b (due_at (instant ift_dt - m * 60000000) (instant now)) w w'.
Proof.
  intros S E. unfold iftar_reminder in E.
  apply bind_some in E. destruct E as (was & w1 & E1 & E2).
  apply was_sent_run in E1. destruct E1 as [Ew ->].
  assert (S1 := settled_get _ _ _ _ _ _ S).
  assert (Eb : was = b).
  { destruct S as (_ & u & G & _ & _ & _ & _ & M).
    unfold ledger_of in Ew. rewrite G in Ew. fold (iftar_key m) in Ew. congruence. }
  rewrite Eb in E2. clear Ew Eb was. destruct b.
  - apply ret_run in E2. subst w'. simpl.
    split; [assumption|]. right. split; [apply andb_false_r|reflexivity].
  - apply bind_some in E2. destruct E2 as (trigger & w2 & E2 & E3).
    unfold try_value in E2. injection E2 as E2 <-.
    apply plus_minutes_some in E2.
    replace (instant ift_dt + - m * 60000000)
      with (instant ift_dt - m * 60000000) in E2 by lia.
    subst trigger.
    apply bind_some in E3. destruct E3 as (due & w3 & E3 & E4).
    apply in_window_run in E3. destruct E3 as [-> ->].
    destruct (due_at (instant ift_dt - m * 60000000) (instant now)).
    + apply send_mark_run in E4. destruct E4 as (chat & P & ->). simpl.
      split.
      * apply (settled_mark _ _ _ _ _ _ (iftar_key m)) in S1.
        now rewrite String.eqb_refl in S1.
      * left. split; [reflexivity|]. eauto.
    + apply ret_run in E4. subst w'. simpl.
      split; [assumption|]. right. split; reflexivity.
Qed.

End IftarFires.

Section IftarTick.
Context {L : PyLib}.
Variable sink : Z -> message -> bool.
Variable time_file : option (list string).
Variable uid : string.
Variable now : datetime.
Variable m : Z.
Variable p0 : leads.

Local Abbreviation J := (settled uid (isoformat (dt_date now)) (iftar_key m) p0).
Local Abbreviation other := (other_than uid (IftarIn m)).

(** The body of the loop for [uid] itself, when it raises nothing. *)
Lemma notify_user_run b u0 tmr sah ift tomorrow_times w w' :
  J b (w_store w) -> In m (iftar p0) -> NoDup (iftar p0) ->
  notify_user sink time_file now (dt_date now) tmr (Some (sah, ift))
    tomorrow_times (uid, u0) w = (Some tt, w') ->
  exists w3 w4,
    grows other w w3
    /\ fires uid m b
         (due_at (instant (combine (dt_date now) ift) - m * 60000000) (instant now))
         w3 w4
    /\ grows other w4 w'
    /\ J (b || due_at (instant (combine (dt_date now) ift) - m * 60000000)
                      (instant now)) (w_store w').
Proof.
  intros S Im Nd E. unfold notify_user in E.
  apply bind_some in E. destruct E as (u & w1 & E1 & E).
  unfold user_obj in E1. injection E1 as Eu <-.
  assert (En : enabled u = true).
  { destruct S as (_ & u' & G & En & _). rewrite G in Eu. now subst u'. }
  rewrite En in E. simpl in E.
  apply bind_some in E. destruct E as ([] & w1 & Em & E).
  destruct (keeps_run _ _ _ _ _ _ _ (own_morning sink time_file uid now m p0 b u0 _) S Em)
    as [S1 G1].
  apply bind_some in E. destruct E as ([] & w2 & En' & E).
  destruct (keeps_run _ _ _ _ _ _ _
              (own_night sink time_file uid now m p0 b u0 tmr tomorrow_times) S1 En')
    as [S2 G2].
  unfold reminders in E.
  apply bind_some in E. destruct E as (u2 & w2' & E1 & E).
  unfold user_obj in E1. injection E1 as Eu2 <-.
  assert (P : preset_leads (preset u2) = p0).
  { destruct S2 as (_ & u' & G & _ & P & _). rewrite G in Eu2. now subst u'. }
  rewrite P in E.
  apply bind_some in E. destruct E as ([] & w5 & Ei & E).
  apply bind_some in E. destruct E as ([] & w6 & Enow & Es).
  destruct (in_split _ _ Im) as (l1 & l2 & El). rewrite El in Ei, Nd.
  apply NoDup_remove_2 in Nd.
  rewrite for_each_app in Ei.
  apply bind_some in Ei. destruct Ei as ([] & w3 & Ei1 & Ei).
  simpl in Ei.
  apply bind_some in Ei. destruct Ei as ([] & w4 & Ei2 & Ei3).
  assert (K1 : keeps (J b) other any
                 (for_each l1 (iftar_reminder sink uid now (dt_date now)
                                 (combine (dt_date now) ift)))).
  { apply keeps_for_each. intros x Ix. apply own_iftar_other.
    intros ->. apply Nd, in_or_app. now left. }
  destruct (keeps_run _ _ _ _ _ _ _ K1 S2 Ei1) as [S3 G3].
  destruct (iftar_reminder_run sink uid now m p0 b _ _ _ S3 Ei2) as [S4 F].
  set (b' := b || due_at (instant (combine (dt_date now) ift) - m * 60000000)
                         (instant now)) in *.
  assert (K2 : keeps (J b') other any
                 (for_each l2 (iftar_reminder sink uid now (dt_date now)
                                 (combine (dt_date now) ift)))).
  { apply keeps_for_each. intros x Ix. apply own_iftar_other.
    intros ->. apply Nd, in_or_app. now right. }
  destruct (keeps_run _ _ _ _ _ _ _ K2 S4 Ei3) as [S5 G5].
  destruct (keeps_run _ _ _ _ _ _ _
              (own_iftar_now sink uid now m p0 b' (combine (dt_date now) ift)) S5 Enow)
    as [S6 G6].
  assert (K3 : keeps (J b') other any
                 (for_each (saharlik p0)
                    (saharlik_reminder sink uid now (dt_date now)
                       (combine (dt_date now) sah)))).
  { apply keeps_for_each. intros x Ix. apply own_saharlik. }
  destruct (keeps_run _ _ _ _ _ _ _ K3 S6 Es) as [S7 G7].
  exists w3, w4.
  split; [eauto using grows_trans|].
  split; [exact F|].
  split; [eauto using grows_trans|assumption].
Qed.

(** The tick, when it raises nothing. *)
Lemma tick_body_run b sah ift w w' :
  J b (w_store w) -> In m (iftar p0) -> NoDup (iftar p0) ->
  load_day_times time_file (dt_date now) = Some (sah, ift) ->
  tick_body sink time_file now w = (Some tt, w') ->
  exists w3 w4,
    grows other w w3
    /\ fires uid m b
         (due_at (instant (combine (dt_date now) ift) - m * 60000000) (instant now))
         w3 w4
    /\ grows other w4 w'
    /\ J (b || due_at (instant (combine (dt_date now) ift) - m * 60000000)
                      (instant now)) (w_store w').
Proof.
  intros S Im Nd T E. unfold tick_body in E. rewrite T in E.
  apply bind_some in E. destruct E as (tmr & w1 & E1 & E).
  unfold try_value in E1. injection E1 as _ <-.
  apply bind_some in E. destruct E as (items & w1 & E1 & E).
  injection E1 as <- <-.
  destruct S as (W & u & G & S).
  destruct (dict_get_split _ _ _ G) as (pre & post & Eu & Npre).
  assert (Npost : ~ In uid (dict_keys post)).
  { unfold dict_wf in W. rewrite Eu, dict_keys_app in W. simpl in W.
    apply NoDup_remove_2 in W. intros I. apply W, in_or_app. now right. }
  assert (S0 : J b (w_store w)) by (split; [assumption|exists u; auto]).
  rewrite Eu in E. rewrite for_each_app in E.
  apply bind_some in E. destruct E as ([] & w1 & Ep & E).
  simpl in E.
  apply bind_some in E. destruct E as ([] & w2 & En & Eq).
  assert (K : forall b' items',
             ~ In uid (dict_keys items') ->
             keeps (J b') other any
               (for_each items'
                  (notify_user sink time_file now (dt_date now) tmr (Some (sah, ift))
                     (load_day_times time_file tmr)))).
  { intros b' items' N. apply keeps_for_each. intros [uid' u0] Ix.
    apply other_user. intros ->. apply N.
    change uid with (fst (uid, u0)). now apply in_map. }
  destruct (keeps_run _ _ _ _ _ _ _ (K b pre Npre) S0 Ep) as [S1 G1].
  destruct (notify_user_run b u tmr sah ift _ w1 w2 S1 Im Nd En)
    as (w3 & w4 & G3 & F & G4 & S4).
  destruct (keeps_run _ _ _ _ _ _ _ (K _ post Npost) S4 Eq) as [S5 G5].
  exists w3, w4.
  split; [eauto using grows_trans|].
  split; [exact F|].
  split; [eauto using grows_trans|assumption].
Qed.

End IftarTick.

(** ** Specified properties of the loop: the reminder before the end of the window *)

(** The only user has the ledger of ten days after 2024-03-01. *)
Definition late_world : world := mkworld late_store [].

(** The table has the entry of 2024-03-01, with the window ending at 18:00. *)
Definition march_first : option (list string) := Some ["2024-03-01;05:00;18:00"].

(** C5, as specified: once a due reminder is sent its key would be
    marked. With ten later days in the ledger the tick of 17:55:00 on
    2024-03-01 sends the reminder of five minutes and leaves its key
    unmarked. *)
Lemma iftar_reminder_left_unmarked :
  ~ (forall (L : PyLib) sink time_file now w w' uid u sah ift m,
       tick_body sink time_file now w = (Some tt, w') ->
       dict_get uid (users (w_store w)) = Some u ->
       enabled u = true ->
       load_day_times time_file (dt_date now) = Some (sah, ift) ->
       In m (iftar (preset_leads (preset u))) ->
       due_at (instant (combine (dt_date now) ift) - m * 60000000) (instant now) = true ->
       fst (was_sent uid (dt_date now) (iftar_key m) (w_store w')) = true).
Proof.
  intros H.
  assert (X : fst (was_sent "7" (mkdate 2024 3 1) (iftar_key 5)
                     (w_store (tick (fun _ _ => true) march_first
                                 (mkdatetime (mkdate 2024 3 1) 17 55 0 0) late_world)))
              = true).
  { apply (H strict_lib (fun _ _ => true) march_first
             (mkdatetime (mkdate 2024 3 1) 17 55 0 0) late_world _ "7"
             (mkuser true "full" "08:30" "22:00" ten_days) (mktime 5 0) (mktime 18 0) 5).
    - reflexivity.
    - reflexivity.
    - reflexivity.
    - reflexivity.
    - simpl. tauto.
    - reflexivity. }
  vm_compute in X. discriminate.
Qed.

(** In that world the tick of 17:55:10 sends the same reminder again. *)
Example iftar_reminder_sent_twice :
  map body
    (outbox (tick (fun _ _ => true) march_first
               (mkdatetime (mkdate 2024 3 1) 17 55 10 0)
               (tick (fun _ _ => true) march_first
                  (mkdatetime (mkdate 2024 3 1) 17 55 0 0) late_world)))
  = [IftarIn 5; IftarIn 5].
Proof. vm_compute. reflexivity. Qed.

(** C5, amended. Take a tick that raises nothing, a store of distinct uids,
    an enabled user whose ledger has distinct days of which fewer than ten
    are after today, an exact entry for today and a lead [m] of the iftar
    list of the user's preset, and let trigger be the end of today's window
    less [m] minutes. The tick sends the message of the reminder [m] to the
    user once if [trigger <= now < trigger + 1 minute] and the key was not
    marked when the tick began, and not at all otherwise; after the tick the
    key is marked if it was or if the reminder was due, and the user is as
    required for the next tick. With the end at 18:00 and [m = 5] the
    reminder is due at every instant of 17:55 and at none of 17:54. *)
Theorem iftar_reminder_fires_once {L : PyLib} (sink : Z -> message -> bool)
    (time_file : option (list string)) (now : datetime) (w w' : world)
    (uid : string) (u : UserSettings) (sah ift : dtime) (m : Z) :
  tick_body sink time_file now w = (Some tt, w') ->
  dict_wf (users (w_store w)) ->
  dict_get uid (users (w_store w)) = Some u ->
  enabled u = true ->
  load_day_times time_file (dt_date now) = Some (sah, ift) ->
  In m (iftar (preset_leads (preset u))) ->
  dict_wf (sent_keys u) ->
  recent (isoformat (dt_date now)) (sent_keys u) ->
  (exists before fired after,
     outbox w' = outbox w ++ before ++ fired ++ after
     /\ Forall (other_than uid (IftarIn m)) before
     /\ Forall (other_than uid (IftarIn m)) after
     /\ if due_at (instant (combine (dt_date now) ift) - m * 60000000) (instant now)
           && negb (marked (isoformat (dt_date now)) (iftar_key m) (sent_keys u))
        then exists chat,
               py_int uid = Some chat /\ fired = [mksent uid chat (IftarIn m)]
        else fired = [])
  /\ fst (was_sent uid (dt_date now) (iftar_key m) (w_store w'))
     = marked (isoformat (dt_date now)) (iftar_key m) (sent_keys u)
       || due_at (instant (combine (dt_date now) ift) - m * 60000000) (instant now)
  /\ (dict_wf (users (w_store w'))
      /\ exists u',
           dict_get uid (users (w_store w')) = Some u'
           /\ enabled u' = true
           /\ preset_leads (preset u') = preset_leads (preset u)
           /\ dict_wf (sent_keys u')
           /\ recent (isoformat (dt_date now)) (sent_keys u'))
  /\ (forall d s us,
        0 <= s <= 59 -> 0 <= us <= 999999 ->
        due_at (instant (combine d (mktime 18 0)) - 5 * 60000000)
               (instant (mkdatetime d 17 55 s us)) = true
        /\ due_at (instant (combine d (mktime 18 0)) - 5 * 60000000)
                  (instant (mkdatetime d 17 54 s us)) = false).
Proof.
  intros E W G En T Im Wl R.
  assert (S : settled uid (isoformat (dt_date now)) (iftar_key m)
                (preset_leads (preset u))
                (marked (isoformat (dt_date now)) (iftar_key m) (sent_keys u))
                (w_store w)).
  { split; [assumption|]. exists u. repeat split; auto. }
  destruct (tick_body_run sink time_file uid now m _ _ sah ift w w' S Im
              (preset_leads_NoDup _) T E)
    as (w3 & w4 & (n1 & E1 & F1) & F & (n2 & E2 & F2) & (W' & u' & G' & En' & P' & Wl' & R' & M')).
  split; [|split; [|split]].
  - destruct F as [(D & chat & Pc & Eo)|(D & Eo)]; rewrite D.
    + exists n1, [mksent uid chat (IftarIn m)], n2.
      split; [rewrite E2, Eo, E1, <- !app_assoc; reflexivity|].
      split; [assumption|]. split; [assumption|]. eauto.
    + exists n1, [], n2.
      split; [rewrite E2, Eo, E1, <- !app_assoc; reflexivity|].
      split; [assumption|]. split; [assumption|reflexivity].
  - destruct (was_sent_spec uid (dt_date now) (iftar_key m) (w_store w')) as [-> _].
    unfold ledger_of. now rewrite G'.
  - split; [assumption|]. exists u'. repeat split; assumption.
  - intros d s us Hs Hus. unfold due_at, instant, combine. simpl.
    generalize (toordinal d). intros o. lia.
Qed.

(** A fresh user, on the day of an entry whose window ends at 18:00. *)
Definition fresh_world : world := mkworld (mkstore [("7", new_user)] None) [].
Definition march_fifth : option (list string) := Some ["2024-03-05;05:00;18:00"].

Lemma iftar_reminder_fires_once_witness :
  fst (was_sent "7" (mkdate 2024 3 5) (iftar_key 5)
         (w_store (tick (fun _ _ => true) march_fifth
                     (mkdatetime (mkdate 2024 3 5) 17 55 0 0) fresh_world)))
  = true.
Proof.
  destruct (@iftar_reminder_fires_once strict_lib (fun _ _ => true) march_fifth
              (mkdatetime (mkdate 2024 3 5) 17 55 0 0) fresh_world
              (tick (fun _ _ => true) march_fifth
                 (mkdatetime (mkdate 2024 3 5) 17 55 0 0) fresh_world)
              "7" new_user (mktime 5 0) (mktime 18 0) 5)
    as (_ & H & _).
  - reflexivity.
  - repeat constructor. simpl. tauto.
  - reflexivity.
  - reflexivity.
  - reflexivity.
  - simpl. tauto.
  - constructor.
  - unfold recent. simpl. lia.
  - etransitivity; [exact H|]. reflexivity.
Defined.

(** The ticks of 17:54:59, 17:55:00 and 17:55:10 for the fresh user: the
    first sends nothing, the second the reminder of five minutes, the third
    nothing more. *)
Example iftar_reminder_three_ticks :
  outbox (tick (fun _ _ => true) march_fifth
            (mkdatetime (mkdate 2024 3 5) 17 54 59 0) fresh_world) = []
  /\ outbox (notification_loop (fun _ _ => true) march_fifth
               [mkdatetime (mkdate 2024 3 5) 17 54 59 0;
                mkdatetime (mkdate 2024 3 5) 17 55 0 0] fresh_world)
     = [mksent "7" 7 (IftarIn 5)]
  /\ outbox (notification_loop (fun _ _ => true) march_fifth
               [mkdatetime (mkdate 2024 3 5) 17 54 59 0;
                mkdatetime (mkdate 2024 3 5) 17 55 0 0;
                mkdatetime (mkdate 2024 3 5) 17 55 10 0] fresh_world)
     = [mksent "7" 7 (IftarIn 5)].
Proof. repeat split; vm_compute; reflexivity. Qed.

(** A disabled user whose morning digest is due, next to an enabled one. *)
Definition mixed_world : world :=
  mkworld (mkstore [("7", new_user);
                    ("8", mkuser false "full" "17:55" "22:00" [])] None) [].

Lemma disabled_user_gets_nothing_witness :
  exists new,
    outbox (notification_loop (fun _ _ => true) march_fifth
              [mkdatetime (mkdate 2024 3 5) 17 55 0 0;
               mkdatetime (mkdate 2024 3 5) 18 0 0 0] mixed_world)
    = outbox mixed_world ++ new
    /\ Forall (fun e => to_uid e <> "8") new.
Proof.
  destruct (@disabled_user_gets_nothing strict_lib (fun _ _ => true) march_fifth
              [mkdatetime (mkdate 2024 3 5) 17 55 0 0;
               mkdatetime (mkdate 2024 3 5) 18 0 0 0] mixed_world
              "8" (mkuser false "full" "17:55" "22:00" []))
    as (new & E & F & _).
  - reflexivity.
  - reflexivity.
  - exists new. split; [exact E|].
    eapply Forall_impl; [|exact F]. simpl. tauto.
Defined.

(** ** The digests *)

(** Under [uid] the store has a record with the switches and times of [u],
    a ledger of distinct days, and [key] not marked under [ds]. *)
Definition awaiting (uid ds key : string) (u : UserSettings) (st : store) : Prop :=
  exists u',
    dict_get uid (users st) = Some u'
    /\ enabled u' = enabled u
    /\ morning_time u' = morning_time u
    /\ night_time u' = night_time u
    /\ dict_wf (sent_keys u')
    /\ marked ds key (sent_keys u') = false.

Lemma times_normalise u :
  morning_time (normalise u) = morning_time u
  /\ night_time (normalise u) = night_time u.
Proof. unfold normalise. now destruct (dict_mem (preset u) PRESETS). Qed.

Lemma awaiting_get uid ds key u st :
  awaiting uid ds key u st -> awaiting uid ds key u (snd (get_user uid st)).
Proof.
  intros (u' & G & E & Mt & Nt & W & M).
  rewrite (get_user_present _ _ _ G).
  exists (normalise u'). simpl. destruct (times_normalise u') as [-> ->].
  rewrite dict_get_set_same, enabled_normalise, sent_keys_normalise.
  repeat split; assumption.
Qed.

Lemma awaiting_mark uid day key u st key' :
  key' <> key ->
  awaiting uid (isoformat day) key u st ->
  awaiting uid (isoformat day) key u (mark_sent uid day key' st).
Proof.
  intros Ne (u' & G & E & Mt & Nt & W & M).
  destruct (mark_sent_spec uid day key' st) as (Gm & _).
  rewrite (get_user_present _ _ _ G) in Gm. simpl in Gm.
  assert (El : ledger_of st uid = sent_keys u') by (unfold ledger_of; now rewrite G).
  rewrite El in Gm.
  eexists. split; [exact Gm|]. simpl.
  destruct (times_normalise u') as [-> ->]. rewrite enabled_normalise.
  repeat split; auto.
  - now apply mark_ledger_wf.
  - destruct (marked (isoformat day) key
                (mark_ledger (isoformat day) key' (sent_keys u'))) eqn:X;
      [|reflexivity].
    apply marked_mark_ledger_other in X; [|assumption].
    destruct X as [X|X]; congruence.
Qed.

Lemma awaiting_other_get uid ds key u st uid' :
  uid' <> uid ->
  awaiting uid ds key u st -> awaiting uid ds key u (snd (get_user uid' st)).
Proof.
  intros Ne (u' & G & H). exists u'. split; [|exact H].
  destruct (get_user_spec st uid') as (_ & _ & _ & O & _). rewrite O; auto.
Qed.

Lemma awaiting_other_mark uid ds key u st uid' day key' :
  uid' <> uid ->
  awaiting uid ds key u st -> awaiting uid ds key u (mark_sent uid' day key' st).
Proof.
  intros Ne (u' & G & H). exists u'. split; [|exact H].
  destruct (mark_sent_spec uid' day key' st) as (_ & O & _). rewrite O; auto.
Qed.

Section Digests.
Context {L : PyLib}.
Variable sink : Z -> message -> bool.
Variable time_file : option (list string).
Variable uid : string.
Variable now : datetime.
Variable u : UserSettings.

Local Abbreviation ds := (isoformat (dt_date now)).

(** Whatever the loop does for a user adds to the outbox. *)
Lemma notify_user_grows item today tmr today_times tomorrow_times :
  keeps any any any
    (notify_user sink time_file now today tmr today_times tomorrow_times item).
Proof.
  destruct item as [uid' u0].
  apply keeps_notify_user with (ok_key := any) (ok_msg := any);
    intros; exact Logic.I.
Qed.

Lemma other_user_awaiting key uid' u0 today tmr today_times tomorrow_times :
  uid' <> uid ->
  keeps (awaiting uid ds key u) any any
    (notify_user sink time_file now today tmr today_times tomorrow_times (uid', u0)).
Proof.
  intros Ne.
  apply keeps_notify_user with (ok_key := any) (ok_msg := any);
    try (intros; exact Logic.I).
  - intros st. now apply awaiting_other_get.
  - intros key' st _. now apply awaiting_other_mark.
Qed.

Lemma morning_digest_run u0 today_times w w' :
  awaiting uid ds "morning" u (w_store w) ->
  strftime_HM now = morning_time u ->
  morning_digest sink time_file uid u0 now (dt_date now) today_times w = (Some tt, w') ->
  exists chat,
    py_int uid = Some chat
    /\ outbox w' = outbox w
         ++ [mksent uid chat
               (match today_times with
                | Some _ => MorningDigest (format_day_info time_file (dt_date now))
                | None => MorningNotFound
                end)].
Proof.
  intros (u' & G & _ & Mt & _ & _ & M) Et E. unfold morning_digest in E.
  apply bind_some in E. destruct E as (u1 & w1 & E1 & E).
  unfold user_obj in E1. rewrite G in E1. injection E1 as <- <-.
  rewrite Mt, <- Et, String.eqb_refl in E.
  apply bind_some in E. destruct E as (was & w1 & E1 & E).
  apply was_sent_run in E1. destruct E1 as [Ew ->].
  unfold ledger_of in Ew. rewrite G, M in Ew. subst was.
  apply send_mark_run in E. destruct E as (chat & P & ->). eauto.
Qed.

Lemma night_digest_run u0 tmr tomorrow_times w w' :
  awaiting uid ds "night" u (w_store w) ->
  strftime_HM now = night_time u ->
  night_digest sink time_file uid u0 now (dt_date now) tmr tomorrow_times w
  = (Some tt, w') ->
  exists chat,
    py_int uid = Some chat
    /\ outbox w' = outbox w
         ++ [mksent uid chat
               (match tomorrow_times with
                | Some _ => NightDigest (format_day_info time_file tmr)
                | None => NightNotFound
                end)].
Proof.
  intros (u' & G & _ & _ & Nt & _ & M) Et E. unfold night_digest in E.
  apply bind_some in E. destruct E as (u1 & w1 & E1 & E).
  unfold user_obj in E1. rewrite G in E1. injection E1 as <- <-.
  rewrite Nt, <- Et, String.eqb_refl in E.
  apply bind_some in E. destruct E as (was & w1 & E1 & E).
  apply was_sent_run in E1. destruct E1 as [Ew ->].
  unfold ledger_of in Ew. rewrite G, M in Ew. subst was.
  apply send_mark_run in E. destruct E as (chat & P & ->). eauto.
Qed.

(** The body of the loop for [uid], with the morning digest due. *)
Lemma notify_user_morning u0 tmr today_times tomorrow_times w w' :
  awaiting uid ds "morning" u (w_store w) ->
  enabled u = true ->
  strftime_HM now = morning_time u ->
  notify_user sink time_file now (dt_date now) tmr today_times tomorrow_times
    (uid, u0) w = (Some tt, w') ->
  exists chat,
    py_int uid = Some chat
    /\ around any
         [mksent uid chat
            (match today_times with
             | Some _ => MorningDigest (format_day_info time_file (dt_date now))
             | None => MorningNotFound
             end)] w w'.
Proof.
  intros A En Et E. unfold notify_user in E.
  apply bind_some in E. destruct E as (u1 & w1 & E1 & E).
  unfold user_obj in E1. injection E1 as Eu <-.
  assert (En1 : enabled u1 = true).
  { destruct A as (u' & G & En' & _). rewrite G in Eu. subst u'. congruence. }
  rewrite En1 in E. simpl in E.
  apply bind_some in E. destruct E as ([] & w1 & Em & E).
  destruct (morning_digest_run _ _ _ _ A Et Em) as (chat & P & Eo).
  exists chat. split; [assumption|].
  eapply around_grows; [apply around_here; exact Eo|].
  apply bind_some in E. destruct E as ([] & w2 & En2 & E).
  assert (K1 : keeps any any any
                 (night_digest sink time_file uid u0 now (dt_date now) tmr
                    tomorrow_times)).
  { apply keeps_night_digest with (ok_key := any) (ok_msg := any);
      intros; exact Logic.I. }
  assert (K2 : keeps any any any
                 (reminders sink uid u0 now (dt_date now) today_times)).
  { apply keeps_reminders with (ok_key := any) (ok_msg := any);
      intros; exact Logic.I. }
  destruct (keeps_run _ _ _ _ _ _ _ K1 Logic.I En2) as [_ G1].
  destruct (keeps_run _ _ _ _ _ _ _ K2 Logic.I E) as [_ G2].
  eauto using grows_trans.
Qed.

(** The body of the loop for [uid], with the night digest due. *)
Lemma notify_user_night u0 tmr today_times tomorrow_times w w' :
  awaiting uid ds "night" u (w_store w) ->
  enabled u = true ->
  strftime_HM now = night_time u ->
  notify_user sink time_file now (dt_date now) tmr today_times tomorrow_times
    (uid, u0) w = (Some tt, w') ->
  exists chat,
    py_int uid = Some chat
    /\ around any
         [mksent uid chat
            (match tomorrow_times with
             | Some _ => NightDigest (format_day_info time_file tmr)
             | None => NightNotFound
             end)] w w'.
Proof.
  intros A En Et E. unfold notify_user in E.
  apply bind_some in E. destruct E as (u1 & w1 & E1 & E).
  unfold user_obj in E1. injection E1 as Eu <-.
  assert (En1 : enabled u1 = true).
  { destruct A as (u' & G & En' & _). rewrite G in Eu. subst u'. congruence. }
  rewrite En1 in E. simpl in E.
  apply bind_some in E. destruct E as ([] & w1 & Em & E).
  assert (K0 : keeps (awaiting uid ds "night" u) any any
                 (morning_digest sink time_file uid u0 now (dt_date now) today_times)).
  { apply keeps_morning_digest
      with (ok_key := fun k => k <> "night") (ok_msg := any);
      try (intros; exact Logic.I).
    - apply awaiting_get.
    - intros key' st Ne. now apply awaiting_mark.
    - discriminate. }
  destruct (keeps_run _ _ _ _ _ _ _ K0 A Em) as [A1 G0].
  apply bind_some in E. destruct E as ([] & w2 & En2 & E).
  destruct (night_digest_run _ _ _ _ _ A1 Et En2) as (chat & P & Eo).
  exists chat. split; [assumption|].
  eapply grows_around; [exact G0|].
  eapply around_grows; [apply around_here; exact Eo|].
  assert (K2 : keeps any any any
                 (reminders sink uid u0 now (dt_date now) today_times)).
  { apply keeps_reminders with (ok_key := any) (ok_msg := any);
      intros; exact Logic.I. }
  destruct (keeps_run _ _ _ _ _ _ _ K2 Logic.I E) as [_ G2].
  exact G2.
Qed.

(** The tick, when it raises nothing and the body for [uid] puts a message
    in the outbox. *)
Lemma tick_body_around key (e : Z -> date -> sent) w w' :
  awaiting uid ds key u (w_store w) ->
  dict_get uid (users (w_store w)) = Some u ->
  (forall tmr w1 w2,
     awaiting uid ds key u (w_store w1) ->
     notify_user sink time_file now (dt_date now) tmr
       (load_day_times time_file (dt_date now)) (load_day_times time_file tmr)
       (uid, u) w1 = (Some tt, w2) ->
     exists chat, py_int uid = Some chat /\ around any [e chat tmr] w1 w2) ->
  tick_body sink time_file now w = (Some tt, w') ->
  exists chat tmr,
    py_int uid = Some chat
    /\ next_day (dt_date now) = Some tmr
    /\ around any [e chat tmr] w w'.
Proof.
  intros A G Hn E. unfold tick_body in E.
  apply bind_some in E. destruct E as (tmr & w1 & E1 & E).
  unfold try_value in E1. injection E1 as Et <-.
  apply bind_some in E. destruct E as (items & w1 & E1 & E).
  injection E1 as <- <-.
  destruct (dict_get_split _ _ _ G) as (pre & post & Eu & Npre).
  rewrite Eu in E. rewrite for_each_app in E.
  apply bind_some in E. destruct E as ([] & w1 & Ep & E).
  simpl in E.
  apply bind_some in E. destruct E as ([] & w2 & En & Eq).
  assert (K : keeps (awaiting uid ds key u) any any
                (for_each pre
                   (notify_user sink time_file now (dt_date now) tmr
                      (load_day_times time_file (dt_date now))
                      (load_day_times time_file tmr)))).
  { apply keeps_for_each. intros [uid' u0] Ix.
    apply other_user_awaiting. intros ->. apply Npre.
    change uid with (fst (uid, u0)). now apply in_map. }
  destruct (keeps_run _ _ _ _ _ _ _ K A Ep) as [A1 G1].
  assert (K' : keeps any any any
                 (for_each post
                    (notify_user sink time_file now (dt_date now) tmr
                       (load_day_times time_file (dt_date now))
                       (load_day_times time_file tmr)))).
  { apply keeps_for_each. intros item _. apply notify_user_grows. }
  destruct (keeps_run _ _ _ _ _ _ _ K' Logic.I Eq) as [_ G2].
  destruct (Hn tmr w1 w2 A1 En) as (chat & P & Ar).
  exists chat, tmr. split; [assumption|]. split; [assumption|].
  eapply grows_around; [exact G1|].
  eapply around_grows; [exact Ar|exact G2].
Qed.

End Digests.

(** ** Specified properties of the loop: a day without an entry *)

(** The text of a digest that is sent when today has no entry. *)
Definition digest_without_entry {L : PyLib} (time_file : option (list string))
    (text : message) : Prop :=
  text = MorningNotFound \/ text = NightNotFound
  \/ exists tmr, text = NightDigest (format_day_info time_file tmr).

(** C7. When the table has no entry for the date of the tick, whatever else
    holds, all the tick sends are digests: the morning digest with its
    not-found text, and the night digest with its not-found text or the times
    of tomorrow; no reminder of iftar or saharlik is sent to any user. And
    the digests do fire: in a tick that raises nothing, an enabled user whose
    morning time is the minute of the tick and who has no morning mark for
    today is sent the not-found morning text, and one whose night time is the
    minute of the tick and who has no night mark is sent the night digest,
    with the not-found text when tomorrow has no entry either. *)
Theorem no_entry_no_reminder {L : PyLib} (sink : Z -> message -> bool)
    (time_file : option (list string)) (now : datetime) (w : world) :
  load_day_times time_file (dt_date now) = None ->
  (exists new,
     outbox (tick sink time_file now w) = outbox w ++ new
     /\ Forall (fun e => digest_without_entry time_file (body e)) new)
  /\ (forall w' uid u,
        tick_body sink time_file now w = (Some tt, w') ->
        dict_get uid (users (w_store w)) = Some u ->
        enabled u = true ->
        dict_wf (sent_keys u) ->
        (strftime_HM now = morning_time u ->
         marked (isoformat (dt_date now)) "morning" (sent_keys u) = false ->
         exists chat before after,
           py_int uid = Some chat
           /\ outbox w' = outbox w ++ before
                ++ [mksent uid chat MorningNotFound] ++ after)
        /\ (strftime_HM now = night_time u ->
            marked (isoformat (dt_date now)) "night" (sent_keys u) = false ->
            exists chat tmr before after,
              py_int uid = Some chat
              /\ next_day (dt_date now) = Some tmr
              /\ outbox w' = outbox w ++ before
                   ++ [mksent uid chat
                         (match load_day_times time_file tmr with
                          | Some _ => NightDigest (format_day_info time_file tmr)
                          | None => NightNotFound
                          end)] ++ after)).
Proof.
  intros T. split.
  - unfold tick.
    assert (K : keeps any
                  (fun e => digest_without_entry time_file (body e)) any
                  (tick_body sink time_file now)).
    { apply keeps_tick_body. intros tmr [uid u0]. rewrite T.
      apply keeps_notify_user_no_entry
        with (ok_key := any) (ok_msg := digest_without_entry time_file);
        try (intros; exact Logic.I).
      - intros chat text _ H. exact H.
      - now left.
      - destruct (load_day_times time_file tmr); [|right; now left].
        right. right. now exists tmr. }
    destruct (K w Logic.I) as (_ & G & _). exact G.
  - intros w' uid u E G En W. split.
    + intros Et M.
      assert (A : awaiting uid (isoformat (dt_date now)) "morning" u (w_store w))
        by (exists u; repeat split; auto).
      destruct (tick_body_around sink time_file uid now u "morning"
                  (fun chat _ => mksent uid chat MorningNotFound) w w' A G)
        as (chat & tmr & P & _ & (n1 & n2 & Eo & _)); [|exact E|].
      * intros tmr w1 w2 A1 En1. rewrite T in En1.
        now apply (notify_user_morning sink time_file uid now u u tmr None
                     (load_day_times time_file tmr) w1 w2).
      * exists chat, n1, n2. auto.
    + intros Et M.
      assert (A : awaiting uid (isoformat (dt_date now)) "night" u (w_store w))
        by (exists u; repeat split; auto).
      destruct (tick_body_around sink time_file uid now u "night"
                  (fun chat tmr =>
                     mksent uid chat
                       (match load_day_times time_file tmr with
                        | Some _ => NightDigest (format_day_info time_file tmr)
                        | None => NightNotFound
                        end)) w w' A G)
        as (chat & tmr & P & Nd & (n1 & n2 & Eo & _)); [|exact E|].
      * intros tmr w1 w2 A1 En1.
        now apply (notify_user_night sink time_file uid now u u tmr
                     (load_day_times time_file (dt_date now))
                     (load_day_times time_file tmr) w1 w2).
      * exists chat, tmr, n1, n2. auto.
Qed.

(** A user whose digests are both set to 08:30, on a day without entry. *)
Definition digest_world : world :=
  mkworld (mkstore [("7", mkuser true "full" "08:30" "08:30" [])] None) [].

Lemma no_entry_no_reminder_witness :
  outbox (tick (fun _ _ => true) march_fifth
            (mkdatetime (mkdate 2024 3 4) 8 30 15 0) digest_world)
  = [mksent "7" 7 MorningNotFound;
     mksent "7" 7 (NightDigest (InfoExact (mktime 5 0) (mktime 18 0)))]
  /\ exists new,
       outbox (tick (fun _ _ => true) march_fifth
                 (mkdatetime (mkdate 2024 3 4) 8 30 15 0) digest_world)
       = outbox digest_world ++ new
       /\ Forall (fun e => @digest_without_entry strict_lib march_fifth (body e)) new.
Proof.
  split; [vm_compute; reflexivity|].
  apply (@no_entry_no_reminder strict_lib (fun _ _ => true) march_fifth
           (mkdatetime (mkdate 2024 3 4) 8 30 15 0) digest_world).
  reflexivity.
Defined.

(** ** Ticks that raise nothing *)



Section Returns.
Context {L : PyLib}.
Variable sink : Z -> message -> bool.
Variable time_file : option (list string).
Hypothesis delivers : forall chat text, sink chat text = true.














End Returns.

Section TickReturns.
Context {L : PyLib}.
Variable sink : Z -> message -> bool.
Variable time_file : option (list string).

Lemma dict_set_values {K V : Type} `{EqKey K} (P : V -> Prop) (k : K) (v : V)
    (d : dict K V) :
  Forall (fun kv => P (snd kv)) d -> P v -> Forall (fun kv => P (snd kv)) (dict_set k v d).
Proof.
  intros F Pv. induction d as [|[k' v'] r IH]; simpl.
  - constructor; [assumption|constructor].
  - inversion F as [|? ? Pk Fr]; subst.
    destruct (keqb k k'); constructor; auto.
Qed.

Lemma dict_get_values {K V : Type} `{EqKey K} (P : V -> Prop) (k : K) (v : V)
    (d : dict K V) :
  Forall (fun kv => P (snd kv)) d -> dict_get k d = Some v -> P v.
Proof.
  intros F. induction d as [|[k' v'] r IH]; simpl; [discriminate|].
  inversion F as [|? ? Pk Fr]; subst.
  destruct (keqb k k'); [intros [= <-]; exact Pk|auto].
Qed.




End TickReturns.

(** * Further properties *)

(** ** The calendar *)

Ltac bool_prop :=
  repeat (rewrite orb_true_iff || rewrite andb_true_iff);
  rewrite ?Z.ltb_lt, ?Z.eqb_eq, ?Z.leb_le.

Lemma days_before_year_succ y :
  days_before_year (y + 1) = days_before_year y + (if is_leap y then 366 else 365).
Proof.
  unfold days_before_year, is_leap.
  replace (y + 1 - 1) with y by lia.
  destruct (Z.eqb_spec (y mod 4) 0), (Z.eqb_spec (y mod 100) 0),
    (Z.eqb_spec (y mod 400) 0); simpl; Z.div_mod_to_equations; lia.
Qed.

Lemma days_before_year_le y y' :
  y <= y' -> days_before_year y <= days_before_year y'.
Proof.
  intros H. replace y' with (y + Z.of_nat (Z.to_nat (y' - y))) by lia.
  induction (Z.to_nat (y' - y)) as [|n IH].
  - replace (y + Z.of_nat 0) with y by lia. lia.
  - replace (y + Z.of_nat (S n)) with (y + Z.of_nat n + 1) by lia.
    rewrite days_before_year_succ. destruct (is_leap _); lia.
Qed.

Lemma month_cases m :
  1 <= m <= 12 ->
  m = 1 \/ m = 2 \/ m = 3 \/ m = 4 \/ m = 5 \/ m = 6 \/ m = 7 \/ m = 8 \/ m = 9
  \/ m = 10 \/ m = 11 \/ m = 12.
Proof. lia. Qed.

Lemma days_in_month_bounds y m : 28 <= days_in_month y m <= 31.
Proof.
  unfold days_in_month.
  destruct (m =? 2); [destruct (is_leap y); lia|].
  destruct ((m =? 4) || (m =? 6) || (m =? 9) || (m =? 11)); lia.
Qed.

Lemma days_before_month_succ y m :
  1 <= m <= 11 ->
  days_before_month y (m + 1) = days_before_month y m + days_in_month y m.
Proof.
  intros H. assert (C : 1 <= m <= 12) by lia. apply month_cases in C.
  repeat (destruct C as [C|C]; [subst m|]); try subst m; try lia;
    unfold days_before_month, days_in_month; simpl;
    destruct (is_leap y); reflexivity.
Qed.

Lemma days_before_month_bounds y m :
  1 <= m <= 12 ->
  0 <= days_before_month y m
  /\ days_before_month y m + days_in_month y m <= (if is_leap y then 366 else 365).
Proof.
  intros C. apply month_cases in C.
  repeat (destruct C as [C|C]; [subst m|]); try subst m;
    unfold days_before_month, days_in_month; simpl;
    destruct (is_leap y); lia.
Qed.

Lemma days_before_month_le y m m' :
  1 <= m -> m <= m' -> m' <= 12 -> days_before_month y m <= days_before_month y m'.
Proof.
  intros H1 H2 H3. replace m' with (m + Z.of_nat (Z.to_nat (m' - m))) in * by lia.
  induction (Z.to_nat (m' - m)) as [|n IH].
  - replace (m + Z.of_nat 0) with m by lia. lia.
  - replace (m + Z.of_nat (S n)) with (m + Z.of_nat n + 1) in * by lia.
    rewrite days_before_month_succ by lia.
    pose proof (days_in_month_bounds y (m + Z.of_nat n)). lia.
Qed.

Lemma valid_date_bounds d :
  valid_date d = true ->
  1 <= year d <= 9999 /\ 1 <= month d <= 12
  /\ 1 <= day d <= days_in_month (year d) (month d).
Proof.
  unfold valid_date. rewrite !andb_true_iff, !Z.leb_le. tauto.
Qed.

(** On the dates [date] accepts, the order of the tuples is the order of the
    ordinals. *)
Lemma toordinal_lt a b :
  valid_date a = true -> valid_date b = true ->
  date_ltb a b = true -> toordinal a < toordinal b.
Proof.
  intros Va Vb.
  apply valid_date_bounds in Va. apply valid_date_bounds in Vb.
  destruct Va as (Ya & Ma & Da). destruct Vb as (Yb & Mb & Db).
  unfold date_ltb, toordinal.
  bool_prop.
  destruct (days_before_month_bounds (year a) (month a) Ma) as [A0 A1].
  destruct (days_before_month_bounds (year b) (month b) Mb) as [B0 B1].
  intros [Y|[Y [M|[M D]]]].
  - assert (S := days_before_year_succ (year a)).
    assert (Le := days_before_year_le (year a + 1) (year b) ltac:(lia)).
    destruct (is_leap (year a)); lia.
  - rewrite <- Y in *.
    assert (S := days_before_month_succ (year a) (month a) ltac:(lia)).
    assert (Le := days_before_month_le (year a) (month a + 1) (month b)
                    ltac:(lia) ltac:(lia) ltac:(lia)).
    lia.
  - rewrite Y, M. lia.
Qed.

Lemma date_ltb_total a b : date_ltb a b = true \/ a = b \/ date_ltb b a = true.
Proof.
  destruct a as [y m d], b as [y' m' d']. unfold date_ltb. simpl.
  bool_prop.
  destruct (Z.lt_total y y') as [H|[H|H]], (Z.lt_total m m') as [H1|[H1|H1]],
    (Z.lt_total d d') as [H2|[H2|H2]];
    first [left; lia | right; right; lia | right; left; congruence].
Qed.

Lemma toordinal_inj a b :
  valid_date a = true -> valid_date b = true -> toordinal a = toordinal b -> a = b.
Proof.
  intros Va Vb E. destruct (date_ltb_total a b) as [H|[H|H]]; [|assumption|].
  - apply toordinal_lt in H; auto. lia.
  - apply toordinal_lt in H; auto. lia.
Qed.

Lemma date_ltb_ordinal a b :
  valid_date a = true -> valid_date b = true ->
  date_ltb a b = (toordinal a <? toordinal b).
Proof.
  intros Va Vb. destruct (date_ltb_total a b) as [H|[->|H]].
  - rewrite H. symmetry. apply Z.ltb_lt. now apply toordinal_lt.
  - replace (date_ltb b b) with false; [symmetry; apply Z.ltb_irrefl|].
    destruct (date_ltb b b) eqn:E; [|reflexivity].
    apply toordinal_lt in E; auto. lia.
  - assert (Lt := toordinal_lt _ _ Vb Va H).
    replace (toordinal a <? toordinal b) with false by (symmetry; apply Z.ltb_ge; lia).
    destruct (date_ltb a b) eqn:E; [|reflexivity].
    apply toordinal_lt in E; auto. lia.
Qed.

Lemma next_day_spec d d' :
  valid_date d = true -> next_day d = Some d' ->
  valid_date d' = true /\ toordinal d' = toordinal d + 1.
Proof.
  intros V. apply valid_date_bounds in V. destruct V as (Y & M & D).
  unfold next_day.
  destruct (Z.ltb_spec (day d) (days_in_month (year d) (month d))) as [Lt|Ge].
  { intros [= <-]. unfold valid_date, toordinal. simpl. split; [|lia].
    rewrite !andb_true_iff, !Z.leb_le. lia. }
  destruct (Z.ltb_spec (month d) 12) as [Lm|Gm].
  { intros [= <-]. unfold valid_date, toordinal. simpl.
    pose proof (days_in_month_bounds (year d) (month d + 1)).
    rewrite days_before_month_succ by lia. split; [|lia].
    rewrite !andb_true_iff, !Z.leb_le. lia. }
  destruct (Z.ltb_spec (year d) 9999) as [Ly|Gy]; [|discriminate].
  intros [= <-]. unfold valid_date, toordinal. simpl.
  assert (Em : month d = 12) by lia. rewrite Em in *.
  rewrite days_before_year_succ.
  split.
  - rewrite !andb_true_iff, !Z.leb_le. unfold days_in_month. simpl. lia.
  - unfold days_before_month, days_in_month in *. simpl in *.
    destruct (is_leap (year d)); lia.
Qed.

Lemma next_day_none d :
  valid_date d = true -> (next_day d = None <-> d = mkdate 9999 12 31).
Proof.
  intros V. split.
  - apply valid_date_bounds in V. destruct V as (Y & M & D).
    unfold next_day.
    destruct (Z.ltb_spec (day d) (days_in_month (year d) (month d))) as [Lt|Ge];
      [discriminate|].
    destruct (Z.ltb_spec (month d) 12) as [Lm|Gm]; [discriminate|].
    destruct (Z.ltb_spec (year d) 9999) as [Ly|Gy]; [discriminate|].
    intros _. assert (Em : month d = 12) by lia. rewrite Em in *.
    unfold days_in_month in *. simpl in *.
    destruct d as [y m dd]. simpl in *. f_equal; lia.
  - intros ->. reflexivity.
Qed.

(** ** The time table: where its entries come from *)

Section TableFacts.
Context {L : PyLib}.

Lemma load_row_entry sched line d s i :
  dict_get d (load_row sched line) = Some (s, i) ->
  dict_get d sched = Some (s, i) \/ row_reads line d s i.
Proof.
  unfold load_row.
  destruct ((PyStr.strip line =? "")%string || PyStr.startswith "#" (PyStr.strip line)) eqn:B;
    [auto|].
  destruct (Nat.ltb_spec (List.length (map PyStr.strip (PyStr.split ";" (PyStr.strip line)))) 3)
    as [Lt|Ge]; [auto|].
  destruct (map PyStr.strip (PyStr.split ";" (PyStr.strip line)))
    as [|p0 [|p1 [|p2 rest]]] eqn:F; auto.
  destruct (date_fromisoformat p0) as [d'|] eqn:D; auto.
  destruct (parse_time_hhmm p1) as [sah|] eqn:S; auto.
  destruct (parse_time_hhmm p2) as [ift|] eqn:I; auto.
  destruct (date_eqb_spec d d') as [->|Ne].
  - rewrite dict_get_set_same. intros [= <- <-]. right.
    unfold row_reads, row_fields, row_blank. rewrite F. simpl.
    repeat split; auto; try lia.
    apply orb_false_iff in B. destruct B as [B1 B2].
    apply String.eqb_neq in B1. intros [E|E]; congruence.
  - rewrite dict_get_set_other by assumption. auto.
Qed.

Lemma load_rows_entry lines sched d s i :
  dict_get d (fold_left load_row lines sched) = Some (s, i) ->
  dict_get d sched = Some (s, i)
  \/ exists line, In line lines /\ row_reads line d s i.
Proof.
  revert sched. induction lines as [|l r IH]; intros sched G; simpl in *; [auto|].
  apply IH in G. destruct G as [G|(line & I & R)].
  - apply load_row_entry in G. destruct G as [G|G]; [auto|].
    right. exists l. auto.
  - right. exists line. auto.
Qed.

Lemma load_row_wf sched line : dict_wf sched -> dict_wf (load_row sched line).
Proof.
  intros W. unfold load_row.
  destruct ((PyStr.strip line =? "")%string || PyStr.startswith "#" (PyStr.strip line));
    [assumption|].
  destruct (List.length (map PyStr.strip (PyStr.split ";" (PyStr.strip line))) <? 3)%nat;
    [assumption|].
  destruct (map PyStr.strip (PyStr.split ";" (PyStr.strip line)))
    as [|p0 [|p1 [|p2 rest]]]; try assumption.
  destruct (date_fromisoformat p0); [|assumption].
  destruct (parse_time_hhmm p1); [|assumption].
  destruct (parse_time_hhmm p2); [|assumption].
  now apply dict_wf_set.
Qed.

(** X1. The table [load_schedule] builds holds nothing but what the rows of
    the file say: its dates are pairwise distinct, and an entry for a date
    is what some row of the file reads for that date, with both times in the
    range of a time of day (hours 0 to 23, minutes 0 to 59). Without the
    file no date has an entry. *)
Theorem load_schedule_entries (time_file : option (list string)) :
  dict_wf (load_schedule time_file)
  /\ (forall d sah ift,
        load_day_times time_file d = Some (sah, ift) ->
        (0 <= hour sah <= 23 /\ 0 <= minute sah <= 59)
        /\ (0 <= hour ift <= 23 /\ 0 <= minute ift <= 59)
        /\ exists lines line,
             time_file = Some lines /\ In line lines /\ row_reads line d sah ift)
  /\ (time_file = None -> forall d, load_day_times time_file d = None).
Proof.
  split; [|split].
  - unfold load_schedule. destruct time_file as [lines|]; [|constructor].
    assert (G : forall sched, dict_wf sched -> dict_wf (fold_left load_row lines sched)).
    { induction lines as [|l r IH]; intros sched W; simpl; [assumption|].
      now apply IH, load_row_wf. }
    apply G. constructor.
  - intros d sah ift E.
    assert (R : exists lines line,
               time_file = Some lines /\ In line lines /\ row_reads line d sah ift).
    { unfold load_day_times, load_schedule in E.
      destruct time_file as [lines|]; [|discriminate].
      apply load_rows_entry in E. destruct E as [E|(line & I & R)]; [discriminate|].
      exists lines, line. auto. }
    destruct R as (lines & line & Ef & I & R).
    assert (V : forall s t, parse_time_hhmm s = Some t ->
                            0 <= hour t <= 23 /\ 0 <= minute t <= 59).
    { intros s t P. apply parse_time_hhmm_some in P.
      destruct P as (hh & mm & h & m & _ & _ & _ & Rh & Rm & ->). simpl. lia. }
    destruct R as (NB & Len & D & S & I') .
    split; [eapply V; eauto|]. split; [eapply V; eauto|].
    exists lines, line. repeat split; auto.
  - intros -> d. reflexivity.
Qed.

(** *** The nearest date *)

Lemma nearest_key_inj target a b :
  valid_date a = true -> valid_date b = true ->
  key_ltb (nearest_key target a) (nearest_key target b) = false ->
  key_ltb (nearest_key target b) (nearest_key target a) = false ->
  a = b.
Proof.
  intros Va Vb. unfold nearest_key. intros H1 H2.
  apply toordinal_inj; auto.
  destruct (Z.eq_dec (toordinal a) (toordinal b)) as [E|Ne]; [assumption|].
  exfalso.
  set (fa := if date_ltb target a then 0 else 1) in *.
  set (fb := if date_ltb target b then 0 else 1) in *.
  assert (X : key_ltb (Z.abs (toordinal a - toordinal target), fa, toordinal a)
                      (Z.abs (toordinal b - toordinal target), fb, toordinal b) = true
              \/ key_ltb (Z.abs (toordinal b - toordinal target), fb, toordinal b)
                         (Z.abs (toordinal a - toordinal target), fa, toordinal a) = true).
  { rewrite !key_ltb_iff. lia. }
  destruct X as [X|X]; congruence.
Qed.

Lemma table_date_valid time_file d times :
  Forall (fun d => valid_date d = true) (dict_keys (load_schedule time_file)) ->
  dict_get d (load_schedule time_file) = Some times -> valid_date d = true.
Proof.
  intros V G. rewrite Forall_forall in V. apply V. eapply dict_get_in_keys; eauto.
Qed.

(** X2. A date that has an entry is its own nearest date: when every date
    of the table is a calendar date, [find_nearest_day_times] returns, for a
    date of the table, that date and its entry, which is what
    [resolve_day_times] returns for it as the exact match. *)
Theorem find_nearest_day_times_present (time_file : option (list string))
    (target : date) (sah ift : dtime) :
  Forall (fun d => valid_date d = true) (dict_keys (load_schedule time_file)) ->
  load_day_times time_file target = Some (sah, ift) ->
  find_nearest_day_times time_file target = Some (target, (sah, ift))
  /\ resolve_day_times time_file target = Some (target, sah, ift, true).
Proof.
  intros V G. split; [|unfold resolve_day_times; now rewrite G].
  unfold load_day_times in G.
  assert (Ne : load_schedule time_file <> []).
  { intros E. rewrite E in G. discriminate. }
  destruct (find_nearest_day_times_spec time_file target Ne)
    as (d & times & E & Gd & Min).
  assert (Vd := table_date_valid _ _ _ V Gd).
  assert (Vt := table_date_valid _ _ _ V G).
  assert (It := dict_get_in_keys _ _ _ G).
  assert (M := Min _ It).
  assert (Ed : d = target).
  { apply toordinal_inj; auto.
    unfold nearest_key in M.
    destruct (key_ltb _ _) eqn:K in M; [discriminate|]. clear M.
    destruct (Z.eq_dec (toordinal d) (toordinal target)) as [Eo|No]; [assumption|].
    exfalso.
    assert (X : key_ltb
                  (Z.abs (toordinal target - toordinal target),
                   (if date_ltb target target then 0 else 1), toordinal target)
                  (Z.abs (toordinal d - toordinal target),
                   (if date_ltb target d then 0 else 1), toordinal d) = true).
    { rewrite key_ltb_iff. lia. }
    congruence. }
  subst d. rewrite E. congruence.
Qed.

(** X3. The nearest date does not depend on the order of the rows: two
    files whose tables hold the same entries, all for calendar dates, give
    the same answer to [find_nearest_day_times], whatever the order the
    dates were read in. The ordinal at the end of the sort key makes the
    keys of two dates differ, so the least key is the key of one date. *)
Theorem find_nearest_day_times_order (file1 file2 : option (list string))
    (target : date) :
  Forall (fun d => valid_date d = true) (dict_keys (load_schedule file1)) ->
  Forall (fun d => valid_date d = true) (dict_keys (load_schedule file2)) ->
  (forall d, load_day_times file1 d = load_day_times file2 d) ->
  find_nearest_day_times file1 target = find_nearest_day_times file2 target.
Proof.
  intros V1 V2 Same. unfold load_day_times in Same.
  assert (Keys : forall d, In d (dict_keys (load_schedule file1))
                           <-> In d (dict_keys (load_schedule file2))).
  { intros d. split; intros I; apply dict_get_of_key in I; destruct I as (v & G).
    - rewrite Same in G. eapply dict_get_in_keys; eauto.
    - rewrite <- Same in G. eapply dict_get_in_keys; eauto. }
  destruct (load_schedule file1) as [|[k1 v1] r1] eqn:S1.
  - assert (S2 : load_schedule file2 = []).
    { destruct (load_schedule file2) as [|[k2 v2] r2]; [reflexivity|].
      exfalso. apply (proj2 (Keys k2)). simpl. auto. }
    rewrite (proj2 (find_nearest_day_times_none file1 target) S1).
    rewrite (proj2 (find_nearest_day_times_none file2 target) S2). reflexivity.
  - rewrite <- S1 in *.
    assert (N1 : load_schedule file1 <> []) by (rewrite S1; discriminate).
    assert (N2 : load_schedule file2 <> []).
    { intros E. rewrite E in Keys. apply (proj1 (Keys k1)). rewrite S1. simpl. auto. }
    destruct (find_nearest_day_times_spec file1 target N1) as (d1 & t1 & E1 & G1 & M1).
    destruct (find_nearest_day_times_spec file2 target N2) as (d2 & t2 & E2 & G2 & M2).
    assert (Ed : d1 = d2).
    { apply (nearest_key_inj target).
      - exact (table_date_valid file1 _ _ V1 G1).
      - exact (table_date_valid file2 _ _ V2 G2).
      - apply M2, Keys. eapply dict_get_in_keys; eauto.
      - apply M1, Keys. eapply dict_get_in_keys; eauto. }
    subst d2. rewrite E1, E2. rewrite Same in G1. congruence.
Qed.

(** X4. The text [format_day_info] chooses says what the table holds: the
    not-found text only when the table is empty, the times of the date
    itself when the date has an entry, and otherwise the times of another
    date of the table, named in the text as the nearest one, which is never
    the date that was asked for. *)
Theorem format_day_info_cases (time_file : option (list string)) (day : date) :
  match format_day_info time_file day with
  | InfoMissing => load_schedule time_file = []
  | InfoExact sah ift => load_day_times time_file day = Some (sah, ift)
  | InfoNearest asked actual sah ift =>
      asked = day /\ actual <> day
      /\ load_day_times time_file day = None
      /\ load_day_times time_file actual = Some (sah, ift)
      /\ find_nearest_day_times time_file day = Some (actual, (sah, ift))
  end.
Proof.
  unfold format_day_info, resolve_day_times.
  destruct (load_day_times time_file day) as [[sah ift]|] eqn:E; [reflexivity|].
  destruct (find_nearest_day_times time_file day) as [[d [sah ift]]|] eqn:N.
  - assert (G : dict_get d (load_schedule time_file) = Some (sah, ift)).
    { unfold find_nearest_day_times in N.
      destruct (dict_keys (load_schedule time_file)) as [|k ks]; [discriminate|].
      destruct (dict_get (min_from (nearest_key day) k ks) (load_schedule time_file))
        as [times|] eqn:G; [|discriminate].
      injection N as <- <-. exact G. }
    repeat split; auto.
    intros ->. unfold load_day_times in E. congruence.
  - now apply find_nearest_day_times_none in N.
Qed.

End TableFacts.

Lemma find_nearest_day_times_present_witness :
  @find_nearest_day_times strict_lib
    (Some ["2024-03-03;05:10;18:20"; "2024-03-07;05:02;18:26"])
    (mkdate 2024 3 7)
  = Some (mkdate 2024 3 7, (mktime 5 2, mktime 18 26)).
Proof.
  apply (@find_nearest_day_times_present strict_lib
           (Some ["2024-03-03;05:10;18:20"; "2024-03-07;05:02;18:26"])
           (mkdate 2024 3 7) (mktime 5 2) (mktime 18 26)).
  - repeat constructor.
  - reflexivity.
Defined.

Lemma find_nearest_day_times_order_witness :
  @find_nearest_day_times strict_lib
    (Some ["2024-03-03;05:10;18:20"; "2024-03-07;05:02;18:26"]) (mkdate 2024 3 5)
  = @find_nearest_day_times strict_lib
      (Some ["2024-03-07;05:02;18:26"; "2024-03-03;05:10;18:20"]) (mkdate 2024 3 5).
Proof.
  apply (@find_nearest_day_times_order strict_lib).
  - repeat constructor.
  - repeat constructor.
  - intros d. unfold load_day_times.
    change (@load_schedule strict_lib
              (Some ["2024-03-03;05:10;18:20"; "2024-03-07;05:02;18:26"]))
      with [(mkdate 2024 3 3, (mktime 5 10, mktime 18 20));
            (mkdate 2024 3 7, (mktime 5 2, mktime 18 26))].
    change (@load_schedule strict_lib
              (Some ["2024-03-07;05:02;18:26"; "2024-03-03;05:10;18:20"]))
      with [(mkdate 2024 3 7, (mktime 5 2, mktime 18 26));
            (mkdate 2024 3 3, (mktime 5 10, mktime 18 20))].
    simpl.
    destruct (date_eqb_spec d (mkdate 2024 3 3)) as [->|N3]; [reflexivity|].
    destruct (date_eqb_spec d (mkdate 2024 3 7)); reflexivity.
Defined.

(** ** The store: what every operation keeps *)

(** Every record of the store satisfies [P]. *)
Definition every_user (P : UserSettings -> Prop) (st : store) : Prop :=
  Forall (fun kv : string * UserSettings => P (snd kv)) (users st).

(** The invariants of [get_user] and [mark_sent] are invariants of the
    loop. *)
Lemma loop_keeps {L : PyLib} (sink : Z -> message -> bool)
    (time_file : option (list string)) (I : store -> Prop) :
  (forall uid st, I st -> I (snd (get_user uid st))) ->
  (forall uid day key st, I st -> I (mark_sent uid day key st)) ->
  forall nows w, I (w_store w) -> I (w_store (notification_loop sink time_file nows w)).
Proof.
  intros Hg Hm nows. unfold notification_loop.
  induction nows as [|now nows IH]; intros w Iw; simpl; [assumption|].
  apply IH. unfold tick.
  apply (keeps_tick_body sink time_file I any now); [|assumption].
  intros tmr [uid u0].
  apply keeps_notify_user with (ok_key := any) (ok_msg := any);
    try (intros; exact Logic.I).
  - intros st. apply Hg.
  - intros key st _. apply Hm.
Qed.

Section EveryUser.
Variable P : UserSettings -> Prop.
Hypothesis P_new : P new_user.
Hypothesis P_preset :
  forall u p, P u -> dict_mem p PRESETS = true -> P (set_preset p u).
Hypothesis P_mark :
  forall u ds key, P u -> P (set_sent_keys (mark_ledger ds key (sent_keys u)) u).
Hypothesis P_enabled : forall u b, P u -> P (set_enabled b u).
Hypothesis P_morning : forall u t, P u -> P (set_morning_time t u).
Hypothesis P_night : forall u t, P u -> P (set_night_time t u).

Lemma every_user_get st uid :
  every_user P st ->
  every_user P (snd (get_user uid st)) /\ P (fst (get_user uid st)).
Proof.
  unfold every_user. intros F.
  destruct (dict_get uid (users st)) as [u|] eqn:G.
  - rewrite (get_user_present _ _ _ G). simpl.
    assert (Pu : P (normalise u)).
    { unfold normalise. destruct (dict_mem (preset u) PRESETS).
      - exact (dict_get_values P _ _ _ F G).
      - apply P_preset; [exact (dict_get_values P _ _ _ F G)|reflexivity]. }
    split; [|assumption]. now apply (dict_set_values P).
  - rewrite (get_user_absent _ _ G). simpl. split; [|assumption].
    apply Forall_app. split; [assumption|]. constructor; [assumption|constructor].
Qed.

Lemma every_user_mark st uid day key :
  every_user P st -> every_user P (mark_sent uid day key st).
Proof.
  intros F. destruct (every_user_get st uid F) as [F1 P1].
  unfold every_user. rewrite mark_sent_unfold. simpl.
  apply (dict_set_values P); [assumption|]. now apply P_mark.
Qed.

Lemma every_user_set st uid u :
  every_user P st -> P u ->
  every_user P (save_users (mkstore (dict_set uid u (users st)) (users_file st))).
Proof. intros F Pu. unfold every_user. simpl. now apply (dict_set_values P). Qed.

Lemma every_user_cb_settings st uid data :
  every_user P st -> every_user P (snd (cb_settings uid data st)).
Proof.
  intros F. destruct (every_user_get st uid F) as [F1 P1].
  unfold cb_settings. destruct (get_user uid st) as [u st1]. simpl in F1, P1.
  destruct (nth_error (PyStr.split ":" data) 1) as [action|]; [|assumption].
  destruct (action =? "toggle")%string; [now apply every_user_set, P_enabled|].
  destruct ((action =? "preset")%string
            && (List.length (PyStr.split ":" data) =? 3)%nat).
  { destruct (dict_mem (nth 2 (PyStr.split ":" data) "") PRESETS) eqn:M;
      [|assumption].
    now apply every_user_set, P_preset. }
  destruct ((action =? "morning")%string || (action =? "night")%string);
    [assumption|].
  destruct (action =? "back")%string; assumption.
Qed.

Lemma every_user_set_times {L : PyLib} st uid kind hhmm :
  every_user P st -> every_user P (snd (h_set_times_text uid kind hhmm st)).
Proof.
  intros F. destruct (every_user_get st uid F) as [F1 P1].
  unfold h_set_times_text. destruct (get_user uid st) as [u st1]. simpl in F1, P1.
  destruct (parse_time_hhmm hhmm); [|assumption].
  destruct kind; simpl.
  - now apply every_user_set, P_morning.
  - now apply every_user_set, P_night.
Qed.

Lemma every_user_loop {L : PyLib} (sink : Z -> message -> bool)
    (time_file : option (list string)) nows w :
  every_user P (w_store w) ->
  every_user P (w_store (notification_loop sink time_file nows w)).
Proof.
  apply loop_keeps.
  - intros uid st F. now apply every_user_get.
  - intros uid day key st. apply every_user_mark.
Qed.

End EveryUser.

(** A ledger of at most ten distinct days. *)
Definition small_ledger (u : UserSettings) : Prop :=
  dict_wf (sent_keys u) /\ (List.length (dict_keys (sent_keys u)) <= 10)%nat.

(** X5. Ledgers of at most ten days stay so: when every record of the store
    has at most ten distinct days in its ledger, the same holds after any
    number of iterations of the loop, whatever they send and whether or not
    they raise, and after each of the handlers that write to the store. So
    pruning in [mark_sent] bounds what [users.json] holds for a user once the
    ledger is within the bound. *)
Theorem ledgers_stay_small {L : PyLib} (sink : Z -> message -> bool)
    (time_file : option (list string)) (nows : list datetime) (w : world)
    (uid data hhmm : string) (kind : time_kind) (day : date) (key : string) :
  every_user small_ledger (w_store w) ->
  every_user small_ledger (w_store (notification_loop sink time_file nows w))
  /\ every_user small_ledger (mark_sent uid day key (w_store w))
  /\ every_user small_ledger (snd (get_user uid (w_store w)))
  /\ every_user small_ledger (snd (cb_settings uid data (w_store w)))
  /\ every_user small_ledger (snd (h_set_times_text uid kind hhmm (w_store w))).
Proof.
  intros F.
  assert (Pn : small_ledger new_user).
  { split; [constructor|simpl; lia]. }
  assert (Pm : forall u ds k, small_ledger u ->
                 small_ledger (set_sent_keys (mark_ledger ds k (sent_keys u)) u)).
  { intros u ds k [W B]. split; simpl.
    - now apply mark_ledger_wf.
    - now apply mark_ledger_days. }
  repeat split.
  - apply every_user_loop; auto.
  - apply every_user_mark; auto.
  - apply every_user_get; auto.
  - apply every_user_cb_settings; auto.
  - apply every_user_set_times; auto.
Qed.

Lemma ledgers_stay_small_witness :
  every_user small_ledger
    (w_store (notification_loop (fun _ _ => true) march_first
                [mkdatetime (mkdate 2024 3 1) 17 55 0 0;
                 mkdatetime (mkdate 2024 3 1) 18 0 0 0] late_world)).
Proof.
  apply (@ledgers_stay_small strict_lib (fun _ _ => true) march_first
           [mkdatetime (mkdate 2024 3 1) 17 55 0 0;
            mkdatetime (mkdate 2024 3 1) 18 0 0 0] late_world
           "7" "set:toggle" "08:45" Morning (mkdate 2024 3 1) "morning").
  unfold every_user, small_ledger. simpl.
  repeat constructor; simpl; intuition (try discriminate; try lia).
Defined.

(** The preset of the record is a key of [PRESETS]. *)
Definition known_preset (u : UserSettings) : Prop :=
  dict_mem (preset u) PRESETS = true.

(** Every preset is known, and a restart would read back the store as it
    is. *)
Definition persisted (st : store) : Prop :=
  every_user known_preset st /\ load_users st = users st.

Ltac known_preset_step :=
  try solve [reflexivity | intros; assumption].

Lemma persisted_get st uid : persisted st -> persisted (snd (get_user uid st)).
Proof.
  intros [F E]. split.
  - apply every_user_get; known_preset_step.
  - destruct (dict_get uid (users st)) as [u|] eqn:G.
    + rewrite (get_user_fixed _ _ _ G); [assumption|].
      exact (dict_get_values known_preset _ _ _ F G).
    + rewrite (get_user_absent _ _ G). reflexivity.
Qed.

Lemma persisted_mark st uid day key :
  persisted st -> persisted (mark_sent uid day key st).
Proof.
  intros [F E]. split.
  - apply every_user_mark; known_preset_step.
  - unfold load_users.
    destruct (mark_sent_spec uid day key st) as (_ & _ & -> & _). reflexivity.
Qed.

(** X6. Memory and file do not drift apart: when every preset of the store
    is a key of [PRESETS] and [users.json] holds what [users] holds (as it
    does right after [load_users] or [save_users]), the same is true after
    any number of iterations of the loop and after each handler: every
    statement that changes a record is followed by [save_users] before
    anything else can fail. *)
Theorem store_stays_persisted {L : PyLib} (sink : Z -> message -> bool)
    (time_file : option (list string)) (nows : list datetime) (w : world)
    (uid data hhmm : string) (kind : time_kind) :
  persisted (w_store w) ->
  persisted (w_store (notification_loop sink time_file nows w))
  /\ persisted (snd (cmd_start uid (w_store w)))
  /\ persisted (snd (h_settings uid (w_store w)))
  /\ persisted (snd (cb_settings uid data (w_store w)))
  /\ persisted (snd (h_set_times_text uid kind hhmm (w_store w))).
Proof.
  intros S.
  assert (G := persisted_get _ uid S).
  split; [|split; [|split; [|split]]].
  - revert S. apply loop_keeps.
    + intros uid' st. apply persisted_get.
    + intros uid' day key st. apply persisted_mark.
  - unfold cmd_start. destruct (get_user uid (w_store w)). exact G.
  - unfold h_settings. destruct (get_user uid (w_store w)). exact G.
  - split; [apply every_user_cb_settings; known_preset_step; apply S|].
    unfold cb_settings. destruct (get_user uid (w_store w)) as [u st1].
    simpl in G. destruct G as [_ G].
    destruct (nth_error (PyStr.split ":" data) 1) as [action|]; [|assumption].
    destruct (action =? "toggle")%string; [reflexivity|].
    destruct ((action =? "preset")%string
              && (List.length (PyStr.split ":" data) =? 3)%nat).
    { destruct (dict_mem (nth 2 (PyStr.split ":" data) "") PRESETS);
        [reflexivity|assumption]. }
    destruct ((action =? "morning")%string || (action =? "night")%string);
      [assumption|].
    destruct (action =? "back")%string; assumption.
  - split; [apply every_user_set_times; known_preset_step; apply S|].
    unfold h_set_times_text. destruct (get_user uid (w_store w)) as [u st1].
    simpl in G. destruct G as [_ G].
    destruct (parse_time_hhmm hhmm); [|assumption].
    destruct kind; reflexivity.
Qed.

Lemma store_stays_persisted_witness :
  load_users
    (w_store (notification_loop (fun _ _ => true) march_fifth
                [mkdatetime (mkdate 2024 3 5) 17 55 0 0]
                (mkworld (mkstore [("7", new_user)] (Some [("7", new_user)])) [])))
  = users
      (w_store (notification_loop (fun _ _ => true) march_fifth
                  [mkdatetime (mkdate 2024 3 5) 17 55 0 0]
                  (mkworld (mkstore [("7", new_user)] (Some [("7", new_user)])) []))).
Proof.
  apply (@store_stays_persisted strict_lib (fun _ _ => true) march_fifth
           [mkdatetime (mkdate 2024 3 5) 17 55 0 0]
           (mkworld (mkstore [("7", new_user)] (Some [("7", new_user)])) [])
           "7" "set:toggle" "08:45" Morning).
  split; [|reflexivity].
  unfold every_user, known_preset. simpl. repeat constructor.
Defined.

(** ** The ledger: what a mark does not touch *)

Lemma marked_after_mark_sent st uid day key uid' ds' key' :
  dict_wf (ledger_of st uid) ->
  marked ds' key' (ledger_of (mark_sent uid day key st) uid') = true ->
  marked ds' key' (ledger_of st uid') = true
  \/ (uid' = uid /\ ds' = isoformat day /\ key' = key).
Proof.
  intros W. destruct (mark_sent_spec uid day key st) as (_ & O & _).
  destruct (String.eqb_spec uid' uid) as [->|Ne].
  - rewrite ledger_of_mark_sent.
    destruct (String.eqb_spec ds' (isoformat day)) as [->|N].
    + intros M. apply marked_mark_ledger_other in M; [|assumption].
      destruct M as [M|M]; [right|left]; auto.
    + intros M. left. unfold marked, day_keys in *.
      destruct (dict_get ds' (mark_ledger (isoformat day) key (ledger_of st uid)))
        as [l|] eqn:G; [|discriminate].
      rewrite <- (mark_ledger_values (isoformat day) key (ledger_of st uid)
                    ds' W (dict_get_in_keys _ _ _ G) N).
      now rewrite G.
  - intros M. left. unfold ledger_of in *. now rewrite <- (O uid' Ne).
Qed.

(** X7. [mark_sent] marks one key and nothing else: a key that [was_sent]
    finds after [mark_sent uid day key] was found before it, unless it is
    [key] itself, asked for the same user and the same day. The records of
    the other users are the same as before, and the record of [uid] keeps
    its [enabled] flag and its two digest times. *)
Theorem mark_sent_marks_one (st : store) (uid : string) (day : date) (key : string) :
  dict_wf (ledger_of st uid) ->
  (forall uid' day' key',
     fst (was_sent uid' day' key' (mark_sent uid day key st)) = true ->
     fst (was_sent uid' day' key' st) = true
     \/ (uid' = uid /\ isoformat day' = isoformat day /\ key' = key))
  /\ (forall uid', uid' <> uid ->
        dict_get uid' (users (mark_sent uid day key st)) = dict_get uid' (users st))
  /\ (forall u, dict_get uid (users st) = Some u ->
        exists u',
          dict_get uid (users (mark_sent uid day key st)) = Some u'
          /\ enabled u' = enabled u
          /\ morning_time u' = morning_time u
          /\ night_time u' = night_time u).
Proof.
  intros W. destruct (mark_sent_spec uid day key st) as (Gm & O & _).
  split; [|split].
  - intros uid' day' key'.
    rewrite (proj1 (was_sent_spec uid' day' key' _)).
    rewrite (proj1 (was_sent_spec uid' day' key' st)).
    now apply marked_after_mark_sent.
  - exact O.
  - intros u G. rewrite Gm. eexists. split; [reflexivity|].
    rewrite (get_user_present _ _ _ G). simpl.
    rewrite enabled_normalise. destruct (times_normalise u) as [-> ->]. auto.
Qed.

Lemma mark_sent_marks_one_witness :
  exists u',
    dict_get "7" (users (mark_sent "7" (mkdate 2024 3 11) "iftar-5" late_store))
    = Some u'
    /\ enabled u' = true
    /\ morning_time u' = "08:30"
    /\ night_time u' = "22:00".
Proof.
  destruct (mark_sent_marks_one late_store "7" (mkdate 2024 3 11) "iftar-5")
    as (_ & _ & H).
  - unfold dict_wf. simpl.
    repeat (constructor; [simpl; intuition discriminate|]). constructor.
  - exact (H (mkuser true "full" "08:30" "22:00" ten_days) eq_refl).
Defined.

(** ** The settings handlers *)

Lemma get_user_record st uid :
  dict_get uid (users (snd (get_user uid st))) = Some (fst (get_user uid st))
  /\ dict_mem (preset (fst (get_user uid st))) PRESETS = true.
Proof. destruct (get_user_spec st uid) as (G & K & _). auto. Qed.

Lemma set_enabled_twice u :
  set_enabled (negb (negb (enabled u))) (set_enabled (negb (enabled u)) u) = u.
Proof. destruct u as [e p m n l]. unfold set_enabled. simpl. now rewrite negb_involutive. Qed.

(** X8. The toggle button flips [enabled] and nothing else, and saves: after
    [cb_settings] on ["set:toggle"] the record of the user is the one
    [get_user] returns with [enabled] negated, and [users.json] holds the
    store. Pressing the button twice gives back the store [get_user] leaves,
    saved: the flag, the preset, the digest times and the ledger are those
    from before. *)
Theorem cb_settings_toggle (st : store) (uid : string) :
  cb_settings uid "set:toggle" st
  = (Some ReplyDone,
     save_users
       (mkstore
          (dict_set uid
             (set_enabled (negb (enabled (fst (get_user uid st)))) (fst (get_user uid st)))
             (users (snd (get_user uid st))))
          (users_file (snd (get_user uid st)))))
  /\ dict_get uid (users (snd (cb_settings uid "set:toggle" st)))
     = Some (set_enabled (negb (enabled (fst (get_user uid st)))) (fst (get_user uid st)))
  /\ load_users (snd (cb_settings uid "set:toggle" st))
     = users (snd (cb_settings uid "set:toggle" st))
  /\ snd (cb_settings uid "set:toggle" (snd (cb_settings uid "set:toggle" st)))
     = save_users (snd (get_user uid st)).
Proof.
  destruct (get_user_record st uid) as [G K].
  assert (E : cb_settings uid "set:toggle" st
              = (Some ReplyDone,
                 save_users
                   (mkstore
                      (dict_set uid
                         (set_enabled (negb (enabled (fst (get_user uid st))))
                            (fst (get_user uid st)))
                         (users (snd (get_user uid st))))
                      (users_file (snd (get_user uid st)))))).
  { unfold cb_settings. destruct (get_user uid st) as [u st1]. reflexivity. }
  split; [exact E|]. rewrite E. simpl.
  split; [apply dict_get_set_same|]. split; [reflexivity|].
  unfold cb_settings at 1.
  rewrite (get_user_fixed _ uid
             (set_enabled (negb (enabled (fst (get_user uid st)))) (fst (get_user uid st))));
    [|apply dict_get_set_same|exact K].
  simpl. rewrite set_enabled_twice, dict_set_set.
  rewrite (dict_set_same_value _ _ _ G). reflexivity.
Qed.

Lemma split_set_prefix data :
  PyStr.startswith "set:" data = true ->
  exists rest, PyStr.split ":" data = "set" :: PyStr.split ":" rest.
Proof.
  unfold PyStr.startswith. intros H.
  destruct data as [|a [|b [|c [|d rest]]]]; try discriminate H;
    simpl in H;
    repeat match type of H with
           | (if ?x then _ else _) = true => destruct x; [subst|discriminate H]
           end; try discriminate H.
  exists rest. reflexivity.
Qed.

Lemma split_nonempty sep s : PyStr.split sep s <> [].
Proof.
  destruct s as [|c r]; simpl; [discriminate|].
  destruct (Ascii.eqb c sep); [discriminate|].
  destruct (PyStr.split sep r); discriminate.
Qed.

(** X9. [cb_settings] never stores a preset that [PRESETS] does not hold:
    whatever the callback data, the record of the user afterwards has a
    known preset, the ledger and the digest times [get_user] returned, and
    the records of the other users are untouched. On the data
    [set:preset:p] the preset becomes [p] when [p] is a key of [PRESETS],
    and otherwise the store is the one [get_user] leaves and the answer says
    that the preset is unknown; data of more than three parts changes
    nothing. On data that starts with [set:], which is what the handler is
    registered for, the index [parts[1]] exists. *)
Theorem cb_settings_keeps_preset_known (st : store) (uid data : string) :
  (PyStr.startswith "set:" data = true -> fst (cb_settings uid data st) <> None)
  /\ (exists u',
        dict_get uid (users (snd (cb_settings uid data st))) = Some u'
        /\ dict_mem (preset u') PRESETS = true
        /\ sent_keys u' = ledger_of st uid
        /\ morning_time u' = morning_time (fst (get_user uid st))
        /\ night_time u' = night_time (fst (get_user uid st)))
  /\ (forall uid', uid' <> uid ->
        dict_get uid' (users (snd (cb_settings uid data st)))
        = dict_get uid' (users st))
  /\ (forall p,
        PyStr.split ":" data = ["set"; "preset"; p] ->
        cb_settings uid data st
        = if dict_mem p PRESETS
          then (Some ReplyPresetChanged,
                save_users
                  (mkstore
                     (dict_set uid (set_preset p (fst (get_user uid st)))
                        (users (snd (get_user uid st))))
                     (users_file (snd (get_user uid st)))))
          else (Some ReplyUnknownPreset, snd (get_user uid st)))
  /\ (forall p q rest,
        PyStr.split ":" data = "set" :: "preset" :: p :: q :: rest ->
        cb_settings uid data st = (Some ReplyEmpty, snd (get_user uid st))).
Proof.
  destruct (get_user_spec st uid) as (G & K & Sk & O & _).
  split; [|split; [|split; [|split]]].
  - intros P. destruct (split_set_prefix _ P) as (rest & E).
    unfold cb_settings. destruct (get_user uid st) as [u st1]. rewrite E.
    destruct (PyStr.split ":" rest) as [|action tl] eqn:R;
      [now apply split_nonempty in R|].
    simpl.
    destruct (action =? "toggle")%string; [simpl; discriminate|].
    destruct ((action =? "preset")%string && _).
    { destruct (dict_mem (nth 0 tl "") PRESETS); simpl; discriminate. }
    destruct ((action =? "morning")%string || (action =? "night")%string);
      [simpl; discriminate|].
    destruct (action =? "back")%string; simpl; discriminate.
  - unfold cb_settings. destruct (get_user uid st) as [u st1]. simpl in G, K, Sk.
    assert (Same : exists u',
               dict_get uid (users st1) = Some u'
               /\ dict_mem (preset u') PRESETS = true
               /\ sent_keys u' = ledger_of st uid
               /\ morning_time u' = morning_time u /\ night_time u' = night_time u).
    { exists u. auto. }
    destruct (nth_error (PyStr.split ":" data) 1) as [action|]; [|exact Same].
    destruct (action =? "toggle")%string.
    { simpl. rewrite dict_get_set_same. eexists. split; [reflexivity|]. auto. }
    destruct ((action =? "preset")%string
              && (List.length (PyStr.split ":" data) =? 3)%nat).
    { destruct (dict_mem (nth 2 (PyStr.split ":" data) "") PRESETS) eqn:M;
        [|exact Same].
      simpl. rewrite dict_get_set_same. eexists. split; [reflexivity|]. auto. }
    destruct ((action =? "morning")%string || (action =? "night")%string);
      [exact Same|].
    destruct (action =? "back")%string; exact Same.
  - intros uid' Ne. specialize (O uid' Ne).
    unfold cb_settings. destruct (get_user uid st) as [u st1]. simpl in O.
    destruct (nth_error (PyStr.split ":" data) 1) as [action|]; [|exact O].
    destruct (action =? "toggle")%string.
    { simpl. now rewrite dict_get_set_other. }
    destruct ((action =? "preset")%string
              && (List.length (PyStr.split ":" data) =? 3)%nat).
    { destruct (dict_mem (nth 2 (PyStr.split ":" data) "") PRESETS); [|exact O].
      simpl. now rewrite dict_get_set_other. }
    destruct ((action =? "morning")%string || (action =? "night")%string);
      [exact O|].
    destruct (action =? "back")%string; exact O.
  - intros p E. unfold cb_settings. destruct (get_user uid st) as [u st1].
    rewrite E. simpl. destruct (dict_mem p PRESETS); reflexivity.
  - intros p q rest E. unfold cb_settings. destruct (get_user uid st) as [u st1].
    rewrite E. reflexivity.
Qed.

(** *** Setting a digest time *)







(** ** The loop: what it leaves alone *)

(** The record [u'] has the settings of [u], up to the repair of an unknown
    preset by [get_user]. *)
Definition same_settings (u u' : UserSettings) : Prop :=
  enabled u' = enabled u
  /\ morning_time u' = morning_time u
  /\ night_time u' = night_time u
  /\ (preset u' = preset u
      \/ (preset u' = DEFAULT_PRESET /\ dict_mem (preset u) PRESETS = false)).

Lemma same_settings_normalise u u' :
  same_settings u u' -> same_settings u (normalise u').
Proof.
  intros (E & M & N & P). unfold same_settings.
  rewrite enabled_normalise.
  destruct (times_normalise u') as [-> ->].
  split; [assumption|]. split; [assumption|]. split; [assumption|].
  unfold normalise. destruct (dict_mem (preset u') PRESETS) eqn:K; [assumption|].
  simpl. destruct P as [P|[P _]].
  - right. split; [reflexivity|]. now rewrite <- P.
  - rewrite P in K. discriminate K.
Qed.

Lemma same_settings_ledger u u' l :
  same_settings u u' -> same_settings u (set_sent_keys l u').
Proof.
  intros (E & M & N & P). unfold same_settings. simpl. auto.
Qed.

(** The store has the uids of [st0], in the same order, and under each of
    them a record with the settings it has in [st0]. *)
Definition same_users (st0 st : store) : Prop :=
  dict_keys (users st) = dict_keys (users st0)
  /\ forall uid u,
       dict_get uid (users st0) = Some u ->
       exists u', dict_get uid (users st) = Some u' /\ same_settings u u'.

Lemma same_users_refl st : same_users st st.
Proof.
  split; [reflexivity|]. intros uid u G. exists u. split; [assumption|].
  unfold same_settings. auto.
Qed.

Lemma same_users_get st0 st uid :
  In uid (dict_keys (users st0)) ->
  same_users st0 st -> same_users st0 (snd (get_user uid st)).
Proof.
  intros I [K S]. rewrite <- K in I.
  destruct (dict_get_of_key _ _ I) as (u1 & G1).
  rewrite (get_user_present _ _ _ G1). unfold same_users.
  cbn [fst snd users users_file]. split.
  - now rewrite dict_keys_set_present.
  - intros uid0 u G0. destruct (S _ _ G0) as (u' & G' & Q).
    destruct (String.eqb_spec uid0 uid) as [->|Ne].
    + rewrite dict_get_set_same. eexists. split; [reflexivity|].
      assert (u' = u1) by congruence. subst u'. now apply same_settings_normalise.
    + rewrite dict_get_set_other by assumption. eauto.
Qed.

Lemma same_users_mark st0 st uid day key :
  In uid (dict_keys (users st0)) ->
  same_users st0 st -> same_users st0 (mark_sent uid day key st).
Proof.
  intros I S. assert (S1 := same_users_get _ _ _ I S).
  destruct S as [K S]. rewrite <- K in I.
  destruct (dict_get_of_key _ _ I) as (u1 & G1).
  rewrite mark_sent_unfold. destruct S1 as [K1 S1].
  rewrite (get_user_present _ _ _ G1) in *.
  unfold save_users, same_users. cbn [fst snd users users_file] in *. split.
  - rewrite dict_set_set. now rewrite dict_keys_set_present.
  - intros uid0 u G0. destruct (S1 _ _ G0) as (u' & G' & Q).
    destruct (String.eqb_spec uid0 uid) as [->|Ne].
    + rewrite dict_get_set_same in *. injection G' as <-.
      eexists. split; [reflexivity|]. now apply same_settings_ledger.
    + rewrite !dict_get_set_other in * by assumption. eauto.
Qed.

(** A message for a user that [st0] holds as enabled, to the chat of its
    uid. *)
Definition for_enabled {L : PyLib} (st0 : store) (e : sent) : Prop :=
  exists u,
    dict_get (to_uid e) (users st0) = Some u
    /\ enabled u = true
    /\ py_int (to_uid e) = Some (chat_id e).

Section LoopFrame.
Context {L : PyLib}.
Variable sink : Z -> message -> bool.
Variable time_file : option (list string).

(** As [keeps_tick_body], for the users the store holds. *)
Lemma keeps_tick_items (I : store -> Prop) (phi : sent -> Prop) now :
  (forall tmr w item,
     I (w_store w) -> In item (users (w_store w)) ->
     keeps I phi any
       (notify_user sink time_file now (dt_date now) tmr
          (load_day_times time_file (dt_date now))
          (load_day_times time_file tmr) item)) ->
  keeps I phi any (tick_body sink time_file now).
Proof.
  intros Hn w Iw. unfold tick_body, bind, try_value.
  destruct (next_day (dt_date now)) as [tmr|].
  - apply (keeps_for_each I phi (users (w_store w))); [|assumption].
    intros item Ii. now apply (Hn tmr w).
  - simpl. split; [assumption|]. split; [apply grows_refl|discriminate].
Qed.

Lemma same_users_notify_user st0 now today tmr today_times tomorrow_times uid u0 :
  In uid (dict_keys (users st0)) ->
  keeps (same_users st0) (for_enabled st0) any
    (notify_user sink time_file now today tmr today_times tomorrow_times (uid, u0)).
Proof.
  intros I. destruct (dict_get_of_key _ _ I) as (u & G).
  destruct (enabled u) eqn:En.
  - apply keeps_notify_user with (ok_key := any) (ok_msg := any);
      try (intros; exact Logic.I).
    + intros st. now apply same_users_get.
    + intros key st _. now apply same_users_mark.
    + intros chat text P _. exists u. auto.
  - unfold notify_user.
    apply keeps_bind with (R := fun u' => enabled u' = false).
    + apply keeps_user_obj. intros st [_ S].
      destruct (S _ _ G) as (u' & -> & (E & _)). congruence.
    + intros u' ->. now apply keeps_ret.
Qed.

Lemma same_users_tick st0 now w :
  same_users st0 (w_store w) ->
  same_users st0 (w_store (tick sink time_file now w))
  /\ grows (for_enabled st0) w (tick sink time_file now w).
Proof.
  intros S. unfold tick.
  destruct (keeps_tick_items (same_users st0) (for_enabled st0) now) with (w := w)
    as (S' & G & _); auto.
  intros tmr w1 [uid u0] [K _] Ii. apply same_users_notify_user.
  rewrite <- K. change uid with (fst (uid, u0)). now apply in_map.
Qed.

Lemma same_users_loop nows w :
  same_users (w_store w) (w_store (notification_loop sink time_file nows w))
  /\ grows (for_enabled (w_store w)) w (notification_loop sink time_file nows w).
Proof.
  assert (H : forall st0 w,
             same_users st0 (w_store w) ->
             same_users st0 (w_store (notification_loop sink time_file nows w))
             /\ grows (for_enabled st0) w (notification_loop sink time_file nows w)).
  { unfold notification_loop.
    induction nows as [|now nows' IH]; intros st0 w0 S; simpl.
    - split; [assumption|apply grows_refl].
    - destruct (same_users_tick st0 now w0 S) as [S1 G1].
      destruct (IH st0 _ S1) as [S2 G2].
      split; [assumption|eapply grows_trans; eauto]. }
  apply H, same_users_refl.
Qed.

End LoopFrame.

(** X11. The loop changes no setting: after any number of iterations,
    whatever they send and whether or not they raise, the store holds the
    same uids in the same order, and the record of each has the [enabled]
    flag, the morning time and the night time it had; its preset is the one
    it had or, if that one was not a key of [PRESETS], the default one, so
    the lead minutes in force are the same. The loop writes to ledgers
    only. *)
Theorem notification_loop_keeps_settings {L : PyLib} (sink : Z -> message -> bool)
    (time_file : option (list string)) (nows : list datetime) (w : world) :
  dict_keys (users (w_store (notification_loop sink time_file nows w)))
  = dict_keys (users (w_store w))
  /\ forall uid u,
       dict_get uid (users (w_store w)) = Some u ->
       exists u',
         dict_get uid (users (w_store (notification_loop sink time_file nows w)))
         = Some u'
         /\ enabled u' = enabled u
         /\ morning_time u' = morning_time u
         /\ night_time u' = night_time u
         /\ (preset u' = preset u
             \/ (preset u' = DEFAULT_PRESET /\ dict_mem (preset u) PRESETS = false))
         /\ preset_leads (preset u') = preset_leads (preset u).
Proof.
  destruct (same_users_loop sink time_file nows w) as [[K S] _].
  split; [exact K|].
  intros uid u G. destruct (S _ _ G) as (u' & G' & E & M & N & P).
  exists u'. split; [assumption|]. split; [assumption|]. split; [assumption|].
  split; [assumption|]. split; [assumption|].
  destruct P as [->|[-> K']]; [reflexivity|].
  unfold preset_leads, dict_mem in *.
  destruct (dict_get (preset u) PRESETS); [discriminate K'|reflexivity].
Qed.

(** X12. The loop writes to enabled users only: every message that any
    number of iterations send is made for a uid that the store held at the
    start with [enabled] true, and goes to the chat [int(uid)]. With no
    enabled user, and so with an empty store, the loop sends nothing. *)
Theorem notification_loop_sends_to_enabled {L : PyLib}
    (sink : Z -> message -> bool) (time_file : option (list string))
    (nows : list datetime) (w : world) :
  (exists new,
     outbox (notification_loop sink time_file nows w) = outbox w ++ new
     /\ Forall (fun e =>
                  exists u,
                    dict_get (to_uid e) (users (w_store w)) = Some u
                    /\ enabled u = true
                    /\ py_int (to_uid e) = Some (chat_id e)) new)
  /\ ((forall uid u, dict_get uid (users (w_store w)) = Some u -> enabled u = false) ->
      outbox (notification_loop sink time_file nows w) = outbox w).
Proof.
  destruct (same_users_loop sink time_file nows w) as [_ (new & E & F)].
  split; [exists new; auto|].
  intros D. rewrite E. destruct new as [|e r]; [apply app_nil_r|].
  inversion F as [|? ? (u & G & En & _) _]; subst.
  rewrite (D _ _ G) in En. discriminate En.
Qed.

(** ** The loop: each notice once *)

(** The record under [uid] has the digest times of [u]. *)
Definition timed (uid : string) (u : UserSettings) (st : store) : Prop :=
  exists u',
    dict_get uid (users st) = Some u'
    /\ morning_time u' = morning_time u
    /\ night_time u' = night_time u.

Lemma timed_get uid u st uid' :
  timed uid u st -> timed uid u (snd (get_user uid' st)).
Proof.
  intros (u' & G & M & N).
  destruct (String.eqb_spec uid' uid) as [->|Ne].
  - rewrite (get_user_present _ _ _ G). unfold timed. cbn [snd users].
    exists (normalise u'). rewrite dict_get_set_same.
    destruct (times_normalise u') as [-> ->]. auto.
  - exists u'. destruct (get_user_spec st uid') as (_ & _ & _ & O & _).
    rewrite O; auto.
Qed.

Lemma timed_mark uid u st uid' day key :
  timed uid u st -> timed uid u (mark_sent uid' day key st).
Proof.
  intros (u' & G & M & N).
  destruct (mark_sent_spec uid' day key st) as (Gm & O & _).
  destruct (String.eqb_spec uid' uid) as [->|Ne].
  - rewrite (get_user_present _ _ _ G) in Gm. cbn [fst] in Gm.
    eexists. split; [exact Gm|]. simpl.
    destruct (times_normalise u') as [-> ->]. auto.
  - exists u'. rewrite O; auto.
Qed.

(** [settled] for the lead lists of [u], with the digest times of [u]. *)
Definition steady (uid ds key : string) (u : UserSettings) (b : bool) (st : store)
    : Prop :=
  settled uid ds key (preset_leads (preset u)) b st /\ timed uid u st.

Lemma steady_start uid ds key u st :
  dict_wf (users st) -> dict_get uid (users st) = Some u -> enabled u = true ->
  dict_wf (sent_keys u) -> recent ds (sent_keys u) ->
  steady uid ds key u (marked ds key (sent_keys u)) st.
Proof.
  intros W G E Wl R. split.
  - split; [assumption|]. exists u. repeat split; auto.
  - exists u. auto.
Qed.

Lemma steady_record uid ds key u b st :
  steady uid ds key u b st ->
  exists u',
    dict_get uid (users st) = Some u'
    /\ enabled u' = true
    /\ preset_leads (preset u') = preset_leads (preset u)
    /\ morning_time u' = morning_time u
    /\ night_time u' = night_time u
    /\ marked ds key (sent_keys u') = b.
Proof.
  intros [(_ & u1 & G1 & E & P & _ & _ & M) (u2 & G2 & Mo & Ni)].
  assert (u2 = u1) by congruence. subst u2. exists u1. repeat split; auto.
Qed.

(** What a step did with the notice [text] of the user [uid]: it sent it,
    when it was due and not marked, and sent nothing otherwise. *)
Definition fires_with {L : PyLib} (uid : string) (text : message) (b due : bool)
    (w w' : world) : Prop :=
  (due && negb b = true
   /\ exists chat,
        py_int uid = Some chat
        /\ outbox w' = outbox w ++ [mksent uid chat text])
  \/ (due && negb b = false /\ outbox w' = outbox w).

(** The tick at [now], the user [uid], and the notice with the ledger key
    [key0] and the text [text0]. *)
Section Rule.
Context {L : PyLib}.
Variable sink : Z -> message -> bool.
Variable time_file : option (list string).
Variable uid : string.
Variable now : datetime.
Variable key0 : string.
Variable text0 : message.
Variable u : UserSettings.

Local Abbreviation J := (steady uid (isoformat (dt_date now)) key0 u).
Local Abbreviation other := (other_than uid text0).

Lemma rule_get b st : J b st -> J b (snd (get_user uid st)).
Proof. intros [S T]. split; [now apply settled_get|now apply timed_get]. Qed.

Lemma rule_mark_any b key st :
  J b st -> J (b || (key0 =? key)%string) (mark_sent uid (dt_date now) key st).
Proof. intros [S T]. split; [now apply settled_mark|now apply timed_mark]. Qed.

Lemma rule_mark b key st :
  key <> key0 -> J b st -> J b (mark_sent uid (dt_date now) key st).
Proof.
  intros Ne S. apply (rule_mark_any b key) in S.
  replace (key0 =? key)%string with false in S
    by (symmetry; apply String.eqb_neq; congruence).
  now rewrite orb_false_r in S.
Qed.

Lemma rule_phi chat text :
  py_int uid = Some chat -> text <> text0 -> other (mksent uid chat text).
Proof. intros _ Ne [_ E]. now apply Ne. Qed.

Lemma rule_morning b u0 today_times :
  "morning" <> key0 ->
  match today_times with
  | Some _ => MorningDigest (format_day_info time_file (dt_date now))
  | None => MorningNotFound
  end <> text0 ->
  keeps (J b) other any
        (morning_digest sink time_file uid u0 now (dt_date now) today_times).
Proof.
  intros Hk Ht.
  apply keeps_morning_digest
    with (ok_key := fun k => k <> key0) (ok_msg := fun t => t <> text0); auto.
  - apply rule_get.
  - apply rule_mark.
  - apply rule_phi.
Qed.

Lemma rule_night b u0 tmr tomorrow_times :
  "night" <> key0 ->
  match tomorrow_times with
  | Some _ => NightDigest (format_day_info time_file tmr)
  | None => NightNotFound
  end <> text0 ->
  keeps (J b) other any
        (night_digest sink time_file uid u0 now (dt_date now) tmr tomorrow_times).
Proof.
  intros Hk Ht.
  apply keeps_night_digest
    with (ok_key := fun k => k <> key0) (ok_msg := fun t => t <> text0); auto.
  - apply rule_get.
  - apply rule_mark.
  - apply rule_phi.
Qed.

Lemma rule_iftar b ift_dt x :
  iftar_key x <> key0 -> IftarIn x <> text0 ->
  keeps (J b) other any (iftar_reminder sink uid now (dt_date now) ift_dt x).
Proof.
  intros Hk Ht.
  apply keeps_iftar_reminder
    with (ok_key := fun k => k <> key0) (ok_msg := fun t => t <> text0); auto.
  - apply rule_get.
  - apply rule_mark.
  - apply rule_phi.
Qed.

Lemma rule_iftar_now b ift_dt :
  "iftar-now" <> key0 -> IftarNow <> text0 ->
  keeps (J b) other any (iftar_now sink uid now (dt_date now) ift_dt).
Proof.
  intros Hk Ht.
  apply keeps_iftar_now
    with (ok_key := fun k => k <> key0) (ok_msg := fun t => t <> text0); auto.
  - apply rule_get.
  - apply rule_mark.
  - apply rule_phi.
Qed.

Lemma rule_saharlik b sah_dt x :
  ("saharlik-" ++ PyStr.str_of_int x)%string <> key0 -> SaharlikIn x <> text0 ->
  keeps (J b) other any (saharlik_reminder sink uid now (dt_date now) sah_dt x).
Proof.
  intros Hk Ht.
  apply keeps_saharlik_reminder
    with (ok_key := fun k => k <> key0) (ok_msg := fun t => t <> text0); auto.
  - apply rule_get.
  - apply rule_mark.
  - apply rule_phi.
Qed.

Lemma rule_reminders b u0 today_times :
  (forall x, iftar_key x <> key0) -> (forall x, IftarIn x <> text0) ->
  "iftar-now" <> key0 -> IftarNow <> text0 ->
  (forall x, ("saharlik-" ++ PyStr.str_of_int x)%string <> key0) ->
  (forall x, SaharlikIn x <> text0) ->
  keeps (J b) other any (reminders sink uid u0 now (dt_date now) today_times).
Proof.
  intros H1 H2 H3 H4 H5 H6. unfold reminders.
  destruct today_times as [[sah_t ift_t]|]; [|now apply keeps_ret].
  apply keeps_bind with (R := any); [now apply keeps_user_obj|].
  intros u1 _.
  apply keeps_bind with (R := any).
  { apply keeps_for_each. intros x _. now apply rule_iftar. }
  intros _ _.
  apply keeps_bind with (R := any); [now apply rule_iftar_now|].
  intros _ _.
  apply keeps_for_each. intros x _. now apply rule_saharlik.
Qed.

Lemma rule_other_user b uid' u0 today tmr today_times tomorrow_times :
  uid' <> uid ->
  keeps (J b) other any
    (notify_user sink time_file now today tmr today_times tomorrow_times (uid', u0)).
Proof.
  intros Ne.
  apply keeps_notify_user with (ok_key := any) (ok_msg := any);
    try (intros; exact Logic.I).
  - intros st [S T]. split; [now apply settled_other_get|now apply timed_get].
  - intros key' st _ [S T].
    split; [now apply settled_other_mark|now apply timed_mark].
  - intros chat text _ _ [E _]. now apply Ne.
Qed.

(** The check of the ledger for the notice itself. *)
Lemma rule_was_sent b w was w' :
  J b (w_store w) ->
  read_store (was_sent uid (dt_date now) key0) w = (Some was, w') ->
  was = b /\ J b (w_store w') /\ outbox w' = outbox w.
Proof.
  intros S E. apply was_sent_run in E. destruct E as [-> ->].
  destruct (steady_record _ _ _ _ _ _ S) as (u' & G & _ & _ & _ & _ & M).
  split; [unfold ledger_of; now rewrite G|].
  split; [now apply rule_get|reflexivity].
Qed.

(** The notice itself, sent and marked. *)
Lemma rule_send_mark b w w' :
  J b (w_store w) ->
  (send_message sink uid text0 ;;; write_store (mark_sent uid (dt_date now) key0)) w
  = (Some tt, w') ->
  J true (w_store w')
  /\ exists chat,
       py_int uid = Some chat /\ outbox w' = outbox w ++ [mksent uid chat text0].
Proof.
  intros S E. apply send_mark_run in E. destruct E as (chat & P & ->).
  split; [|eauto]. cbn [w_store].
  apply (rule_mark_any b key0) in S.
  now rewrite String.eqb_refl, orb_true_r in S.
Qed.

(** The step [if was then pass else if due then send and mark], after the
    check of the ledger. *)
Lemma rule_fire b (due : bool) w w' :
  J b (w_store w) ->
  (if b then ret tt
   else if due
        then send_message sink uid text0 ;;;
             write_store (mark_sent uid (dt_date now) key0)
        else ret tt) w = (Some tt, w') ->
  J (b || due) (w_store w') /\ fires_with uid text0 b due w w'.
Proof.
  intros S E. destruct b.
  - apply ret_run in E. subst w'. split; [assumption|].
    right. split; [apply andb_false_r|reflexivity].
  - destruct due.
    + apply (rule_send_mark false) in E; [|assumption]. destruct E as [S' F].
      split; [assumption|]. left. split; [reflexivity|assumption].
    + apply ret_run in E. subst w'. split; [assumption|].
      right. split; reflexivity.
Qed.

(** What the body of the loop did for [uid] with the notice, from before
    [w3] to after [w4]. *)
Definition rule_run (b due : bool) (w w' : world) : Prop :=
  exists w3 w4,
    grows other w w3
    /\ fires_with uid text0 b due w3 w4
    /\ grows other w4 w'
    /\ J (b || due) (w_store w').

Lemma rule_run_before b due w w1 w' :
  grows other w w1 -> rule_run b due w1 w' -> rule_run b due w w'.
Proof.
  intros G (w3 & w4 & G3 & F & G4 & S). exists w3, w4.
  split; [eapply grows_trans; eauto|auto].
Qed.

Lemma rule_run_after b due w w1 w' :
  rule_run b due w w1 ->
  (J (b || due) (w_store w1) -> J (b || due) (w_store w') /\ grows other w1 w') ->
  rule_run b due w w'.
Proof.
  intros (w3 & w4 & G3 & F & G4 & S) H. destruct (H S) as [S' G'].
  exists w3, w4. split; [assumption|]. split; [assumption|].
  split; [eapply grows_trans; eauto|assumption].
Qed.

Lemma rule_run_here b due w w' :
  J (b || due) (w_store w') -> fires_with uid text0 b due w w' -> rule_run b due w w'.
Proof.
  intros S F. exists w, w'.
  split; [apply grows_refl|]. split; [assumption|]. split; [apply grows_refl|assumption].
Qed.

(** The tick, when it raises nothing, from what the body of the loop does
    for [uid]. *)
Lemma rule_tick b due tmr w w' :
  next_day (dt_date now) = Some tmr ->
  (forall u0 w1 w2,
     J b (w_store w1) ->
     notify_user sink time_file now (dt_date now) tmr
       (load_day_times time_file (dt_date now)) (load_day_times time_file tmr)
       (uid, u0) w1 = (Some tt, w2) ->
     rule_run b due w1 w2) ->
  J b (w_store w) ->
  tick_body sink time_file now w = (Some tt, w') ->
  rule_run b due w w'.
Proof.
  intros Hn Hrun S E. unfold tick_body in E. rewrite Hn in E.
  apply bind_some in E. destruct E as (tmr' & w1 & E1 & E).
  unfold try_value in E1. injection E1 as <- <-.
  apply bind_some in E. destruct E as (items & w1 & E1 & E).
  injection E1 as <- <-.
  destruct (steady_record _ _ _ _ _ _ S) as (u1 & G & _).
  assert (W : dict_wf (users (w_store w))) by apply S.
  destruct (dict_get_split _ _ _ G) as (pre & post & Eu & Npre).
  assert (Npost : ~ In uid (dict_keys post)).
  { unfold dict_wf in W. rewrite Eu, dict_keys_app in W. simpl in W.
    apply NoDup_remove_2 in W. intros I. apply W, in_or_app. now right. }
  rewrite Eu in E. rewrite for_each_app in E.
  apply bind_some in E. destruct E as ([] & w1 & Ep & E).
  simpl in E.
  apply bind_some in E. destruct E as ([] & w2 & En & Eq).
  assert (K : forall b' items',
             ~ In uid (dict_keys items') ->
             keeps (J b') other any
               (for_each items'
                  (notify_user sink time_file now (dt_date now) tmr
                     (load_day_times time_file (dt_date now))
                     (load_day_times time_file tmr)))).
  { intros b' items' N. apply keeps_for_each. intros [uid' u0] Ix.
    apply rule_other_user. intros ->. apply N.
    change uid with (fst (uid, u0)). now apply in_map. }
  destruct (keeps_run _ _ _ _ _ _ _ (K b pre Npre) S Ep) as [S1 G1].
  apply (rule_run_before b due w w1 w' G1).
  apply (rule_run_after b due w1 w2 w' (Hrun u1 w1 w2 S1 En)).
  intros S2. exact (keeps_run _ _ _ _ _ _ _ (K _ post Npost) S2 Eq).
Qed.

End Rule.

(** A tick that raised nothing sent the notice [text] to [uid] once, among
    messages that are not this one, when [fire] holds, and did not send it
    otherwise. *)
Definition sent_once {L : PyLib} (uid : string) (text : message) (fire : bool)
    (w w' : world) : Prop :=
  exists before fired after,
    outbox w' = outbox w ++ before ++ fired ++ after
    /\ Forall (other_than uid text) before
    /\ Forall (other_than uid text) after
    /\ if fire
       then exists chat, py_int uid = Some chat /\ fired = [mksent uid chat text]
       else fired = [].

Lemma rule_outcome {L : PyLib} uid now key text u b due w w' :
  rule_run uid now key text u b due w w' ->
  sent_once uid text (due && negb b) w w'
  /\ fst (was_sent uid (dt_date now) key (w_store w')) = b || due.
Proof.
  intros (w3 & w4 & (n1 & E1 & F1) & F & (n2 & E2 & F2) & S).
  split.
  - destruct F as [(D & chat & Pc & Eo)|(D & Eo)]; rewrite D.
    + exists n1, [mksent uid chat text], n2.
      split; [rewrite E2, Eo, E1, <- !app_assoc; reflexivity|]. eauto.
    + exists n1, [], n2.
      split; [rewrite E2, Eo, E1, <- !app_assoc; reflexivity|]. auto.
  - destruct (steady_record _ _ _ _ _ _ S) as (u' & G & _ & _ & _ & _ & M).
    destruct (was_sent_spec uid (dt_date now) key (w_store w')) as [-> _].
    unfold ledger_of. now rewrite G.
Qed.

Lemma notify_user_phases {L : PyLib} sink time_file now today tmr today_times
    tomorrow_times uid u0 u' w w' :
  dict_get uid (users (w_store w)) = Some u' -> enabled u' = true ->
  notify_user sink time_file now today tmr today_times tomorrow_times (uid, u0) w
  = (Some tt, w') ->
  exists w1 w2,
    morning_digest sink time_file uid u0 now today today_times w = (Some tt, w1)
    /\ night_digest sink time_file uid u0 now today tmr tomorrow_times w1
       = (Some tt, w2)
    /\ reminders sink uid u0 now today today_times w2 = (Some tt, w').
Proof.
  intros G En E. unfold notify_user in E.
  apply bind_some in E. destruct E as (u1 & w1 & E1 & E).
  unfold user_obj in E1. rewrite G in E1. injection E1 as <- <-.
  rewrite En in E. simpl in E.
  apply bind_some in E. destruct E as ([] & w1 & Em & E).
  apply bind_some in E. destruct E as ([] & w2 & En' & E).
  eauto.
Qed.

Lemma reminders_phases {L : PyLib} sink now today sah ift uid u0 u' w w' :
  dict_get uid (users (w_store w)) = Some u' ->
  reminders sink uid u0 now today (Some (sah, ift)) w = (Some tt, w') ->
  exists w1 w2,
    for_each (iftar (preset_leads (preset u')))
      (iftar_reminder sink uid now today (combine today ift)) w = (Some tt, w1)
    /\ iftar_now sink uid now today (combine today ift) w1 = (Some tt, w2)
    /\ for_each (saharlik (preset_leads (preset u')))
         (saharlik_reminder sink uid now today (combine today sah)) w2
       = (Some tt, w').
Proof.
  intros G E. unfold reminders in E.
  apply bind_some in E. destruct E as (u1 & w1 & E1 & E).
  unfold user_obj in E1. rewrite G in E1. injection E1 as <- <-.
  apply bind_some in E. destruct E as ([] & w1 & Ei & E).
  apply bind_some in E. destruct E as ([] & w2 & En & E).
  eauto.
Qed.

Lemma fires_with_from {L : PyLib} uid text b due w0 w w' :
  outbox w = outbox w0 -> fires_with uid text b due w w' -> fires_with uid text b due w0 w'.
Proof. unfold fires_with. intros ->. auto. Qed.

(** The ledger key of the reminder [mins] minutes before the end of
    saharlik. *)
Definition saharlik_key (mins : Z) : string := "saharlik-" ++ PyStr.str_of_int mins.

Lemma saharlik_key_inj x y : saharlik_key x = saharlik_key y -> x = y.
Proof. intros E. now apply str_of_int_inj, (append_cancel "saharlik-"). Qed.

Lemma preset_leads_NoDup_saharlik name : NoDup (saharlik (preset_leads name)).
Proof.
  unfold preset_leads. simpl.
  destruct (name =? "full")%string; [|destruct (name =? "short")%string;
    [|destruct (name =? "minimal")%string]]; simpl;
    repeat (constructor; [simpl; intuition lia|]); constructor.
Qed.

(** The text of the morning digest and of the night digest. *)
Definition morning_text {L : PyLib} (time_file : option (list string)) (today : date)
    : message :=
  match load_day_times time_file today with
  | Some _ => MorningDigest (format_day_info time_file today)
  | None => MorningNotFound
  end.

Definition night_text {L : PyLib} (time_file : option (list string)) (tmr : date)
    : message :=
  match load_day_times time_file tmr with
  | Some _ => NightDigest (format_day_info time_file tmr)
  | None => NightNotFound
  end.

Section Notices.
Context {L : PyLib}.
Variable sink : Z -> message -> bool.
Variable time_file : option (list string).
Variable uid : string.
Variable now : datetime.
Variable u : UserSettings.

Local Abbreviation ds := (isoformat (dt_date now)).
Local Abbreviation today_times := (load_day_times time_file (dt_date now)).

(** *** The morning digest *)

Lemma morning_digest_step b u0 w w' :
  steady uid ds "morning" u b (w_store w) ->
  morning_digest sink time_file uid u0 now (dt_date now) today_times w = (Some tt, w') ->
  steady uid ds "morning" u (b || (strftime_HM now =? morning_time u)%string) (w_store w')
  /\ fires_with uid (morning_text time_file (dt_date now)) b
       (strftime_HM now =? morning_time u)%string w w'.
Proof.
  intros S E. unfold morning_digest in E.
  apply bind_some in E. destruct E as (u1 & w1 & E1 & E).
  destruct (steady_record _ _ _ _ _ _ S) as (u' & G & _ & _ & Mo & _ & _).
  unfold user_obj in E1. rewrite G in E1. injection E1 as <- <-.
  rewrite Mo in E.
  destruct (strftime_HM now =? morning_time u)%string.
  - apply bind_some in E. destruct E as (was & w1 & E1 & E).
    apply (rule_was_sent uid now "morning" u b) in E1; [|assumption].
    destruct E1 as (-> & S1 & O1).
    apply (rule_fire sink uid now "morning" (morning_text time_file (dt_date now))
             u b true) in E; [|assumption].
    destruct E as [S2 F]. split; [assumption|].
    now apply (fires_with_from _ _ _ _ w w1).
  - apply ret_run in E. subst w'. rewrite orb_false_r. split; [assumption|].
    right. split; reflexivity.
Qed.

Lemma morning_notify_user b u0 tmr w w' :
  steady uid ds "morning" u b (w_store w) ->
  notify_user sink time_file now (dt_date now) tmr today_times
    (load_day_times time_file tmr) (uid, u0) w = (Some tt, w') ->
  rule_run uid now "morning" (morning_text time_file (dt_date now)) u b
    (strftime_HM now =? morning_time u)%string w w'.
Proof.
  intros S E.
  destruct (steady_record _ _ _ _ _ _ S) as (u' & G & En & _).
  destruct (notify_user_phases _ _ _ _ _ _ _ _ _ _ _ _ G En E)
    as (w1 & w2 & Em & Ei & Er).
  destruct (morning_digest_step b u0 w w1 S Em) as [S1 F].
  apply rule_run_after with (w1 := w2).
  - apply rule_run_after with (w1 := w1); [now apply rule_run_here|].
    intros S1'. refine (keeps_run _ _ _ _ _ _ _ _ S1' Ei).
    apply rule_night; [discriminate|].
    unfold morning_text. destruct (load_day_times time_file tmr), today_times; discriminate.
  - intros S2. refine (keeps_run _ _ _ _ _ _ _ _ S2 Er).
    unfold morning_text.
    apply rule_reminders;
      first [ discriminate
            | intros x E'; now apply (iftar_key_not_morning x)
            | intros x; destruct today_times; discriminate
            | destruct today_times; discriminate
            | intros x; generalize (PyStr.str_of_int x); intros s; discriminate ].
Qed.

(** *** The night digest *)

Lemma night_digest_step b u0 tmr w w' :
  steady uid ds "night" u b (w_store w) ->
  night_digest sink time_file uid u0 now (dt_date now) tmr
    (load_day_times time_file tmr) w = (Some tt, w') ->
  steady uid ds "night" u (b || (strftime_HM now =? night_time u)%string) (w_store w')
  /\ fires_with uid (night_text time_file tmr) b
       (strftime_HM now =? night_time u)%string w w'.
Proof.
  intros S E. unfold night_digest in E.
  apply bind_some in E. destruct E as (u1 & w1 & E1 & E).
  destruct (steady_record _ _ _ _ _ _ S) as (u' & G & _ & _ & _ & Ni & _).
  unfold user_obj in E1. rewrite G in E1. injection E1 as <- <-.
  rewrite Ni in E.
  destruct (strftime_HM now =? night_time u)%string.
  - apply bind_some in E. destruct E as (was & w1 & E1 & E).
    apply (rule_was_sent uid now "night" u b) in E1; [|assumption].
    destruct E1 as (-> & S1 & O1).
    apply (rule_fire sink uid now "night" (night_text time_file tmr) u b true) in E;
      [|assumption].
    destruct E as [S2 F]. split; [assumption|].
    now apply (fires_with_from _ _ _ _ w w1).
  - apply ret_run in E. subst w'. rewrite orb_false_r. split; [assumption|].
    right. split; reflexivity.
Qed.

Lemma night_notify_user b u0 tmr w w' :
  steady uid ds "night" u b (w_store w) ->
  notify_user sink time_file now (dt_date now) tmr today_times
    (load_day_times time_file tmr) (uid, u0) w = (Some tt, w') ->
  rule_run uid now "night" (night_text time_file tmr) u b
    (strftime_HM now =? night_time u)%string w w'.
Proof.
  intros S E.
  destruct (steady_record _ _ _ _ _ _ S) as (u' & G & En & _).
  destruct (notify_user_phases _ _ _ _ _ _ _ _ _ _ _ _ G En E)
    as (w1 & w2 & Em & Ei & Er).
  assert (Km : keeps (steady uid ds "night" u b)
                 (other_than uid (night_text time_file tmr)) any
                 (morning_digest sink time_file uid u0 now (dt_date now) today_times)).
  { apply rule_morning; [discriminate|].
    unfold night_text. destruct (load_day_times time_file tmr), today_times; discriminate. }
  destruct (keeps_run _ _ _ _ _ _ _ Km S Em) as [S1 G1].
  destruct (night_digest_step b u0 tmr w1 w2 S1 Ei) as [S2 F].
  apply rule_run_before with (w1 := w1); [assumption|].
  apply rule_run_after with (w1 := w2); [now apply rule_run_here|].
  intros S2'. refine (keeps_run _ _ _ _ _ _ _ _ S2' Er).
  unfold night_text.
  apply rule_reminders;
    first [ discriminate
          | intros x E'; now apply (iftar_key_not_night x)
          | intros x; destruct (load_day_times time_file tmr); discriminate
          | destruct (load_day_times time_file tmr); discriminate
          | intros x; generalize (PyStr.str_of_int x); intros s; discriminate ].
Qed.

(** *** The notice at iftar *)

Lemma iftar_now_step b ift_dt w w' :
  steady uid ds "iftar-now" u b (w_store w) ->
  iftar_now sink uid now (dt_date now) ift_dt w = (Some tt, w') ->
  steady uid ds "iftar-now" u (b || due_at (instant ift_dt) (instant now)) (w_store w')
  /\ fires_with uid IftarNow b (due_at (instant ift_dt) (instant now)) w w'.
Proof.
  intros S E. unfold iftar_now in E.
  apply bind_some in E. destruct E as (was & w1 & E1 & E).
  apply (rule_was_sent uid now "iftar-now" u b) in E1; [|assumption].
  destruct E1 as (-> & S1 & O1).
  assert (R : (if b then ret tt
               else if due_at (instant ift_dt) (instant now)
                    then send_message sink uid IftarNow ;;;
                         write_store (mark_sent uid (dt_date now) "iftar-now")
                    else ret tt) w1 = (Some tt, w')).
  { destruct b; [exact E|].
    apply bind_some in E. destruct E as (due & w2 & E2 & E).
    apply in_window_run in E2. destruct E2 as [-> ->]. exact E. }
  apply (rule_fire sink uid now "iftar-now" IftarNow u b) in R; [|assumption].
  destruct R as [S2 F]. split; [assumption|].
  now apply (fires_with_from _ _ _ _ w w1).
Qed.

Lemma iftar_now_notify_user b u0 tmr sah ift tomorrow_times w w' :
  steady uid ds "iftar-now" u b (w_store w) ->
  notify_user sink time_file now (dt_date now) tmr (Some (sah, ift))
    tomorrow_times (uid, u0) w = (Some tt, w') ->
  rule_run uid now "iftar-now" IftarNow u b
    (due_at (instant (combine (dt_date now) ift)) (instant now)) w w'.
Proof.
  intros S E.
  destruct (steady_record _ _ _ _ _ _ S) as (u' & G & En & _).
  destruct (notify_user_phases _ _ _ _ _ _ _ _ _ _ _ _ G En E)
    as (w1 & w2 & Em & Ei & Er).
  assert (Km : keeps (steady uid ds "iftar-now" u b) (other_than uid IftarNow) any
                 (morning_digest sink time_file uid u0 now (dt_date now)
                    (Some (sah, ift)))).
  { apply rule_morning; discriminate. }
  destruct (keeps_run _ _ _ _ _ _ _ Km S Em) as [S1 G1].
  assert (Kn : keeps (steady uid ds "iftar-now" u b) (other_than uid IftarNow) any
                 (night_digest sink time_file uid u0 now (dt_date now) tmr
                    tomorrow_times)).
  { apply rule_night; [discriminate|]. destruct tomorrow_times; discriminate. }
  destruct (keeps_run _ _ _ _ _ _ _ Kn S1 Ei) as [S2 G2].
  destruct (steady_record _ _ _ _ _ _ S2) as (u2 & G2' & _ & P2 & _).
  destruct (reminders_phases _ _ _ _ _ _ _ _ _ _ G2' Er) as (w3 & w4 & Ea & Eb & Ec).
  assert (Ka : keeps (steady uid ds "iftar-now" u b) (other_than uid IftarNow) any
                 (for_each (iftar (preset_leads (preset u2)))
                    (iftar_reminder sink uid now (dt_date now)
                       (combine (dt_date now) ift)))).
  { apply keeps_for_each. intros x _. apply rule_iftar; [|discriminate].
    intros E'. now apply (iftar_key_not_now x). }
  destruct (keeps_run _ _ _ _ _ _ _ Ka S2 Ea) as [S3 G3].
  destruct (iftar_now_step b _ w3 w4 S3 Eb) as [S4 F].
  apply rule_run_before with (w1 := w3);
    [eauto using grows_trans|].
  apply rule_run_after with (w1 := w4); [now apply rule_run_here|].
  intros S4'. refine (keeps_run _ _ _ _ _ _ _ _ S4' Ec).
  apply keeps_for_each. intros x _. apply rule_saharlik; [|discriminate].
  generalize (PyStr.str_of_int x). intros s. discriminate.
Qed.

(** *** The reminder before the end of saharlik *)

Lemma saharlik_reminder_step m b sah_dt w w' :
  steady uid ds (saharlik_key m) u b (w_store w) ->
  saharlik_reminder sink uid now (dt_date now) sah_dt m w = (Some tt, w') ->
  steady uid ds (saharlik_key m) u
    (b || due_at (instant sah_dt - m * 60000000) (instant now)) (w_store w')
  /\ fires_with uid (SaharlikIn m) b
       (due_at (instant sah_dt - m * 60000000) (instant now)) w w'.
Proof.
  intros S E. unfold saharlik_reminder in E. fold (saharlik_key m) in E.
  apply bind_some in E. destruct E as (was & w1 & E1 & E).
  apply (rule_was_sent uid now (saharlik_key m) u b) in E1; [|assumption].
  destruct E1 as (-> & S1 & O1).
  assert (R : (if b then ret tt
               else if due_at (instant sah_dt - m * 60000000) (instant now)
                    then send_message sink uid (SaharlikIn m) ;;;
                         write_store (mark_sent uid (dt_date now) (saharlik_key m))
                    else ret tt) w1 = (Some tt, w')).
  { destruct b; [exact E|].
    apply bind_some in E. destruct E as (trigger & w2 & E2 & E).
    unfold try_value in E2. injection E2 as E2 <-.
    apply plus_minutes_some in E2.
    replace (instant sah_dt + - m * 60000000)
      with (instant sah_dt - m * 60000000) in E2 by lia.
    subst trigger.
    apply bind_some in E. destruct E as (due & w2 & E2 & E).
    apply in_window_run in E2. destruct E2 as [-> ->]. exact E. }
  apply (rule_fire sink uid now (saharlik_key m) (SaharlikIn m) u b) in R;
    [|assumption].
  destruct R as [S2 F]. split; [assumption|].
  now apply (fires_with_from _ _ _ _ w w1).
Qed.

Lemma saharlik_notify_user m b u0 tmr sah ift tomorrow_times w w' :
  steady uid ds (saharlik_key m) u b (w_store w) ->
  In m (saharlik (preset_leads (preset u))) ->
  notify_user sink time_file now (dt_date now) tmr (Some (sah, ift))
    tomorrow_times (uid, u0) w = (Some tt, w') ->
  rule_run uid now (saharlik_key m) (SaharlikIn m) u b
    (due_at (instant (combine (dt_date now) sah) - m * 60000000) (instant now)) w w'.
Proof.
  intros S Im E.
  assert (Ns : forall s, "morning" <> ("saharlik-" ++ s)%string
                         /\ "night" <> ("saharlik-" ++ s)%string
                         /\ "iftar-now" <> ("saharlik-" ++ s)%string).
  { intros s. repeat split; discriminate. }
  destruct (Ns (PyStr.str_of_int m)) as (N1 & N2 & N3).
  destruct (steady_record _ _ _ _ _ _ S) as (u' & G & En & _).
  destruct (notify_user_phases _ _ _ _ _ _ _ _ _ _ _ _ G En E)
    as (w1 & w2 & Em & Ei & Er).
  assert (Km : keeps (steady uid ds (saharlik_key m) u b)
                 (other_than uid (SaharlikIn m)) any
                 (morning_digest sink time_file uid u0 now (dt_date now)
                    (Some (sah, ift)))).
  { apply rule_morning; [exact N1|discriminate]. }
  destruct (keeps_run _ _ _ _ _ _ _ Km S Em) as [S1 G1].
  assert (Kn : keeps (steady uid ds (saharlik_key m) u b)
                 (other_than uid (SaharlikIn m)) any
                 (night_digest sink time_file uid u0 now (dt_date now) tmr
                    tomorrow_times)).
  { apply rule_night; [exact N2|]. destruct tomorrow_times; discriminate. }
  destruct (keeps_run _ _ _ _ _ _ _ Kn S1 Ei) as [S2 G2].
  destruct (steady_record _ _ _ _ _ _ S2) as (u2 & G2' & _ & P2 & _).
  destruct (reminders_phases _ _ _ _ _ _ _ _ _ _ G2' Er) as (w3 & w4 & Ea & Eb & Ec).
  rewrite P2 in Ec.
  assert (Ka : keeps (steady uid ds (saharlik_key m) u b)
                 (other_than uid (SaharlikIn m)) any
                 (for_each (iftar (preset_leads (preset u2)))
                    (iftar_reminder sink uid now (dt_date now)
                       (combine (dt_date now) ift)))).
  { apply keeps_for_each. intros x _. apply rule_iftar; [|discriminate].
    intros E'. symmetry in E'. now apply (iftar_key_not_saharlik x m). }
  destruct (keeps_run _ _ _ _ _ _ _ Ka S2 Ea) as [S3 G3].
  assert (Kb : keeps (steady uid ds (saharlik_key m) u b)
                 (other_than uid (SaharlikIn m)) any
                 (iftar_now sink uid now (dt_date now) (combine (dt_date now) ift))).
  { apply rule_iftar_now; [exact N3|discriminate]. }
  destruct (keeps_run _ _ _ _ _ _ _ Kb S3 Eb) as [S4 G4].
  assert (Nd := preset_leads_NoDup_saharlik (preset u)).
  destruct (in_split _ _ Im) as (l1 & l2 & El). rewrite El in Ec, Nd.
  apply NoDup_remove_2 in Nd.
  rewrite for_each_app in Ec.
  apply bind_some in Ec. destruct Ec as ([] & w5 & Ec1 & Ec).
  simpl in Ec.
  apply bind_some in Ec. destruct Ec as ([] & w6 & Ec2 & Ec3).
  assert (Kc : forall b' l,
             (forall x, In x l -> x <> m) ->
             keeps (steady uid ds (saharlik_key m) u b')
               (other_than uid (SaharlikIn m)) any
               (for_each l (saharlik_reminder sink uid now (dt_date now)
                              (combine (dt_date now) sah)))).
  { intros b' l Hl. apply keeps_for_each. intros x Ix. apply rule_saharlik.
    - intros E'. apply (Hl x Ix). now apply saharlik_key_inj.
    - intros [= E']. now apply (Hl x Ix). }
  destruct (keeps_run _ _ _ _ _ _ _
              (Kc b l1 ltac:(intros x Ix ->; apply Nd, in_or_app; now left)) S4 Ec1)
    as [S5 G5].
  destruct (saharlik_reminder_step m b _ w5 w6 S5 Ec2) as [S6 F].
  apply rule_run_before with (w1 := w5);
    [eauto using grows_trans|].
  apply rule_run_after with (w1 := w6); [now apply rule_run_here|].
  intros S6'.
  exact (keeps_run _ _ _ _ _ _ _
           (Kc _ l2 ltac:(intros x Ix ->; apply Nd, in_or_app; now right)) S6' Ec3).
Qed.

End Notices.

Lemma tick_body_tomorrow {L : PyLib} sink time_file now w w' :
  tick_body sink time_file now w = (Some tt, w') ->
  exists tmr, next_day (dt_date now) = Some tmr.
Proof.
  unfold tick_body, bind, try_value.
  destruct (next_day (dt_date now)) as [tmr|]; [eauto|discriminate].
Qed.

(** X13. The morning digest goes out once. In a tick that raises
    nothing, for an enabled user of a store with distinct uids whose ledger
    has distinct days and keeps today when pruned: the user gets the digest
    of the morning (the times of today, or the text that today has no entry)
    exactly when the clock of the tick reads the [morning_time] of the
    record and ["morning"] is not marked for today, and then once; and
    ["morning"] is marked for today afterwards if it was before or the clock
    matched, so a later tick of the same minute sends nothing. *)
Theorem morning_digest_sent_once {L : PyLib} (sink : Z -> message -> bool)
    (time_file : option (list string)) (now : datetime) (w w' : world)
    (uid : string) (u : UserSettings) :
  tick_body sink time_file now w = (Some tt, w') ->
  dict_wf (users (w_store w)) ->
  dict_get uid (users (w_store w)) = Some u ->
  enabled u = true ->
  dict_wf (sent_keys u) ->
  recent (isoformat (dt_date now)) (sent_keys u) ->
  sent_once uid (morning_text time_file (dt_date now))
    ((strftime_HM now =? morning_time u)%string
     && negb (marked (isoformat (dt_date now)) "morning" (sent_keys u))) w w'
  /\ fst (was_sent uid (dt_date now) "morning" (w_store w'))
     = marked (isoformat (dt_date now)) "morning" (sent_keys u)
       || (strftime_HM now =? morning_time u)%string.
Proof.
  intros E W G En Wl R.
  destruct (tick_body_tomorrow _ _ _ _ _ E) as (tmr & N).
  apply rule_outcome with (u := u).
  apply (rule_tick sink time_file uid now "morning" _ u _ _ tmr w w' N); auto.
  - intros u0 w1 w2. apply morning_notify_user.
  - now apply steady_start.
Qed.

(** X14. The night digest goes out once. In a tick that raises
    nothing, for an enabled user as in X13: the user gets the digest of the
    night (the times of tomorrow, or the text that tomorrow has no entry)
    exactly when the clock of the tick reads the [night_time] of the record
    and ["night"] is not marked for today, and then once; ["night"] is
    marked for today afterwards if it was before or the clock matched. *)
Theorem night_digest_sent_once {L : PyLib} (sink : Z -> message -> bool)
    (time_file : option (list string)) (now : datetime) (w w' : world)
    (uid : string) (u : UserSettings) :
  tick_body sink time_file now w = (Some tt, w') ->
  dict_wf (users (w_store w)) ->
  dict_get uid (users (w_store w)) = Some u ->
  enabled u = true ->
  dict_wf (sent_keys u) ->
  recent (isoformat (dt_date now)) (sent_keys u) ->
  exists tmr,
    next_day (dt_date now) = Some tmr
    /\ sent_once uid (night_text time_file tmr)
         ((strftime_HM now =? night_time u)%string
          && negb (marked (isoformat (dt_date now)) "night" (sent_keys u))) w w'
    /\ fst (was_sent uid (dt_date now) "night" (w_store w'))
       = marked (isoformat (dt_date now)) "night" (sent_keys u)
         || (strftime_HM now =? night_time u)%string.
Proof.
  intros E W G En Wl R.
  destruct (tick_body_tomorrow _ _ _ _ _ E) as (tmr & N).
  exists tmr. split; [exact N|].
  apply rule_outcome with (u := u).
  apply (rule_tick sink time_file uid now "night" _ u _ _ tmr w w' N); auto.
  - intros u0 w1 w2. apply night_notify_user.
  - now apply steady_start.
Qed.

(** X15. The notice at iftar goes out once. In a tick that raises nothing,
    on a day that has an entry, for an enabled user as in X13: the user gets
    the notice that iftar has come exactly when the instant of the tick is
    in the minute that starts at the iftar time of today and ["iftar-now"]
    is not marked for today, and then once; ["iftar-now"] is marked for
    today afterwards if it was before or the tick was in that minute. *)
Theorem iftar_now_sent_once {L : PyLib} (sink : Z -> message -> bool)
    (time_file : option (list string)) (now : datetime) (w w' : world)
    (uid : string) (u : UserSettings) (sah ift : dtime) :
  tick_body sink time_file now w = (Some tt, w') ->
  dict_wf (users (w_store w)) ->
  dict_get uid (users (w_store w)) = Some u ->
  enabled u = true ->
  load_day_times time_file (dt_date now) = Some (sah, ift) ->
  dict_wf (sent_keys u) ->
  recent (isoformat (dt_date now)) (sent_keys u) ->
  sent_once uid IftarNow
    (due_at (instant (combine (dt_date now) ift)) (instant now)
     && negb (marked (isoformat (dt_date now)) "iftar-now" (sent_keys u))) w w'
  /\ fst (was_sent uid (dt_date now) "iftar-now" (w_store w'))
     = marked (isoformat (dt_date now)) "iftar-now" (sent_keys u)
       || due_at (instant (combine (dt_date now) ift)) (instant now).
Proof.
  intros E W G En T Wl R.
  destruct (tick_body_tomorrow _ _ _ _ _ E) as (tmr & N).
  apply rule_outcome with (u := u).
  apply (rule_tick sink time_file uid now "iftar-now" _ u _ _ tmr w w' N); auto.
  - intros u0 w1 w2. rewrite T. apply iftar_now_notify_user.
  - now apply steady_start.
Qed.

(** X16. A reminder before the end of saharlik goes out once. In a tick
    that raises nothing, on a day that has an entry, for an enabled user as
    in X13 and a lead [m] of the saharlik list of its preset: the user gets
    the reminder of [m] minutes exactly when the instant of the tick is in
    the minute that starts [m] minutes before the saharlik time of today and
    the key [saharlik-m] is not marked for today, and then once; the key is
    marked for today afterwards if it was before or the tick was in that
    minute. *)
Theorem saharlik_reminder_sent_once {L : PyLib} (sink : Z -> message -> bool)
    (time_file : option (list string)) (now : datetime) (w w' : world)
    (uid : string) (u : UserSettings) (sah ift : dtime) (m : Z) :
  tick_body sink time_file now w = (Some tt, w') ->
  dict_wf (users (w_store w)) ->
  dict_get uid (users (w_store w)) = Some u ->
  enabled u = true ->
  load_day_times time_file (dt_date now) = Some (sah, ift) ->
  In m (saharlik (preset_leads (preset u))) ->
  dict_wf (sent_keys u) ->
  recent (isoformat (dt_date now)) (sent_keys u) ->
  sent_once uid (SaharlikIn m)
    (due_at (instant (combine (dt_date now) sah) - m * 60000000) (instant now)
     && negb (marked (isoformat (dt_date now)) (saharlik_key m) (sent_keys u))) w w'
  /\ fst (was_sent uid (dt_date now) (saharlik_key m) (w_store w'))
     = marked (isoformat (dt_date now)) (saharlik_key m) (sent_keys u)
       || due_at (instant (combine (dt_date now) sah) - m * 60000000) (instant now).
Proof.
  intros E W G En T Im Wl R.
  destruct (tick_body_tomorrow _ _ _ _ _ E) as (tmr & N).
  apply rule_outcome with (u := u).
  apply (rule_tick sink time_file uid now (saharlik_key m) _ u _ _ tmr w w' N); auto.
  - intros u0 w1 w2 S. rewrite T. now apply saharlik_notify_user.
  - now apply steady_start.
Qed.

Lemma morning_digest_sent_once_witness :
  fst (was_sent "7" (mkdate 2024 3 5) "morning"
         (w_store (tick (fun _ _ => true) march_fifth
                     (mkdatetime (mkdate 2024 3 5) 8 30 5 0) fresh_world)))
  = true.
Proof.
  destruct (@morning_digest_sent_once strict_lib (fun _ _ => true) march_fifth
              (mkdatetime (mkdate 2024 3 5) 8 30 5 0) fresh_world
              (tick (fun _ _ => true) march_fifth
                 (mkdatetime (mkdate 2024 3 5) 8 30 5 0) fresh_world)
              "7" new_user)
    as (_ & H).
  - reflexivity.
  - repeat constructor. simpl. tauto.
  - reflexivity.
  - reflexivity.
  - constructor.
  - unfold recent. simpl. lia.
  - etransitivity; [exact H|]. reflexivity.
Defined.

Lemma night_digest_sent_once_witness :
  fst (was_sent "7" (mkdate 2024 3 5) "night"
         (w_store (tick (fun _ _ => true) march_fifth
                     (mkdatetime (mkdate 2024 3 5) 22 0 5 0) fresh_world)))
  = true.
Proof.
  destruct (@night_digest_sent_once strict_lib (fun _ _ => true) march_fifth
              (mkdatetime (mkdate 2024 3 5) 22 0 5 0) fresh_world
              (tick (fun _ _ => true) march_fifth
                 (mkdatetime (mkdate 2024 3 5) 22 0 5 0) fresh_world)
              "7" new_user)
    as (tmr & _ & _ & H).
  - reflexivity.
  - repeat constructor. simpl. tauto.
  - reflexivity.
  - reflexivity.
  - constructor.
  - unfold recent. simpl. lia.
  - etransitivity; [exact H|]. reflexivity.
Defined.

Lemma iftar_now_sent_once_witness :
  fst (was_sent "7" (mkdate 2024 3 5) "iftar-now"
         (w_store (tick (fun _ _ => true) march_fifth
                     (mkdatetime (mkdate 2024 3 5) 18 0 20 0) fresh_world)))
  = true.
Proof.
  destruct (@iftar_now_sent_once strict_lib (fun _ _ => true) march_fifth
              (mkdatetime (mkdate 2024 3 5) 18 0 20 0) fresh_world
              (tick (fun _ _ => true) march_fifth
                 (mkdatetime (mkdate 2024 3 5) 18 0 20 0) fresh_world)
              "7" new_user (mktime 5 0) (mktime 18 0))
    as (_ & H).
  - reflexivity.
  - repeat constructor. simpl. tauto.
  - reflexivity.
  - reflexivity.
  - reflexivity.
  - constructor.
  - unfold recent. simpl. lia.
  - etransitivity; [exact H|]. reflexivity.
Defined.

Lemma saharlik_reminder_sent_once_witness :
  fst (was_sent "7" (mkdate 2024 3 5) (saharlik_key 5)
         (w_store (tick (fun _ _ => true) march_fifth
                     (mkdatetime (mkdate 2024 3 5) 4 55 40 0) fresh_world)))
  = true.
Proof.
  destruct (@saharlik_reminder_sent_once strict_lib (fun _ _ => true) march_fifth
              (mkdatetime (mkdate 2024 3 5) 4 55 40 0) fresh_world
              (tick (fun _ _ => true) march_fifth
                 (mkdatetime (mkdate 2024 3 5) 4 55 40 0) fresh_world)
              "7" new_user (mktime 5 0) (mktime 18 0) 5)
    as (_ & H).
  - reflexivity.
  - repeat constructor. simpl. tauto.
  - reflexivity.
  - reflexivity.
  - reflexivity.
  - simpl. tauto.
  - constructor.
  - unfold recent. simpl. lia.
  - etransitivity; [exact H|]. reflexivity.
Defined.

(** ** The loop: the edges of the day and of the calendar *)

Lemma not_due_over_midnight today t m now :
  dt_date now = today ->
  0 <= dt_hour now -> 0 <= dt_minute now -> 0 <= dt_second now ->
  0 <= dt_microsecond now ->
  hour t * 60 + minute t < m ->
  due_at (instant (combine today t) - m * 60000000) (instant now) = false.
Proof.
  intros <- Hh Hm Hs Hu Lt. unfold due_at, instant, combine.
  cbn [dt_date dt_hour dt_minute dt_second dt_microsecond].
  apply andb_false_iff. right. apply Z.ltb_ge.
  generalize (toordinal (dt_date now)). intros o. lia.
Qed.

Section OverMidnight.
Context {L : PyLib}.
Variable sink : Z -> message -> bool.
Variable time_file : option (list string).

Lemma keeps_window_closed (phi : sent -> Prop) (send_it : T unit) uid today key
    t m now :
  due_at (t - m * 60000000) now = false ->
  keeps any phi any
    (was <- read_store (was_sent uid today key) ;;
     if was then ret tt
     else
       trigger <- try_value (plus_minutes t (- m)) ;;
       due <- in_window trigger now ;;
       if due then send_it else ret tt).
Proof.
  intros Nd.
  apply keeps_bind with (R := any).
  { apply keeps_read_store. intros st _. split; exact Logic.I. }
  intros was _. destruct was; [now apply keeps_ret|].
  apply keeps_bind with (R := fun trigger => trigger = t - m * 60000000).
  { apply keeps_try_value. intros a E. apply plus_minutes_some in E. lia. }
  intros trigger ->.
  apply keeps_bind
    with (R := fun due => due = true ->
                 t - m * 60000000 <= now < t - m * 60000000 + 60000000).
  { apply keeps_in_window. }
  intros due Hd. destruct due; [|now apply keeps_ret].
  exfalso. specialize (Hd eq_refl). unfold due_at in Nd.
  apply andb_false_iff in Nd.
  destruct Nd as [Nd|Nd]; [apply Z.leb_gt in Nd|apply Z.ltb_ge in Nd]; lia.
Qed.

Lemma never_phi (phi : sent -> Prop) (ok : message -> Prop) uid :
  (forall e, ok (body e) -> phi e) ->
  forall chat text, py_int uid = Some chat -> ok text -> phi (mksent uid chat text).
Proof. intros H chat text _ O. now apply H. Qed.

(** The body of the loop sends no message of the kind [bad], when the
    windows of the reminders of that kind are closed. *)
Lemma never_notify_user (bad : message -> Prop) now tmr sah ift tomorrow_times item :
  (forall info, ~ bad (MorningDigest info)) -> ~ bad MorningNotFound ->
  (forall info, ~ bad (NightDigest info)) -> ~ bad NightNotFound ->
  ~ bad IftarNow ->
  (forall x, bad (IftarIn x) ->
     due_at (instant (combine (dt_date now) ift) - x * 60000000) (instant now) = false) ->
  (forall x, bad (SaharlikIn x) ->
     due_at (instant (combine (dt_date now) sah) - x * 60000000) (instant now) = false) ->
  (forall text, bad text \/ ~ bad text) ->
  keeps any (fun e => ~ bad (body e)) any
    (notify_user sink time_file now (dt_date now) tmr (Some (sah, ift))
       tomorrow_times item).
Proof.
  intros Hm Hm' Hn Hn' Hnow Hi Hs Dec. destruct item as [uid u0].
  assert (P : forall chat text,
             py_int uid = Some chat -> ~ bad text ->
             ~ bad (body (mksent uid chat text))) by (intros; assumption).
  unfold notify_user.
  apply keeps_bind with (R := any); [now apply keeps_user_obj|].
  intros u1 _. destruct (negb (enabled u1)); [now apply keeps_ret|].
  apply keeps_bind with (R := any).
  { apply keeps_morning_digest with (ok_key := any) (ok_msg := fun t => ~ bad t);
      try (intros; exact Logic.I); auto. }
  intros _ _.
  apply keeps_bind with (R := any).
  { apply keeps_night_digest with (ok_key := any) (ok_msg := fun t => ~ bad t);
      try (intros; exact Logic.I); auto.
    destruct tomorrow_times; auto. }
  intros _ _. unfold reminders.
  apply keeps_bind with (R := any); [now apply keeps_user_obj|].
  intros u2 _.
  apply keeps_bind with (R := any).
  { apply keeps_for_each. intros x _.
    destruct (Dec (IftarIn x)) as [B|B].
    - apply keeps_window_closed. replace (- - x) with x by lia. now apply Hi.
    - apply keeps_iftar_reminder with (ok_key := any) (ok_msg := fun t => ~ bad t);
        try (intros; exact Logic.I); auto. }
  intros _ _.
  apply keeps_bind with (R := any).
  { apply keeps_iftar_now with (ok_key := any) (ok_msg := fun t => ~ bad t);
      try (intros; exact Logic.I); auto. }
  intros _ _.
  apply keeps_for_each. intros x _.
  destruct (Dec (SaharlikIn x)) as [B|B].
  - apply keeps_window_closed. now apply Hs.
  - apply keeps_saharlik_reminder with (ok_key := any) (ok_msg := fun t => ~ bad t);
      try (intros; exact Logic.I); auto.
Qed.

Lemma never_tick (bad : message -> Prop) now sah ift w :
  load_day_times time_file (dt_date now) = Some (sah, ift) ->
  (forall info, ~ bad (MorningDigest info)) -> ~ bad MorningNotFound ->
  (forall info, ~ bad (NightDigest info)) -> ~ bad NightNotFound ->
  ~ bad IftarNow ->
  (forall x, bad (IftarIn x) ->
     due_at (instant (combine (dt_date now) ift) - x * 60000000) (instant now) = false) ->
  (forall x, bad (SaharlikIn x) ->
     due_at (instant (combine (dt_date now) sah) - x * 60000000) (instant now) = false) ->
  (forall text, bad text \/ ~ bad text) ->
  grows (fun e => ~ bad (body e)) w (tick sink time_file now w).
Proof.
  intros T Hm Hm' Hn Hn' Hnow Hi Hs Dec. unfold tick.
  destruct (keeps_tick_body sink time_file any (fun e => ~ bad (body e)) now)
    with (w := w) as (_ & G & _); [|exact Logic.I|exact G].
  intros tmr item. rewrite T. now apply never_notify_user.
Qed.

End OverMidnight.

Lemma message_eq_dec (a b : message) : a = b \/ a <> b.
Proof.
  assert (Dd : forall x y : dtime, {x = y} + {x <> y}).
  { decide equality; apply Z.eq_dec. }
  assert (Da : forall x y : date, {x = y} + {x <> y}).
  { decide equality; apply Z.eq_dec. }
  assert (Di : forall x y : day_info, {x = y} + {x <> y}).
  { decide equality. }
  assert (D : {a = b} + {a <> b}).
  { decide equality; apply Z.eq_dec. }
  destruct D; auto.
Qed.

(** X17. A reminder whose lead reaches back over midnight is never sent.
    The loop looks for the window of a reminder only on the day of the
    event: in a tick of a day whose entry has the saharlik time less than
    [m] minutes after midnight, no reminder of [m] minutes before the end of
    saharlik is sent, whatever the store holds; and the same for the iftar
    time and the reminder of [m] minutes before iftar. *)
Theorem reminder_over_midnight_never_sent {L : PyLib} (sink : Z -> message -> bool)
    (time_file : option (list string)) (now : datetime) (w : world)
    (sah ift : dtime) (m : Z) :
  load_day_times time_file (dt_date now) = Some (sah, ift) ->
  0 <= dt_hour now -> 0 <= dt_minute now -> 0 <= dt_second now ->
  0 <= dt_microsecond now ->
  (hour sah * 60 + minute sah < m ->
   exists new,
     outbox (tick sink time_file now w) = outbox w ++ new
     /\ Forall (fun e => body e <> SaharlikIn m) new)
  /\ (hour ift * 60 + minute ift < m ->
      exists new,
        outbox (tick sink time_file now w) = outbox w ++ new
        /\ Forall (fun e => body e <> IftarIn m) new).
Proof.
  intros T Hh Hm Hs Hu. split; intros Lt.
  - apply (never_tick sink time_file (fun t => t = SaharlikIn m) now sah ift w T);
      try discriminate.
    + intros x [= ->]. now apply not_due_over_midnight.
    + intros text. apply message_eq_dec.
  - apply (never_tick sink time_file (fun t => t = IftarIn m) now sah ift w T);
      try discriminate.
    + intros x [= ->]. now apply not_due_over_midnight.
    + intros text. apply message_eq_dec.
Qed.

Lemma reminder_over_midnight_never_sent_witness :
  exists new,
    outbox (tick (fun _ _ => true) (Some ["2024-03-05;00:03;18:00"])
              (mkdatetime (mkdate 2024 3 5) 0 0 10 0) fresh_world)
    = outbox fresh_world ++ new
    /\ Forall (fun e => body e <> SaharlikIn 5) new.
Proof.
  destruct (@reminder_over_midnight_never_sent strict_lib (fun _ _ => true)
              (Some ["2024-03-05;00:03;18:00"])
              (mkdatetime (mkdate 2024 3 5) 0 0 10 0) fresh_world
              (mktime 0 3) (mktime 18 0) 5) as [H _].
  - reflexivity.
  - simpl; lia.
  - simpl; lia.
  - simpl; lia.
  - simpl; lia.
  - apply H. simpl. lia.
Defined.

(** X18. Tomorrow is the next day of the calendar. For a calendar date
    [today], the date [today + timedelta(days=1)] that the loop reads the
    entry of tomorrow at is a calendar date, comes after [today] and has the
    ordinal of [today] plus one; it fails to exist only on 9999-12-31, and
    a tick of that day raises before it visits any user: it sends nothing
    and leaves the store as it is. *)
Theorem tomorrow_is_next_day {L : PyLib} (sink : Z -> message -> bool)
    (time_file : option (list string)) (now : datetime) (w : world) :
  valid_date (dt_date now) = true ->
  (next_day (dt_date now) = None <-> dt_date now = mkdate 9999 12 31)
  /\ (forall tmr,
        next_day (dt_date now) = Some tmr ->
        valid_date tmr = true
        /\ toordinal tmr = toordinal (dt_date now) + 1
        /\ date_ltb (dt_date now) tmr = true)
  /\ (next_day (dt_date now) = None ->
      tick_body sink time_file now w = (None, w)
      /\ tick sink time_file now w = w).
Proof.
  intros V. split; [now apply next_day_none|]. split.
  - intros tmr E. destruct (next_day_spec _ _ V E) as [Vt O].
    split; [assumption|]. split; [assumption|].
    rewrite date_ltb_ordinal by assumption. apply Z.ltb_lt. lia.
  - intros E. unfold tick, tick_body, bind, try_value. rewrite E. auto.
Qed.

Lemma tomorrow_is_next_day_witness :
  next_day (mkdate 2024 2 28) = Some (mkdate 2024 2 29)
  /\ toordinal (mkdate 2024 2 29) = toordinal (mkdate 2024 2 28) + 1.
Proof.
  split; [reflexivity|].
  apply (@tomorrow_is_next_day strict_lib (fun _ _ => true) None
           (mkdatetime (mkdate 2024 2 28) 12 0 0 0) fresh_world eq_refl).
  reflexivity.
Defined.




(** ** The loop: no mark without a message *)

(** The ledger key that the loop marks for a message. *)
Definition key_of (text : message) : string :=
  match text with
  | MorningDigest _ | MorningNotFound => "morning"
  | NightDigest _ | NightNotFound => "night"
  | IftarIn m => iftar_key m
  | IftarNow => "iftar-now"
  | SaharlikIn m => saharlik_key m
  end.

(** The days of the ledger are pairwise distinct. *)
Definition wf_ledger (u : UserSettings) : Prop := dict_wf (sent_keys u).

(** Every key that is marked in [w] was marked in [w0] or is the key of a
    message delivered to its user since [w0]. *)
Definition backed (w0 w : world) : Prop :=
  every_user wf_ledger (w_store w)
  /\ exists new,
       outbox w = outbox w0 ++ new
       /\ forall uid ds key,
            marked ds key (ledger_of (w_store w) uid) = true ->
            marked ds key (ledger_of (w_store w0) uid) = true
            \/ exists e, In e new /\ to_uid e = uid /\ key_of (body e) = key.

(** Whether it returns or raises, the step keeps the property of the
    world. *)
Definition holds {A : Type} (Iw : world -> Prop) (c : T A) : Prop :=
  forall w, Iw w -> Iw (snd (c w)).

Lemma holds_pure {A : Type} (Iw : world -> Prop) (c : T A) :
  (forall w, snd (c w) = w) -> holds Iw c.
Proof. intros H w Hw. now rewrite H. Qed.

Lemma holds_bind {A B : Type} (Iw : world -> Prop) (c : T A) (k : A -> T B) :
  holds Iw c -> (forall a, holds Iw (k a)) -> holds Iw (bind c k).
Proof.
  intros Hc Hk w Hw. unfold bind. specialize (Hc w Hw).
  destruct (c w) as [[a|] w1]; simpl in *; [now apply Hk|assumption].
Qed.

Lemma holds_for_each {A : Type} (Iw : world -> Prop) (l : list A) (body : A -> T unit) :
  (forall x, holds Iw (body x)) -> holds Iw (for_each l body).
Proof.
  intros Hb. induction l as [|x r IH]; simpl.
  - now apply holds_pure.
  - apply holds_bind; auto.
Qed.

Lemma in_window_pure trigger now w : snd (in_window trigger now w) = w.
Proof.
  unfold in_window, bind, try_value, ret.
  destruct (trigger <=? now); [|reflexivity].
  destruct (plus_minutes trigger 1); reflexivity.
Qed.

Lemma ledger_of_get_user st uid uid' :
  ledger_of (snd (get_user uid st)) uid' = ledger_of st uid'.
Proof.
  destruct (get_user_spec st uid) as (G & _ & Sk & O & _).
  destruct (String.eqb_spec uid' uid) as [->|Ne].
  - unfold ledger_of at 1. now rewrite G.
  - unfold ledger_of. now rewrite (O uid' Ne).
Qed.

Lemma wf_ledger_get st uid :
  every_user wf_ledger st -> every_user wf_ledger (snd (get_user uid st)).
Proof.
  intros F. apply every_user_get; auto.
  constructor.
Qed.

Lemma wf_ledger_of st uid : every_user wf_ledger st -> dict_wf (ledger_of st uid).
Proof.
  intros F. unfold ledger_of. destruct (dict_get uid (users st)) as [u|] eqn:G.
  - exact (dict_get_values wf_ledger _ _ _ F G).
  - constructor.
Qed.

Section Backed.
Context {L : PyLib}.
Variable sink : Z -> message -> bool.
Variable time_file : option (list string).
Variable w0 : world.

Lemma backed_was_sent uid day key :
  holds (backed w0) (read_store (was_sent uid day key)).
Proof.
  intros w [F (new & E & B)]. unfold read_store.
  rewrite was_sent_unfold. unfold backed. cbn [snd w_store outbox].
  split; [now apply wf_ledger_get|].
  exists new. split; [assumption|].
  intros uid' ds' key'. rewrite ledger_of_get_user. apply B.
Qed.

Lemma backed_send_mark uid day text :
  holds (backed w0)
    (send_message sink uid text ;;; write_store (mark_sent uid day (key_of text))).
Proof.
  intros w [F (new & E & B)]. unfold bind, send_message, write_store.
  destruct (py_int uid) as [chat|]; [|split; eauto].
  destruct (sink chat text); [|split; eauto].
  unfold backed. cbn [snd w_store outbox]. split.
  - apply every_user_mark; auto.
    + constructor.
    + intros u ds k W. now apply mark_ledger_wf.
  - exists (new ++ [mksent uid chat text]).
    split; [now rewrite E, app_assoc|].
    intros uid' ds' key' M.
    apply marked_after_mark_sent in M; [|now apply wf_ledger_of].
    destruct M as [M|(-> & -> & ->)].
    + destruct (B _ _ _ M) as [M0|(e & I & P)]; [now left|].
      right. exists e. split; [apply in_or_app; now left|assumption].
    + right. exists (mksent uid chat text).
      split; [apply in_or_app; right; simpl; auto|]. split; reflexivity.
Qed.

Lemma backed_user_obj uid u0 : holds (backed w0) (user_obj uid u0).
Proof. now apply holds_pure. Qed.

Lemma backed_notify_user now today tmr today_times tomorrow_times item :
  holds (backed w0)
    (notify_user sink time_file now today tmr today_times tomorrow_times item).
Proof.
  destruct item as [uid u0]. unfold notify_user.
  apply holds_bind; [apply backed_user_obj|].
  intros u1. destruct (negb (enabled u1)); [now apply holds_pure|].
  apply holds_bind.
  { unfold morning_digest. apply holds_bind; [apply backed_user_obj|].
    intros u2. destruct (strftime_HM now =? morning_time u2)%string;
      [|now apply holds_pure].
    apply holds_bind; [apply backed_was_sent|].
    intros was. destruct was; [now apply holds_pure|].
    destruct today_times; apply (backed_send_mark uid today). }
  intros _. apply holds_bind.
  { unfold night_digest. apply holds_bind; [apply backed_user_obj|].
    intros u2. destruct (strftime_HM now =? night_time u2)%string;
      [|now apply holds_pure].
    apply holds_bind; [apply backed_was_sent|].
    intros was. destruct was; [now apply holds_pure|].
    destruct tomorrow_times; apply (backed_send_mark uid today). }
  intros _. unfold reminders.
  destruct today_times as [[sah_t ift_t]|]; [|now apply holds_pure].
  apply holds_bind; [apply backed_user_obj|].
  intros u2. apply holds_bind.
  { apply holds_for_each. intros x. unfold iftar_reminder.
    apply holds_bind; [apply backed_was_sent|].
    intros was. destruct was; [now apply holds_pure|].
    apply holds_bind; [now apply holds_pure|].
    intros trigger. apply holds_bind; [apply holds_pure, in_window_pure|].
    intros due. destruct due; [|now apply holds_pure].
    apply (backed_send_mark uid today (IftarIn x)). }
  intros _. apply holds_bind.
  { unfold iftar_now.
    apply holds_bind; [apply backed_was_sent|].
    intros was. destruct was; [now apply holds_pure|].
    apply holds_bind; [apply holds_pure, in_window_pure|].
    intros due. destruct due; [|now apply holds_pure].
    apply (backed_send_mark uid today IftarNow). }
  intros _.
  apply holds_for_each. intros x. unfold saharlik_reminder.
  apply holds_bind; [apply backed_was_sent|].
  intros was. destruct was; [now apply holds_pure|].
  apply holds_bind; [now apply holds_pure|].
  intros trigger. apply holds_bind; [apply holds_pure, in_window_pure|].
  intros due. destruct due; [|now apply holds_pure].
  apply (backed_send_mark uid today (SaharlikIn x)).
Qed.

Lemma backed_tick now w : backed w0 w -> backed w0 (tick sink time_file now w).
Proof.
  unfold tick, tick_body. revert w.
  apply holds_bind; [now apply holds_pure|].
  intros tmr. apply holds_bind; [now apply holds_pure|].
  intros items. apply holds_for_each. intros item. apply backed_notify_user.
Qed.

Lemma backed_loop nows w :
  backed w0 w -> backed w0 (notification_loop sink time_file nows w).
Proof.
  unfold notification_loop. revert w.
  induction nows as [|now nows IH]; intros w B; simpl; [assumption|].
  now apply IH, backed_tick.
Qed.

End Backed.

(** X20. The loop marks no key without a message. When the ledgers of the
    store have distinct days, a key that [was_sent] finds after any number
    of iterations of the loop, raising or not, was found before them, or
    the loop delivered to that user a message of that key in the meantime:
    ["morning"] and ["night"] for the two digests, [iftar-m] and
    [saharlik-m] for the reminders of [m] minutes, ["iftar-now"] for the
    notice at iftar. A send that fails marks nothing, so the notice is tried
    again by the next tick of its minute. *)
Theorem marks_follow_messages {L : PyLib} (sink : Z -> message -> bool)
    (time_file : option (list string)) (nows : list datetime) (w : world) :
  every_user (fun u => dict_wf (sent_keys u)) (w_store w) ->
  exists new,
    outbox (notification_loop sink time_file nows w) = outbox w ++ new
    /\ forall uid day key,
         fst (was_sent uid day key
                (w_store (notification_loop sink time_file nows w))) = true ->
         fst (was_sent uid day key (w_store w)) = true
         \/ exists e, In e new /\ to_uid e = uid /\ key_of (body e) = key.
Proof.
  intros F.
  assert (B : backed w w).
  { split; [exact F|]. exists []. split; [now rewrite app_nil_r|]. auto. }
  destruct (backed_loop sink time_file w nows w B) as [_ (new & E & H)].
  exists new. split; [exact E|].
  intros uid day key.
  rewrite (proj1 (was_sent_spec uid day key _)).
  rewrite (proj1 (was_sent_spec uid day key (w_store w))).
  apply H.
Qed.

Lemma marks_follow_messages_witness :
  exists new,
    outbox (notification_loop (fun _ _ => false) march_fifth
              [mkdatetime (mkdate 2024 3 5) 17 55 0 0] fresh_world)
    = outbox fresh_world ++ new
    /\ forall uid day key,
         fst (was_sent uid day key
                (w_store (notification_loop (fun _ _ => false) march_fifth
                            [mkdatetime (mkdate 2024 3 5) 17 55 0 0] fresh_world)))
         = true ->
         fst (was_sent uid day key (w_store fresh_world)) = true
         \/ exists e, In e new /\ to_uid e = uid /\ key_of (body e) = key.
Proof.
  apply (@marks_follow_messages strict_lib).
  unfold every_user. simpl. repeat constructor.
Defined.

(** ** Prayer texts *)







(** ** The loop: each notice once a day *)

Section IftarLead.
Context {L : PyLib}.
Variable sink : Z -> message -> bool.
Variable time_file : option (list string).
Variable uid : string.
Variable now : datetime.
Variable u : UserSettings.

Local Abbreviation ds := (isoformat (dt_date now)).

Lemma iftar_reminder_step m b ift_dt w w' :
  steady uid ds (iftar_key m) u b (w_store w) ->
  iftar_reminder sink uid now (dt_date now) ift_dt m w = (Some tt, w') ->
  steady uid ds (iftar_key m) u
    (b || due_at (instant ift_dt - m * 60000000) (instant now)) (w_store w')
  /\ fires_with uid (IftarIn m) b
       (due_at (instant ift_dt - m * 60000000) (instant now)) w w'.
Proof.
  intros S E. unfold iftar_reminder in E. fold (iftar_key m) in E.
  apply bind_some in E. destruct E as (was & w1 & E1 & E).
  apply (rule_was_sent uid now (iftar_key m) u b) in E1; [|assumption].
  destruct E1 as (-> & S1 & O1).
  assert (R : (if b then ret tt
               else if due_at (instant ift_dt - m * 60000000) (instant now)
                    then send_message sink uid (IftarIn m) ;;;
                         write_store (mark_sent uid (dt_date now) (iftar_key m))
                    else ret tt) w1 = (Some tt, w')).
  { destruct b; [exact E|].
    apply bind_some in E. destruct E as (trigger & w2 & E2 & E).
    unfold try_value in E2. injection E2 as E2 <-.
    apply plus_minutes_some in E2.
    replace (instant ift_dt + - m * 60000000)
      with (instant ift_dt - m * 60000000) in E2 by lia.
    subst trigger.
    apply bind_some in E. destruct E as (due & w2 & E2 & E).
    apply in_window_run in E2. destruct E2 as [-> ->]. exact E. }
  apply (rule_fire sink uid now (iftar_key m) (IftarIn m) u b) in R; [|assumption].
  destruct R as [S2 F]. split; [assumption|].
  now apply (fires_with_from _ _ _ _ w w1).
Qed.

Lemma iftar_notify_user m b u0 tmr sah ift tomorrow_times w w' :
  steady uid ds (iftar_key m) u b (w_store w) ->
  In m (iftar (preset_leads (preset u))) ->
  notify_user sink time_file now (dt_date now) tmr (Some (sah, ift))
    tomorrow_times (uid, u0) w = (Some tt, w') ->
  rule_run uid now (iftar_key m) (IftarIn m) u b
    (due_at (instant (combine (dt_date now) ift) - m * 60000000) (instant now)) w w'.
Proof.
  intros S Im E.
  destruct (steady_record _ _ _ _ _ _ S) as (u' & G & En & _).
  destruct (notify_user_phases _ _ _ _ _ _ _ _ _ _ _ _ G En E)
    as (w1 & w2 & Em & Ei & Er).
  assert (Km : keeps (steady uid ds (iftar_key m) u b)
                 (other_than uid (IftarIn m)) any
                 (morning_digest sink time_file uid u0 now (dt_date now)
                    (Some (sah, ift)))).
  { apply rule_morning; [apply iftar_key_not_morning|discriminate]. }
  destruct (keeps_run _ _ _ _ _ _ _ Km S Em) as [S1 G1].
  assert (Kn : keeps (steady uid ds (iftar_key m) u b)
                 (other_than uid (IftarIn m)) any
                 (night_digest sink time_file uid u0 now (dt_date now) tmr
                    tomorrow_times)).
  { apply rule_night; [apply iftar_key_not_night|].
    destruct tomorrow_times; discriminate. }
  destruct (keeps_run _ _ _ _ _ _ _ Kn S1 Ei) as [S2 G2].
  destruct (steady_record _ _ _ _ _ _ S2) as (u2 & G2' & _ & P2 & _).
  destruct (reminders_phases _ _ _ _ _ _ _ _ _ _ G2' Er) as (w3 & w4 & Ea & Eb & Ec).
  rewrite P2 in Ea.
  assert (Nd := preset_leads_NoDup (preset u)).
  destruct (in_split _ _ Im) as (l1 & l2 & El). rewrite El in Ea, Nd.
  apply NoDup_remove_2 in Nd.
  rewrite for_each_app in Ea.
  apply bind_some in Ea. destruct Ea as ([] & w5 & Ea1 & Ea).
  simpl in Ea.
  apply bind_some in Ea. destruct Ea as ([] & w6 & Ea2 & Ea3).
  assert (Ka : forall b' l,
             (forall x, In x l -> x <> m) ->
             keeps (steady uid ds (iftar_key m) u b')
               (other_than uid (IftarIn m)) any
               (for_each l (iftar_reminder sink uid now (dt_date now)
                              (combine (dt_date now) ift)))).
  { intros b' l Hl. apply keeps_for_each. intros x Ix. apply rule_iftar.
    - intros E'. apply (Hl x Ix). now apply iftar_key_inj.
    - intros [= E']. now apply (Hl x Ix). }
  destruct (keeps_run _ _ _ _ _ _ _
              (Ka b l1 ltac:(intros x Ix ->; apply Nd, in_or_app; now left)) S2 Ea1)
    as [S5 G5].
  destruct (iftar_reminder_step m b _ w5 w6 S5 Ea2) as [S6 F].
  apply rule_run_before with (w1 := w5);
    [eauto using grows_trans|].
  apply rule_run_after with (w1 := w4).
  - apply rule_run_after with (w1 := w3).
    + apply rule_run_after with (w1 := w6); [now apply rule_run_here|].
      intros S6'.
      exact (keeps_run _ _ _ _ _ _ _
               (Ka _ l2 ltac:(intros x Ix ->; apply Nd, in_or_app; now right)) S6' Ea3).
    + intros S3. refine (keeps_run _ _ _ _ _ _ _ _ S3 Eb).
      apply rule_iftar_now; [apply iftar_key_not_now|discriminate].
  - intros S4. refine (keeps_run _ _ _ _ _ _ _ _ S4 Ec).
    apply keeps_for_each. intros x _. apply rule_saharlik; [|discriminate].
    apply iftar_key_not_saharlik.
Qed.

End IftarLead.

(** The notices of the loop. *)
Inductive notice :=
| MorningNotice
| NightNotice
| IftarLead (m : Z)
| IftarNotice
| SaharlikLead (m : Z).

(** The ledger key of a notice. *)
Definition notice_key (n : notice) : string :=
  match n with
  | MorningNotice => "morning"
  | NightNotice => "night"
  | IftarLead m => iftar_key m
  | IftarNotice => "iftar-now"
  | SaharlikLead m => saharlik_key m
  end.

(** The message of a notice on the day [day]. *)
Definition notice_text {L : PyLib} (time_file : option (list string)) (day : date)
    (n : notice) : message :=
  match n with
  | MorningNotice => morning_text time_file day
  | NightNotice =>
      match next_day day with
      | Some tmr => night_text time_file tmr
      | None => NightNotFound
      end
  | IftarLead m => IftarIn m
  | IftarNotice => IftarNow
  | SaharlikLead m => SaharlikIn m
  end.

(** The test the loop makes for a notice at the instant of a tick: the
    clock reads the digest time of the record, or the instant is in the
    minute that starts at the trigger of the reminder. *)
Definition notice_due {L : PyLib} (time_file : option (list string))
    (u : UserSettings) (n : notice) (now : datetime) : bool :=
  match n with
  | MorningNotice => (strftime_HM now =? morning_time u)%string
  | NightNotice => (strftime_HM now =? night_time u)%string
  | IftarLead m =>
      match load_day_times time_file (dt_date now) with
      | Some (_, ift) =>
          due_at (instant (combine (dt_date now) ift) - m * 60000000) (instant now)
      | None => false
      end
  | IftarNotice =>
      match load_day_times time_file (dt_date now) with
      | Some (_, ift) => due_at (instant (combine (dt_date now) ift)) (instant now)
      | None => false
      end
  | SaharlikLead m =>
      match load_day_times time_file (dt_date now) with
      | Some (sah, _) =>
          due_at (instant (combine (dt_date now) sah) - m * 60000000) (instant now)
      | None => false
      end
  end.

(** The loop looks at the notice for the record [u] on the day [day]: a
    reminder needs an entry for the day, and its lead in the preset. *)
Definition notice_listed {L : PyLib} (time_file : option (list string)) (day : date)
    (u : UserSettings) (n : notice) : Prop :=
  match n with
  | MorningNotice | NightNotice => True
  | IftarLead m =>
      load_day_times time_file day <> None /\ In m (iftar (preset_leads (preset u)))
  | IftarNotice => load_day_times time_file day <> None
  | SaharlikLead m =>
      load_day_times time_file day <> None
      /\ In m (saharlik (preset_leads (preset u)))
  end.

(** Every tick of the run returns. *)
Fixpoint all_return {L : PyLib} (sink : Z -> message -> bool)
    (time_file : option (list string)) (nows : list datetime) (w : world) : Prop :=
  match nows with
  | [] => True
  | now :: rest =>
      tick_body sink time_file now w = (Some tt, tick sink time_file now w)
      /\ all_return sink time_file rest (tick sink time_file now w)
  end.

Lemma sent_once_join {L : PyLib} uid text f1 f2 w w1 w2 :
  sent_once uid text f1 w w1 -> sent_once uid text f2 w1 w2 -> f1 && f2 = false ->
  sent_once uid text (f1 || f2) w w2.
Proof.
  intros (b1 & x1 & a1 & E1 & B1 & A1 & F1) (b2 & x2 & a2 & E2 & B2 & A2 & F2) N.
  destruct f1; simpl in *.
  - subst f2. subst x2. exists b1, x1, (a1 ++ b2 ++ a2).
    split; [rewrite E2, E1, <- !app_assoc; reflexivity|].
    split; [assumption|]. split; [|assumption].
    repeat (apply Forall_app; split); assumption.
  - subst x1. exists (b1 ++ a1 ++ b2), x2, a2.
    split; [rewrite E2, E1, <- !app_assoc; reflexivity|].
    split; [|auto]. repeat (apply Forall_app; split); assumption.
Qed.

Lemma rule_run_sent_once {L : PyLib} uid now key text u b due w w' :
  rule_run uid now key text u b due w w' ->
  sent_once uid text (due && negb b) w w'
  /\ steady uid (isoformat (dt_date now)) key u (b || due) (w_store w').
Proof.
  intros R. split; [now apply (rule_outcome uid now key text u)|].
  destruct R as (w3 & w4 & _ & _ & _ & S). exact S.
Qed.

Section Day.
Context {L : PyLib}.
Variable sink : Z -> message -> bool.
Variable time_file : option (list string).
Variable uid : string.
Variable u : UserSettings.
Variable day : date.
Variable n : notice.

Local Abbreviation J := (steady uid (isoformat day) (notice_key n) u).

(** One tick of the day that returns. *)
Lemma notice_tick now b w w' :
  dt_date now = day ->
  notice_listed time_file day u n ->
  J b (w_store w) ->
  tick_body sink time_file now w = (Some tt, w') ->
  sent_once uid (notice_text time_file day n)
    (notice_due time_file u n now && negb b) w w'
  /\ J (b || notice_due time_file u n now) (w_store w').
Proof.
  intros <- Li S E.
  destruct (tick_body_tomorrow _ _ _ _ _ E) as (tmr & N).
  apply rule_run_sent_once.
  destruct n as [| |m| |m]; simpl in *.
  - apply (rule_tick sink time_file uid now "morning" _ u _ _ tmr w w' N); auto.
    intros u0 w1 w2. apply morning_notify_user.
  - rewrite N.
    apply (rule_tick sink time_file uid now "night" _ u _ _ tmr w w' N); auto.
    intros u0 w1 w2. apply night_notify_user.
  - destruct Li as [T Im].
    destruct (load_day_times time_file (dt_date now)) as [[sah ift]|] eqn:T';
      [|congruence].
    apply (rule_tick sink time_file uid now (iftar_key m) _ u _ _ tmr w w' N); auto.
    intros u0 w1 w2 S1. rewrite T'. now apply iftar_notify_user.
  - destruct (load_day_times time_file (dt_date now)) as [[sah ift]|] eqn:T';
      [|congruence].
    apply (rule_tick sink time_file uid now "iftar-now" _ u _ _ tmr w w' N); auto.
    intros u0 w1 w2. rewrite T'. apply iftar_now_notify_user.
  - destruct Li as [T Im].
    destruct (load_day_times time_file (dt_date now)) as [[sah ift]|] eqn:T';
      [|congruence].
    apply (rule_tick sink time_file uid now (saharlik_key m) _ u _ _ tmr w w' N); auto.
    intros u0 w1 w2 S1. rewrite T'. now apply saharlik_notify_user.
Qed.

(** The ticks of the day, one after the other. *)
Lemma notice_day nows b w :
  Forall (fun now => dt_date now = day) nows ->
  notice_listed time_file day u n ->
  all_return sink time_file nows w ->
  J b (w_store w) ->
  sent_once uid (notice_text time_file day n)
    (existsb (notice_due time_file u n) nows && negb b) w
    (notification_loop sink time_file nows w)
  /\ J (b || existsb (notice_due time_file u n) nows)
       (w_store (notification_loop sink time_file nows w)).
Proof.
  intros D Li. revert b w. unfold notification_loop.
  induction D as [|now rest Dn Dr IH]; intros b w R S; simpl.
  - rewrite orb_false_r. split; [|assumption].
    exists [], [], []. simpl. rewrite app_nil_r. repeat split; constructor.
  - destruct R as [E R].
    destruct (notice_tick now b w _ Dn Li S E) as [O1 S1].
    destruct (IH _ _ R S1) as [O2 S2].
    split.
    + replace ((notice_due time_file u n now
                || existsb (notice_due time_file u n) rest) && negb b)
        with ((notice_due time_file u n now && negb b)
              || (existsb (notice_due time_file u n) rest
                  && negb (b || notice_due time_file u n now)))
        by (destruct (notice_due time_file u n now),
              (existsb (notice_due time_file u n) rest), b; reflexivity).
      apply sent_once_join with (w1 := tick sink time_file now w); auto.
      destruct (notice_due time_file u n now),
        (existsb (notice_due time_file u n) rest), b; reflexivity.
    + now rewrite orb_assoc.
Qed.

End Day.

(** X22. Each notice goes out once a day. Over the ticks of one day that
    all return, in any number and at any instants, an enabled user of a
    store with distinct uids, whose ledger has distinct days and keeps the
    day when pruned, gets a notice the loop looks at for it (a digest, or a
    reminder of a lead of its preset on a day that has an entry) exactly
    once if its key was not marked and some tick fell in its minute, and
    not at all otherwise; the key is marked at the end if it was at the
    start or some tick fell in the minute. *)
Theorem notice_sent_once_a_day {L : PyLib} (sink : Z -> message -> bool)
    (time_file : option (list string)) (day : date) (nows : list datetime)
    (w : world) (uid : string) (u : UserSettings) (n : notice) :
  Forall (fun now => dt_date now = day) nows ->
  all_return sink time_file nows w ->
  dict_wf (users (w_store w)) ->
  dict_get uid (users (w_store w)) = Some u ->
  enabled u = true ->
  dict_wf (sent_keys u) ->
  recent (isoformat day) (sent_keys u) ->
  notice_listed time_file day u n ->
  sent_once uid (notice_text time_file day n)
    (existsb (notice_due time_file u n) nows
     && negb (marked (isoformat day) (notice_key n) (sent_keys u)))
    w (notification_loop sink time_file nows w)
  /\ fst (was_sent uid day (notice_key n)
            (w_store (notification_loop sink time_file nows w)))
     = marked (isoformat day) (notice_key n) (sent_keys u)
       || existsb (notice_due time_file u n) nows.
Proof.
  intros D R W G En Wl Re Li.
  destruct (notice_day sink time_file uid u day n nows
              (marked (isoformat day) (notice_key n) (sent_keys u)) w D Li R)
    as [O S].
  { now apply steady_start. }
  split; [exact O|].
  destruct (steady_record _ _ _ _ _ _ S) as (u' & G' & _ & _ & _ & _ & M).
  destruct (was_sent_spec uid day (notice_key n)
              (w_store (notification_loop sink time_file nows w))) as [-> _].
  unfold ledger_of. now rewrite G'.
Qed.

Lemma notice_sent_once_a_day_witness :
  @sent_once strict_lib "7" (IftarIn 5) true fresh_world
    (notification_loop (fun _ _ => true) march_fifth
       [mkdatetime (mkdate 2024 3 5) 17 54 59 0;
        mkdatetime (mkdate 2024 3 5) 17 55 0 0;
        mkdatetime (mkdate 2024 3 5) 17 55 20 0;
        mkdatetime (mkdate 2024 3 5) 17 55 40 0] fresh_world).
Proof.
  apply (@notice_sent_once_a_day strict_lib (fun _ _ => true) march_fifth
           (mkdate 2024 3 5)
           [mkdatetime (mkdate 2024 3 5) 17 54 59 0;
            mkdatetime (mkdate 2024 3 5) 17 55 0 0;
            mkdatetime (mkdate 2024 3 5) 17 55 20 0;
            mkdatetime (mkdate 2024 3 5) 17 55 40 0]
           fresh_world "7" new_user (IftarLead 5)).
  - repeat constructor.
  - simpl. repeat split; reflexivity.
  - repeat constructor. simpl. tauto.
  - reflexivity.
  - reflexivity.
  - constructor.
  - unfold recent. simpl. lia.
  - simpl. split; [discriminate|tauto].
Defined.
